(** * FoodDeliverySystem: a shallow embedding of [food_delivery_system.py]

    The Python class [FoodDeliverySystem] keeps four insertion-ordered
    dictionaries (restaurants, customers, orders, delivery agents), mutates
    them in place and rewrites the whole data file after every mutation.
    The embedding below follows the source method by method:

    - a Python [dict] with string keys is an association list that keeps
      insertion order ([Dict.set] overwrites in place or appends), because
      [assign_delivery_agent] recovers an agent id by scanning the items in
      order and [search_restaurants] returns its hits in order;
    - the methods live in a small state monad [Op] that threads the object's
      fields, collects the log records and the data-file writes, and can
      raise ([KeyError], [IndexError], [OverflowError]) while keeping the
      mutations made before the raise;
    - the clock and the random generator are explicit arguments;
    - prices are Python numbers (the docstring's [price (float)]),
      quantities are Python ints and a stored total is the float that
      [round(_, 2)] returned; numbers are kept abstract behind the class
      [PyNum]: the addition and the price-times-quantity of [place_order],
      each with the [OverflowError] it raises when an int operand is beyond
      the float range, [round(_, 2)] and the literals [0] and [2.99]; so
      every statement holds for whatever arithmetic the interpreter uses;
      the sum of stored totals in [generate_report] adds floats, which does
      not raise; an exact decimal instance over [Q], which is not IEEE
      arithmetic, runs the examples;
    - a Python [str] is the string of the bytes of its UTF-8 encoding, on
      which emptiness, concatenation and the substring test [in] are those
      of the text, and [str.lower()] is a parameter (class [PyStr]), since
      its Unicode tables are not part of this program; the examples use
      plain ASCII text, on which it folds [A-Z];
    - a [menu] passed to [add_restaurant] is stored by value, where the
      source keeps the caller's [dict] object: two restaurants created with
      one [dict] share it in the source and do not here, so what is said of
      [add_menu_item] concerns the restaurant it names; a state the source
      reaches through such sharing is reached here by repeating the call
      for the other restaurant;
    - writing the data file always succeeds ([save_data] catches and logs
      a failed write without touching the state). *)

From Stdlib Require Import ZArith QArith Ascii String.
From stdpp Require Import base option list strings pretty.

Local Open Scope string_scope.
Local Open Scope list_scope.

(** ** Python numbers *)

Class PyNum (num : Type) := {
  nzero : num;                    (* the literal 0 (and 0.0) *)
  nfee : num;                     (* the literal 2.99 *)
  nadd : num -> num -> num;       (* x + y, when it returns *)
  nscale : num -> Z -> num;       (* price * quantity, when it returns *)
  nadd_overflows : num -> num -> bool;
                                  (* x + y raises OverflowError *)
  nscale_overflows : num -> Z -> bool;
                                  (* price * quantity raises OverflowError *)
  round2 : num -> num             (* round(x, 2) *)
}.

(** ** Python strings: [str.lower()] *)

Class PyStr := { lower : string -> string }.

(** Python's [sum(xs)]: start from 0 and add from left to right. *)
Definition py_sum {num : Type} `{PyNum num} (xs : list num) : num :=
  fold_left nadd xs nzero.

(** ** Insertion-ordered dictionaries with string keys *)

Abbreviation dict V := (list (string * V)).

Module Dict.
Section ordered.
Context {V : Type}.

(** [d.get(k)], [k in d] and [d[k]] *)
Fixpoint get (k : string) (d : dict V) : option V :=
  match d with
  | [] => None
  | (k', v) :: d' => if String.eqb k k' then Some v else get k d'
  end.

(** [d[k] = v]: an existing key keeps its position, a new key goes last. *)
Fixpoint set (k : string) (v : V) (d : dict V) : dict V :=
  match d with
  | [] => [(k, v)]
  | (k', v') :: d' =>
      if String.eqb k k' then (k, v) :: d' else (k', v') :: set k v d'
  end.

Definition keys (d : dict V) : list string := map fst d.
Definition values (d : dict V) : list V := map snd d.

End ordered.
End Dict.

(** Truthiness of an optional string: [None] and [""] are falsy. *)
Definition truthy (o : option string) : option string :=
  match o with
  | Some s => if String.eqb s "" then None else Some s
  | None => None
  end.

(** [x or y] for an optional string [x]. *)
Definition py_or (x : option string) (y : string) : string :=
  match truthy x with Some s => s | None => y end.

(** ** The records stored in the four collections *)

Section System.
Context {num : Type} `{NumOps : PyNum num} `{StrOps : PyStr}.

Record MenuItem := mkMenuItem {
  mi_name : string;
  mi_price : num;
  mi_description : string;
  mi_category : string;
  mi_available : bool
}.

Record Restaurant := mkRestaurant {
  r_name : string;
  r_cuisine : string;
  r_location : string;
  r_menu : dict MenuItem;
  r_rating : num;
  r_total_orders : Z
}.

Record Customer := mkCustomer {
  c_name : string;
  c_email : string;
  c_phone : string;
  c_address : string;
  c_order_history : list string
}.

Record Agent := mkAgent {
  a_name : string;
  a_phone : string;
  a_vehicle_type : string;
  a_status : string;
  a_current_order : option string;
  a_total_deliveries : Z
}.

Record LineItem := mkLineItem {
  li_item_id : string;
  li_name : string;
  li_price : num;
  li_quantity : Z
}.

(** Timestamps ([datetime.isoformat()] strings in the source) are kept as
    the number of microseconds they denote. *)
Record Order := mkOrder {
  o_order_id : string;
  o_customer_id : string;
  o_restaurant_id : string;
  o_items : list LineItem;
  o_total_price : num;
  o_status : string;
  o_order_time : Z;
  o_delivery_address : string;
  o_delivery_agent : option string;
  o_estimated_delivery : option Z
}.

(** The fields of [self] that make up the system state. *)
Record Data := mkData {
  restaurants : dict Restaurant;
  customers : dict Customer;
  orders : dict Order;
  delivery_agents : dict Agent
}.

Definition empty_data : Data := mkData [] [] [] [].

#[export] Instance Agent_eq_dec : EqDecision Agent.
Proof. solve_decision. Defined.

(** Field assignments [record['field'] = value]. *)
Definition with_status (st : string) (o : Order) : Order :=
  mkOrder (o_order_id o) (o_customer_id o) (o_restaurant_id o) (o_items o)
    (o_total_price o) st (o_order_time o) (o_delivery_address o)
    (o_delivery_agent o) (o_estimated_delivery o).

Definition with_delivery_agent (a : option string) (o : Order) : Order :=
  mkOrder (o_order_id o) (o_customer_id o) (o_restaurant_id o) (o_items o)
    (o_total_price o) (o_status o) (o_order_time o) (o_delivery_address o)
    a (o_estimated_delivery o).

Definition with_estimated_delivery (t : option Z) (o : Order) : Order :=
  mkOrder (o_order_id o) (o_customer_id o) (o_restaurant_id o) (o_items o)
    (o_total_price o) (o_status o) (o_order_time o) (o_delivery_address o)
    (o_delivery_agent o) t.

Definition with_agent_status (st : string) (a : Agent) : Agent :=
  mkAgent (a_name a) (a_phone a) (a_vehicle_type a) st
    (a_current_order a) (a_total_deliveries a).

Definition with_current_order (c : option string) (a : Agent) : Agent :=
  mkAgent (a_name a) (a_phone a) (a_vehicle_type a) (a_status a)
    c (a_total_deliveries a).

Definition with_total_deliveries (n : Z) (a : Agent) : Agent :=
  mkAgent (a_name a) (a_phone a) (a_vehicle_type a) (a_status a)
    (a_current_order a) n.

Definition with_menu (m : dict MenuItem) (r : Restaurant) : Restaurant :=
  mkRestaurant (r_name r) (r_cuisine r) (r_location r) m
    (r_rating r) (r_total_orders r).

Definition with_total_orders (n : Z) (r : Restaurant) : Restaurant :=
  mkRestaurant (r_name r) (r_cuisine r) (r_location r) (r_menu r)
    (r_rating r) n.

Definition with_order_history (h : list string) (c : Customer) : Customer :=
  mkCustomer (c_name c) (c_email c) (c_phone c) (c_address c) h.

(** ** The method monad: state, log and file writes, exceptions *)

Inductive Exn := KeyError (key : string) | IndexError | OverflowError.
Inductive Level := INFO | WARNING | ERROR.
Inductive Event :=
  | Log (lvl : Level) (msg : string)
  | Saved (snapshot : Data).       (* json.dump of the four collections *)

Record Outcome (A : Type) := mkOutcome {
  result : Exn + A;
  final : Data;
  events : list Event
}.
Arguments mkOutcome {A} _ _ _.
Arguments result {A} _.
Arguments final {A} _.
Arguments events {A} _.

Definition Op (A : Type) : Type := Data -> Outcome A.

#[export] Instance Op_ret : MRet Op := fun A x s => mkOutcome (inr x) s [].

#[export] Instance Op_bind : MBind Op := fun A B f m s =>
  match m s with
  | mkOutcome (inl e) s1 evs => mkOutcome (inl e) s1 evs
  | mkOutcome (inr x) s1 evs =>
      match f x s1 with
      | mkOutcome res s2 evs' => mkOutcome res s2 (evs ++ evs')
      end
  end.

Definition raise {A} (e : Exn) : Op A := fun s => mkOutcome (inl e) s [].
Definition get_self : Op Data := fun s => mkOutcome (inr s) s [].
Definition put_self (s' : Data) : Op unit := fun _ => mkOutcome (inr tt) s' [].
Definition emit (e : Event) : Op unit := fun s => mkOutcome (inr tt) s [e].
Definition log (lvl : Level) (msg : string) : Op unit := emit (Log lvl msg).

(** [save_data]: dump the four collections, then log. *)
Definition save_data : Op unit :=
  s ← get_self;
  emit (Saved s);;
  log INFO "Data saved successfully.".

(** [self.orders[order_id][field] = value] as a record update [f]. *)
Definition set_order_field (order_id : string) (f : Order -> Order) : Op unit :=
  s ← get_self;
  match Dict.get order_id (orders s) with
  | None => raise (KeyError order_id)
  | Some o =>
      put_self (mkData (restaurants s) (customers s)
                  (Dict.set order_id (f o) (orders s)) (delivery_agents s))
  end.

(** [self.delivery_agents[agent_id][field] = value]. *)
Definition set_agent_field (agent_id : string) (f : Agent -> Agent) : Op unit :=
  s ← get_self;
  match Dict.get agent_id (delivery_agents s) with
  | None => raise (KeyError agent_id)
  | Some a =>
      put_self (mkData (restaurants s) (customers s) (orders s)
                  (Dict.set agent_id (f a) (delivery_agents s)))
  end.

(** ** Registries *)

(** [add_restaurant(name, cuisine, location, menu=None)] *)
Definition add_restaurant (name cuisine location : string)
    (menu : option (dict MenuItem)) : Op unit :=
  s ← get_self;
  let restaurant_id := "rest_" +:+ pretty (length (restaurants s) + 1)%nat in
  put_self (mkData
    (Dict.set restaurant_id
       (mkRestaurant name cuisine location
          (match menu with                                  (* menu or {} *)
           | Some ((_ :: _) as m) => m
           | _ => []
           end)
          nzero 0%Z)
       (restaurants s))
    (customers s) (orders s) (delivery_agents s));;
  log INFO ("Restaurant added: " +:+ name);;
  save_data.

(** [add_menu_item(restaurant_id, item_name, price, description, category)] *)
Definition add_menu_item (restaurant_id item_name : string) (price : num)
    (description category : string) : Op unit :=
  s ← get_self;
  match Dict.get restaurant_id (restaurants s) with
  | Some r =>
      let item_id := "item_" +:+ pretty (length (r_menu r) + 1)%nat in
      put_self (mkData
        (Dict.set restaurant_id
           (with_menu
              (Dict.set item_id
                 (mkMenuItem item_name price description category true)
                 (r_menu r)) r)
           (restaurants s))
        (customers s) (orders s) (delivery_agents s));;
      log INFO ("Menu item added: " +:+ item_name +:+ " to " +:+ restaurant_id);;
      save_data
  | None =>
      log ERROR ("Restaurant " +:+ restaurant_id +:+ " not found.")
  end.

(** [register_customer(name, email, phone, address)] *)
Definition register_customer (name email phone address : string) : Op string :=
  s ← get_self;
  let customer_id := "cust_" +:+ pretty (length (customers s) + 1)%nat in
  put_self (mkData (restaurants s)
    (Dict.set customer_id (mkCustomer name email phone address []) (customers s))
    (orders s) (delivery_agents s));;
  log INFO ("Customer registered: " +:+ name);;
  save_data;;
  mret customer_id.

(** [add_delivery_agent(name, phone, vehicle_type)] *)
Definition add_delivery_agent (name phone vehicle_type : string) : Op unit :=
  s ← get_self;
  let agent_id := "agent_" +:+ pretty (length (delivery_agents s) + 1)%nat in
  put_self (mkData (restaurants s) (customers s) (orders s)
    (Dict.set agent_id (mkAgent name phone vehicle_type "available" None 0%Z)
       (delivery_agents s)));;
  log INFO ("Delivery agent added: " +:+ name);;
  save_data.

(** ** Order placement *)

(** [item['price'] * quantity]: the int is converted to a float first, which
    raises when it is beyond the float range. *)
Definition py_mul (price : num) (quantity : Z) : Op num :=
  if nscale_overflows price quantity then raise OverflowError
  else mret (nscale price quantity).

(** [total_price += amount]: an int operand is converted to a float when
    the other one is a float, which raises in the same way. *)
Definition py_add (x y : num) : Op num :=
  if nadd_overflows x y then raise OverflowError else mret (nadd x y).

(** The [for item_id, quantity in items] loop of [place_order], with its
    two accumulators [order_items] and [total_price]. *)
Fixpoint collect_items (menu : dict MenuItem) (items : list (string * Z))
    (order_items : list LineItem) (total_price : num)
    : Op (list LineItem * num) :=
  match items with
  | [] => mret (order_items, total_price)
  | (item_id, quantity) :: rest =>
      match Dict.get item_id menu with
      | Some item =>
          if mi_available item then
            let order_items :=
              order_items ++
                [mkLineItem item_id (mi_name item) (mi_price item) quantity] in
            amount ← py_mul (mi_price item) quantity;
            total_price ← py_add total_price amount;
            collect_items menu rest order_items total_price
          else
            log WARNING ("Item " +:+ item_id +:+ " is not available.");;
            collect_items menu rest order_items total_price
      | None =>
          log ERROR ("Item " +:+ item_id +:+ " not found in menu.");;
          collect_items menu rest order_items total_price
      end
  end.

(** [place_order(customer_id, restaurant_id, items, delivery_address=None)];
    [now] is the value of [datetime.datetime.now()]. *)
Definition place_order (now : Z) (customer_id restaurant_id : string)
    (items : list (string * Z)) (delivery_address : option string)
    : Op (option string) :=
  s ← get_self;
  match Dict.get customer_id (customers s) with
  | None =>
      log ERROR ("Customer " +:+ customer_id +:+ " not found.");;
      mret None
  | Some c =>
  match Dict.get restaurant_id (restaurants s) with
  | None =>
      log ERROR ("Restaurant " +:+ restaurant_id +:+ " not found.");;
      mret None
  | Some r =>
      let order_id := "order_" +:+ pretty (length (orders s) + 1)%nat in
      '(order_items, total_price) ← collect_items (r_menu r) items [] nzero;
      match order_items with
      | [] =>
          log ERROR "No valid items in order.";;
          mret None
      | _ :: _ =>
          let delivery_fee := nfee in
          total_price ← py_add total_price delivery_fee;
          let order :=
            mkOrder order_id customer_id restaurant_id order_items
              (round2 total_price) "placed" now
              (py_or delivery_address (c_address c)) None None in
          put_self (mkData
            (Dict.set restaurant_id
               (with_total_orders (r_total_orders r + 1)%Z r) (restaurants s))
            (Dict.set customer_id
               (with_order_history (c_order_history c ++ [order_id]) c)
               (customers s))
            (Dict.set order_id order (orders s))
            (delivery_agents s));;
          log INFO ("Order placed: " +:+ order_id);;
          save_data;;
          mret (Some order_id)
      end
  end
  end.

(** ** Agent assignment and status changes *)

(** [random.choice(seq)]: the element at a random index below [len(seq)];
    [r] is the draw. An empty sequence raises. *)
Definition random_choice {A : Type} (r : nat) (seq : list A) : Op A :=
  match seq !! (r mod length seq)%nat with
  | Some x => mret x
  | None => raise IndexError
  end.

(** [random.randint(lo, hi)] for [lo <= hi]; [r] is the draw. *)
Definition random_randint (r : nat) (lo hi : Z) : Z :=
  (lo + Z.of_nat r mod (hi - lo + 1))%Z.

(** [seq[0]] *)
Definition first_item {A : Type} (seq : list A) : Op A :=
  match seq with
  | x :: _ => mret x
  | [] => raise IndexError
  end.

(** [datetime.timedelta(minutes=m)] in microseconds. *)
Definition timedelta_minutes (m : Z) : Z := (m * 60000000)%Z.

(** [assign_delivery_agent(order_id)]; [now] is the clock reading and
    [r_agent], [r_minutes] are the two random draws. *)
Definition assign_delivery_agent (now : Z) (r_agent r_minutes : nat)
    (order_id : string) : Op unit :=
  s ← get_self;
  match Dict.get order_id (orders s) with
  | None => log ERROR ("Order " +:+ order_id +:+ " not found.")
  | Some _ =>
      let available_agents :=
        filter (fun a => a_status a = "available")
          (Dict.values (delivery_agents s)) in
      match available_agents with
      | _ :: _ =>
          agent ← random_choice r_agent available_agents;
          agent_id ←
            first_item (filter (fun kv => kv.2 = agent) (delivery_agents s)).*1;
          set_order_field order_id (with_delivery_agent (Some agent_id));;
          set_order_field order_id (with_status "assigned");;
          set_agent_field agent_id (with_agent_status "busy");;
          set_agent_field agent_id (with_current_order (Some order_id));;
          let delivery_time :=
            (now + timedelta_minutes (random_randint r_minutes 15 45))%Z in
          set_order_field order_id (with_estimated_delivery (Some delivery_time));;
          log INFO ("Delivery agent " +:+ agent_id +:+ " assigned to order "
                    +:+ order_id);;
          save_data
      | [] => log WARNING "No available delivery agents."
      end
  end.

(** [self.orders[order_id]['delivery_agent']] *)
Definition get_delivery_agent (order_id : string) : Op (option string) :=
  s ← get_self;
  match Dict.get order_id (orders s) with
  | Some o => mret (o_delivery_agent o)
  | None => raise (KeyError order_id)
  end.

(** [update_order_status(order_id, status)] *)
Definition update_order_status (order_id status : string) : Op unit :=
  s ← get_self;
  match Dict.get order_id (orders s) with
  | Some o =>
      let old_status := o_status o in
      set_order_field order_id (with_status status);;
      (if String.eqb status "delivered" then
         agent_id ← get_delivery_agent order_id;
         match truthy agent_id with
         | Some agent_id =>
             set_agent_field agent_id (with_agent_status "available");;
             set_agent_field agent_id (with_current_order None);;
             set_agent_field agent_id
               (fun a => with_total_deliveries (a_total_deliveries a + 1)%Z a)
         | None => mret tt
         end
       else mret tt);;
      log INFO ("Order " +:+ order_id +:+ " status updated: " +:+ old_status
                +:+ " -> " +:+ status);;
      save_data
  | None => log ERROR ("Order " +:+ order_id +:+ " not found.")
  end.

(** ** Queries *)

Record StatusInfo := mkStatusInfo {
  si_order_id : string;
  si_status : string;
  si_order_time : Z;
  si_estimated_delivery : option Z;
  si_total_price : num
}.

(** [get_order_status(order_id)] *)
Definition get_order_status (order_id : string) : Op (option StatusInfo) :=
  s ← get_self;
  match Dict.get order_id (orders s) with
  | Some order =>
      mret (Some (mkStatusInfo order_id (o_status order) (o_order_time order)
                    (o_estimated_delivery order) (o_total_price order)))
  | None => mret None
  end.

Record Report := mkReport {
  rep_total_orders : nat;
  rep_total_customers : nat;
  rep_total_restaurants : nat;
  rep_total_delivery_agents : nat;
  rep_order_status_breakdown : dict Z;
  rep_total_revenue : num;
  rep_generated_at : Z
}.

(** [order_status_counts[status] += 1] on a [defaultdict(int)] *)
Definition count_status (counts : dict Z) (order : Order) : dict Z :=
  Dict.set (o_status order)
    (default 0%Z (Dict.get (o_status order) counts) + 1)%Z counts.

(** [generate_report()] *)
Definition generate_report (now : Z) : Op Report :=
  s ← get_self;
  let total_orders := length (orders s) in
  let total_customers := length (customers s) in
  let total_restaurants := length (restaurants s) in
  let total_agents := length (delivery_agents s) in
  let order_status_counts :=
    fold_left count_status (Dict.values (orders s)) [] in
  let revenue :=
    py_sum (o_total_price <$>
              filter (fun order => o_status order = "delivered")
                (Dict.values (orders s))) in
  mret (mkReport total_orders total_customers total_restaurants total_agents
          order_status_counts (round2 revenue) now).

(** What [str.lower()] does on ASCII text. *)
Definition lower_ascii (c : ascii) : ascii :=
  let n := Ascii.nat_of_ascii c in
  if (65 <=? n)%nat && (n <=? 90)%nat then Ascii.ascii_of_nat (n + 32) else c.

Fixpoint ascii_lower (s : string) : string :=
  match s with
  | EmptyString => EmptyString
  | String c s' => String (lower_ascii c) (ascii_lower s')
  end.

Fixpoint starts_with (p s : string) : bool :=
  match p, s with
  | EmptyString, _ => true
  | String a p', String b s' => Ascii.eqb a b && starts_with p' s'
  | String _ _, EmptyString => false
  end.

(** [needle in hay] for two strings. *)
Fixpoint str_contains (needle hay : string) : bool :=
  starts_with needle hay ||
  match hay with
  | EmptyString => false
  | String _ hay' => str_contains needle hay'
  end.

Record SearchHit := mkSearchHit {
  sh_id : string;
  sh_name : string;
  sh_cuisine : string;
  sh_location : string;
  sh_rating : num
}.

(** The condition of the [if] in [search_restaurants]. *)
Definition search_condition (cuisine location : option string)
    (restaurant : Restaurant) : bool :=
  match truthy cuisine with
  | Some c => str_contains (lower c) (lower (r_cuisine restaurant))
  | None => false
  end
  || match truthy location with
     | Some l => str_contains (lower l) (lower (r_location restaurant))
     | None => false
     end
  || (negb (bool_decide (is_Some (truthy cuisine)))
      && negb (bool_decide (is_Some (truthy location)))).

(** [search_restaurants(cuisine=None, location=None)] *)
Definition search_restaurants (cuisine location : option string)
    : Op (list SearchHit) :=
  s ← get_self;
  mret (fold_left
          (fun results '(rest_id, restaurant) =>
             if search_condition cuisine location restaurant then
               results ++ [mkSearchHit rest_id (r_name restaurant)
                             (r_cuisine restaurant) (r_location restaurant)
                             (r_rating restaurant)]
             else results)
          (restaurants s) []).

(** ** Call sequences *)

Inductive Call :=
  | AddRestaurant (name cuisine location : string)
      (menu : option (dict MenuItem))
  | AddMenuItem (restaurant_id item_name : string) (price : num)
      (description category : string)
  | RegisterCustomer (name email phone address : string)
  | AddDeliveryAgent (name phone vehicle_type : string)
  | PlaceOrder (now : Z) (customer_id restaurant_id : string)
      (items : list (string * Z)) (delivery_address : option string)
  | AssignDeliveryAgent (now : Z) (r_agent r_minutes : nat) (order_id : string)
  | UpdateOrderStatus (order_id status : string)
  | GetOrderStatus (order_id : string)
  | GenerateReport (now : Z)
  | SearchRestaurants (cuisine location : option string).

(** The state the object is left in by one call (also when it raised). *)
Definition step (c : Call) (s : Data) : Data :=
  match c with
  | AddRestaurant n cu l m => final (add_restaurant n cu l m s)
  | AddMenuItem r n p d c => final (add_menu_item r n p d c s)
  | RegisterCustomer n e p a => final (register_customer n e p a s)
  | AddDeliveryAgent n p v => final (add_delivery_agent n p v s)
  | PlaceOrder t c r i a => final (place_order t c r i a s)
  | AssignDeliveryAgent t r1 r2 o => final (assign_delivery_agent t r1 r2 o s)
  | UpdateOrderStatus o st => final (update_order_status o st s)
  | GetOrderStatus o => final (get_order_status o s)
  | GenerateReport t => final (generate_report t s)
  | SearchRestaurants c l => final (search_restaurants c l s)
  end.

Definition run (cs : list Call) (s : Data) : Data :=
  fold_left (fun s c => step c s) cs s.

(** States reachable from the empty system (no data file yet). *)
Inductive reachable : Data -> Prop :=
  | reachable_empty : reachable empty_data
  | reachable_step c s : reachable s -> reachable (step c s).

(** ** Vocabulary of the specification *)

(** A pair [(item_id, quantity)] refers to an available item of the menu. *)
Definition is_accepted (menu : dict MenuItem) (p : string * Z) : Prop :=
  exists item, Dict.get p.1 menu = Some item /\ mi_available item = true.

(** The line item captured for a pair, if the pair is accepted. *)
Definition capture (menu : dict MenuItem) (p : string * Z) : option LineItem :=
  match Dict.get p.1 menu with
  | Some item =>
      if mi_available item
      then Some (mkLineItem p.1 (mi_name item) (mi_price item) p.2)
      else None
  | None => None
  end.

(** The line items of exactly the accepted pairs, in the order given. *)
Definition accepted_lines (menu : dict MenuItem) (items : list (string * Z))
    : list LineItem :=
  omap (capture menu) items.

(** Captured price times quantity of one line. *)
Definition line_amount (li : LineItem) : num :=
  nscale (li_price li) (li_quantity li).

(** Adding up the amounts of the lines, from [total] on, meets a product
    or a sum that cannot be computed. *)
Fixpoint amounts_overflow (total : num) (lines : list LineItem) : bool :=
  match lines with
  | [] => false
  | li :: rest =>
      nscale_overflows (li_price li) (li_quantity li)
      || nadd_overflows total (line_amount li)
      || amounts_overflow (nadd total (line_amount li)) rest
  end.

(** Pricing an order of these lines meets such a product or sum, the
    delivery fee included. *)
Definition lines_overflow (lines : list LineItem) : bool :=
  amounts_overflow nzero lines
  || nadd_overflows (py_sum (line_amount <$> lines)) nfee.

Definition is_log (e : Event) : Prop :=
  match e with Log _ _ => True | Saved _ => False end.

(** The state left by a successful [place_order]. *)
Definition placed_state (now : Z) (customer_id restaurant_id : string)
    (delivery_address : option string) (s : Data) (c : Customer)
    (r : Restaurant) (lines : list LineItem) : Data :=
  let order_id := "order_" +:+ pretty (length (orders s) + 1)%nat in
  mkData
    (Dict.set restaurant_id
       (with_total_orders (r_total_orders r + 1)%Z r) (restaurants s))
    (Dict.set customer_id
       (with_order_history (c_order_history c ++ [order_id]) c) (customers s))
    (Dict.set order_id
       (mkOrder order_id customer_id restaurant_id lines
          (round2 (nadd (py_sum (line_amount <$> lines)) nfee)) "placed" now
          (py_or delivery_address (c_address c)) None None)
       (orders s))
    (delivery_agents s).

(** The records and states that the order life cycle produces. *)
Definition with_orders (os : dict Order) (s : Data) : Data :=
  mkData (restaurants s) (customers s) os (delivery_agents s).

Definition with_agents (ags : dict Agent) (s : Data) : Data :=
  mkData (restaurants s) (customers s) (orders s) ags.

Definition delivered_agent (a : Agent) : Agent :=
  mkAgent (a_name a) (a_phone a) (a_vehicle_type a) "available" None
    (a_total_deliveries a + 1)%Z.

Definition busy_agent (order_id : string) (a : Agent) : Agent :=
  mkAgent (a_name a) (a_phone a) (a_vehicle_type a) "busy" (Some order_id)
    (a_total_deliveries a).

Definition assigned_order (agent_id : string) (eta : Z) (o : Order) : Order :=
  mkOrder (o_order_id o) (o_customer_id o) (o_restaurant_id o) (o_items o)
    (o_total_price o) "assigned" (o_order_time o) (o_delivery_address o)
    (Some agent_id) (Some eta).

(** The three events that end every mutating call that got through. *)
Definition commit_events (msg : string) (s : Data) : list Event :=
  [Log INFO msg; Saved s; Log INFO "Data saved successfully."].

(** ** The life cycle as a transition relation

    What a call can do to the orders and the agents; the restaurants and
    the customers play no part in the agent and order invariants. *)
Inductive transition (s s' : Data) : Prop :=
  | tr_same :
      orders s' = orders s ->
      delivery_agents s' = delivery_agents s ->
      transition s s'
  | tr_add_agent name phone vehicle_type :
      orders s' = orders s ->
      delivery_agents s' =
        Dict.set ("agent_" +:+ pretty (length (delivery_agents s) + 1)%nat)
          (mkAgent name phone vehicle_type "available" None 0%Z)
          (delivery_agents s) ->
      transition s s'
  | tr_place order :
      o_delivery_agent order = None ->
      orders s' =
        Dict.set ("order_" +:+ pretty (length (orders s) + 1)%nat) order
          (orders s) ->
      delivery_agents s' = delivery_agents s ->
      transition s s'
  | tr_assign order_id o agent_id a eta :
      Dict.get order_id (orders s) = Some o ->
      Dict.get agent_id (delivery_agents s) = Some a ->
      orders s' = Dict.set order_id (assigned_order agent_id eta o) (orders s) ->
      delivery_agents s' =
        Dict.set agent_id (busy_agent order_id a) (delivery_agents s) ->
      transition s s'
  | tr_status order_id o status :
      Dict.get order_id (orders s) = Some o ->
      orders s' = Dict.set order_id (with_status status o) (orders s) ->
      delivery_agents s' = delivery_agents s ->
      transition s s'
  | tr_delivered order_id o agent_id a :
      Dict.get order_id (orders s) = Some o ->
      truthy (o_delivery_agent o) = Some agent_id ->
      Dict.get agent_id (delivery_agents s) = Some a ->
      orders s' = Dict.set order_id (with_status "delivered" o) (orders s) ->
      delivery_agents s' =
        Dict.set agent_id (delivered_agent a) (delivery_agents s) ->
      transition s s'.

(** ** Invariants *)

(** Busy exactly when an order is attached, available exactly when not. *)
Definition agent_status_ok (a : Agent) : Prop :=
  (a_status a = "busy" <-> a_current_order a <> None) /\
  (a_status a = "available" <-> a_current_order a = None).

Definition agents_consistent (s : Data) : Prop :=
  forall agent_id a,
    Dict.get agent_id (delivery_agents s) = Some a -> agent_status_ok a.

(** The order ids are [order_1 .. order_n], in this order. *)
Definition order_ids_sequential (s : Data) : Prop :=
  Dict.keys (orders s) =
    (fun i => "order_" +:+ pretty i) <$> seq 1 (length (orders s)).

Definition agent_ids_nonempty (s : Data) : Prop :=
  forall agent_id, agent_id ∈ Dict.keys (delivery_agents s) -> agent_id <> "".

(** The agent recorded on an order is a registered one. *)
Definition assigned_agents_known (s : Data) : Prop :=
  forall order_id o agent_id,
    Dict.get order_id (orders s) = Some o ->
    o_delivery_agent o = Some agent_id ->
    agent_id <> "" /\ is_Some (Dict.get agent_id (delivery_agents s)).

(** An agent only points at an order that has an agent recorded. *)
Definition current_orders_assigned (s : Data) : Prop :=
  forall agent_id a order_id,
    Dict.get agent_id (delivery_agents s) = Some a ->
    a_current_order a = Some order_id ->
    exists o, Dict.get order_id (orders s) = Some o /\
              o_delivery_agent o <> None.

Record lifecycle_invariant (s : Data) : Prop := mkLifecycle {
  inv_order_ids : order_ids_sequential s;
  inv_agent_ids : agent_ids_nonempty s;
  inv_assigned : assigned_agents_known s;
  inv_current : current_orders_assigned s
}.

(** An agent that is busy with the given order. *)
Definition busy_with (order_id : string) (s : Data) (agent_id : string) : Prop :=
  exists a, Dict.get agent_id (delivery_agents s) = Some a /\
            a_status a = "busy" /\ a_current_order a = Some order_id.

(** The list [assign_delivery_agent] draws from is not empty. *)
Definition has_available_agent (s : Data) : Prop :=
  exists a, a ∈ Dict.values (delivery_agents s) /\ a_status a = "available".

(** ** Vocabulary for the report and the search *)

(** The sum of [total_price] over the orders whose status is exactly
    ["delivered"], in the order of the table; other orders are skipped. *)
Fixpoint delivered_total (os : list Order) (acc : num) : num :=
  match os with
  | [] => acc
  | o :: os' =>
      delivered_total os'
        (if decide (o_status o = "delivered")
         then nadd acc (o_total_price o) else acc)
  end.

(** [needle] occurs in [hay] when case is ignored: [needle.lower()] is a
    substring of [hay.lower()]. *)
Definition ci_substring (needle hay : string) : Prop :=
  exists pre suf, lower hay = pre +:+ lower needle +:+ suf.

(** The matching rule with "given" read as "an argument was passed". *)
Definition rule_if_passed (cuisine location : option string)
    (r : Restaurant) : Prop :=
  (exists c, cuisine = Some c /\ ci_substring c (r_cuisine r)) \/
  (exists l, location = Some l /\ ci_substring l (r_location r)) \/
  (cuisine = None /\ location = None).

(** An argument that was passed and is not the empty string. *)
Definition given (arg : option string) (v : string) : Prop :=
  arg = Some v /\ v <> "".

(** The matching rule with "given" read as "passed and not empty". *)
Definition rule_if_nonempty (cuisine location : option string)
    (r : Restaurant) : Prop :=
  (exists c, given cuisine c /\ ci_substring c (r_cuisine r)) \/
  (exists l, given location l /\ ci_substring l (r_location r)) \/
  ((forall c, ~ given cuisine c) /\ (forall l, ~ given location l)).

(** The entry that [search_restaurants] builds for a restaurant. *)
Definition hit_of (rest_id : string) (r : Restaurant) : SearchHit :=
  mkSearchHit rest_id (r_name r) (r_cuisine r) (r_location r) (r_rating r).

(** The search returns the entries of exactly the restaurants that satisfy
    [rule]. *)
Definition returns_exactly
    (rule : option string -> option string -> Restaurant -> Prop)
    (cuisine location : option string) (s : Data) : Prop :=
  exists hits,
    result (search_restaurants cuisine location s) = inr hits /\
    forall h, h ∈ hits <->
      exists rest_id r, (rest_id, r) ∈ restaurants s /\
                        rule cuisine location r /\ h = hit_of rest_id r.

(** The agent that [random.choice] draws, with the key it is stored under:
    the entry at the drawn position among the available ones. *)
Definition drawn_agent (r_agent : nat) (s : Data) : option (string * Agent) :=
  let available :=
    filter (fun kv => a_status kv.2 = "available") (delivery_agents s) in
  available !! (r_agent mod length available)%nat.

(** ** Calls as one method, the data file, and a session

    [exec] runs a call and drops its return value, so that what a call
    raised, wrote and logged can be stated for all calls at once. *)
Definition void {A : Type} (m : Op A) : Op unit := fun s =>
  match m s with
  | mkOutcome (inl e) s' evs => mkOutcome (inl e) s' evs
  | mkOutcome (inr _) s' evs => mkOutcome (inr tt) s' evs
  end.

Definition exec (c : Call) : Op unit :=
  match c with
  | AddRestaurant n cu l m => add_restaurant n cu l m
  | AddMenuItem r n p d c => add_menu_item r n p d c
  | RegisterCustomer n e p a => void (register_customer n e p a)
  | AddDeliveryAgent n p v => add_delivery_agent n p v
  | PlaceOrder t c r i a => void (place_order t c r i a)
  | AssignDeliveryAgent t r1 r2 o => assign_delivery_agent t r1 r2 o
  | UpdateOrderStatus o st => update_order_status o st
  | GetOrderStatus o => void (get_order_status o)
  | GenerateReport t => void (generate_report t)
  | SearchRestaurants c l => void (search_restaurants c l)
  end.

(** The snapshots that a list of events wrote to the data file, in order. *)
Definition saves (evs : list Event) : list Data :=
  omap (fun e => match e with Saved d => Some d | Log _ _ => None end) evs.

(** What [open] and [json.load] find: no file, a file that cannot be read
    as a JSON object (with the text of the exception), or a JSON object in
    which each of the four sections may be missing. *)
Inductive FileContent :=
  | NoFile
  | Unreadable (error : string)
  | Document (rs : option (dict Restaurant)) (cs : option (dict Customer))
      (os : option (dict Order)) (ags : option (dict Agent)).

(** [load_data()] *)
Definition load_data (file : FileContent) : Op unit :=
  match file with
  | Document rs cs os ags =>
      put_self (mkData (default [] rs) (default [] cs) (default [] os)
                  (default [] ags));;
      log INFO "Data loaded successfully."
  | NoFile => log INFO "Data file not found. Starting with empty data."
  | Unreadable e => log ERROR ("Error loading data: " +:+ e)
  end.

(** [__init__]: four empty tables, then [load_data]. *)
Definition init (file : FileContent) : Outcome unit :=
  load_data file empty_data.

(** The file that [json.dump] in [save_data] leaves; [json.load] is taken
    to read back what [json.dump] wrote. *)
Definition written (d : Data) : FileContent :=
  Document (Some (restaurants d)) (Some (customers d)) (Some (orders d))
    (Some (delivery_agents d)).

(** The data file after the writes of a list of events. *)
Definition file_after (file : FileContent) (evs : list Event) : FileContent :=
  fold_left (fun f e => match e with Saved d => written d | Log _ _ => f end)
    evs file.

(** A run of the program: the calls act on the object and on the file. *)
Fixpoint session (cs : list Call) (s : Data) (file : FileContent)
    : Data * FileContent :=
  match cs with
  | [] => (s, file)
  | c :: cs' =>
      session cs' (final (exec c s)) (file_after file (events (exec c s)))
  end.

(** ** What a call that got through has done to the state *)
Inductive mutation (s s' : Data) : Prop :=
  | mut_add_restaurant name cuisine location menu :
      s' = mkData
             (Dict.set ("rest_" +:+ pretty (length (restaurants s) + 1)%nat)
                (mkRestaurant name cuisine location menu nzero 0%Z)
                (restaurants s))
             (customers s) (orders s) (delivery_agents s) ->
      mutation s s'
  | mut_add_menu_item restaurant_id r item_name price description category :
      Dict.get restaurant_id (restaurants s) = Some r ->
      s' = mkData
             (Dict.set restaurant_id
                (with_menu
                   (Dict.set ("item_" +:+ pretty (length (r_menu r) + 1)%nat)
                      (mkMenuItem item_name price description category true)
                      (r_menu r)) r)
                (restaurants s))
             (customers s) (orders s) (delivery_agents s) ->
      mutation s s'
  | mut_register name email phone address :
      s' = mkData (restaurants s)
             (Dict.set ("cust_" +:+ pretty (length (customers s) + 1)%nat)
                (mkCustomer name email phone address []) (customers s))
             (orders s) (delivery_agents s) ->
      mutation s s'
  | mut_add_agent name phone vehicle_type :
      s' = mkData (restaurants s) (customers s) (orders s)
             (Dict.set ("agent_" +:+ pretty (length (delivery_agents s) + 1)%nat)
                (mkAgent name phone vehicle_type "available" None 0%Z)
                (delivery_agents s)) ->
      mutation s s'
  | mut_place now customer_id restaurant_id addr c r items :
      Dict.get customer_id (customers s) = Some c ->
      Dict.get restaurant_id (restaurants s) = Some r ->
      accepted_lines (r_menu r) items <> [] ->
      s' = placed_state now customer_id restaurant_id addr s c r
             (accepted_lines (r_menu r) items) ->
      mutation s s'
  | mut_assign order_id o agent_id agent a now minutes :
      Dict.get order_id (orders s) = Some o ->
      (agent_id, agent) ∈ delivery_agents s ->
      a_status agent = "available" ->
      Dict.get agent_id (delivery_agents s) = Some a ->
      (15 <= minutes <= 45)%Z ->
      s' = mkData (restaurants s) (customers s)
             (Dict.set order_id
                (assigned_order agent_id (now + timedelta_minutes minutes)%Z o)
                (orders s))
             (Dict.set agent_id (busy_agent order_id a) (delivery_agents s)) ->
      mutation s s'
  | mut_status order_id o status :
      Dict.get order_id (orders s) = Some o ->
      s' = with_orders (Dict.set order_id (with_status status o) (orders s)) s ->
      mutation s s'
  | mut_delivered order_id o agent_id a :
      Dict.get order_id (orders s) = Some o ->
      truthy (o_delivery_agent o) = Some agent_id ->
      Dict.get agent_id (delivery_agents s) = Some a ->
      s' = with_agents
             (Dict.set agent_id (delivered_agent a) (delivery_agents s))
             (with_orders
                (Dict.set order_id (with_status "delivered" o) (orders s)) s) ->
      mutation s s'.

(** The outcome of a call that left the state alone. *)
Definition quiet (s : Data) (out : Outcome unit) : Prop :=
  result out = inr tt /\ final out = s /\ Forall is_log (events out).

(** The outcome of a call that changed the state and saved it. *)
Definition committed (s : Data) (out : Outcome unit) : Prop :=
  result out = inr tt /\ mutation s (final out) /\
  exists evs, Forall is_log evs /\
    events out = evs ++ [Saved (final out); Log INFO "Data saved successfully."].

(** The outcome of a delivery update that names an unregistered agent. *)
Definition raised_on_agent (c : Call) (s : Data) (out : Outcome unit) : Prop :=
  exists order_id o agent_id,
    c = UpdateOrderStatus order_id "delivered" /\
    Dict.get order_id (orders s) = Some o /\
    truthy (o_delivery_agent o) = Some agent_id /\
    Dict.get agent_id (delivery_agents s) = None /\
    out = mkOutcome (inl (KeyError agent_id))
            (with_orders
               (Dict.set order_id (with_status "delivered" o) (orders s)) s)
            [].

(** The outcome of an order whose pricing met a product or a sum that
    cannot be computed. *)
Definition raised_on_amount (c : Call) (s : Data) (out : Outcome unit) : Prop :=
  (exists now customer_id restaurant_id items delivery_address,
     c = PlaceOrder now customer_id restaurant_id items delivery_address) /\
  result out = inl OverflowError /\ final out = s /\
  Forall is_log (events out).

(** ** The ledger kept by the tables *)

(** The keys of a table are [prefix1 .. prefixn], in this order. *)
Definition ids_sequential {V : Type} (prefix : string) (d : dict V) : Prop :=
  Dict.keys d = (fun i => prefix +:+ pretty i) <$> seq 1 (length d).

(** The ids of the orders placed by a customer, oldest first. *)
Definition orders_of_customer (customer_id : string) (s : Data) : list string :=
  (filter (fun kv => o_customer_id kv.2 = customer_id) (orders s)).*1.

(** The orders placed with a restaurant. *)
Definition orders_of_restaurant (restaurant_id : string) (s : Data)
    : dict Order :=
  filter (fun kv => o_restaurant_id kv.2 = restaurant_id) (orders s).

(** What every stored order satisfies. *)
Record order_ok (s : Data) (order_id : string) (o : Order) : Prop := mkOrderOk {
  ok_id : o_order_id o = order_id;
  ok_customer : is_Some (Dict.get (o_customer_id o) (customers s));
  ok_restaurant : is_Some (Dict.get (o_restaurant_id o) (restaurants s));
  ok_items : o_items o <> [];
  ok_total : o_total_price o
             = round2 (nadd (py_sum (line_amount <$> o_items o)) nfee);
  ok_estimate : o_delivery_agent o = None <-> o_estimated_delivery o = None
}.

Record ledger_invariant (s : Data) : Prop := mkLedger {
  led_restaurants : ids_sequential "rest_" (restaurants s);
  led_customers : ids_sequential "cust_" (customers s);
  led_orders : ids_sequential "order_" (orders s);
  led_agents : ids_sequential "agent_" (delivery_agents s);
  led_order_ok :
    forall order_id o, Dict.get order_id (orders s) = Some o ->
                       order_ok s order_id o;
  led_history :
    forall customer_id c, Dict.get customer_id (customers s) = Some c ->
                          c_order_history c = orders_of_customer customer_id s;
  led_total_orders :
    forall restaurant_id r, Dict.get restaurant_id (restaurants s) = Some r ->
      r_total_orders r
        = Z.of_nat (length (orders_of_restaurant restaurant_id s))
}.

(** The fields of an order that are fixed when it is placed. *)
Definition snapshot (o : Order)
    : string * string * string * list LineItem * num * Z * string :=
  (o_order_id o, o_customer_id o, o_restaurant_id o, o_items o,
   o_total_price o, o_order_time o, o_delivery_address o).

(** The number of orders in a given status. *)
Definition status_count (status : string) (os : list Order) : nat :=
  length (filter (fun o => o_status o = status) os).

(** The sum of the counts of a status breakdown. *)
Definition counts_total (counts : dict Z) : Z :=
  fold_right Z.add 0%Z (Dict.values counts).

(** The pairs of an item list that [place_order] does not skip. *)
Definition valid_items (menu : dict MenuItem) (items : list (string * Z))
    : list (string * Z) :=
  filter (fun p => is_Some (capture menu p)) items.

End System.

Arguments MenuItem : clear implicits.
Arguments Restaurant : clear implicits.
Arguments LineItem : clear implicits.
Arguments Order : clear implicits.
Arguments Data : clear implicits.
Arguments Event : clear implicits.
Arguments Outcome : clear implicits.
Arguments Op : clear implicits.
Arguments StatusInfo : clear implicits.
Arguments Report : clear implicits.
Arguments SearchHit : clear implicits.
Arguments Call : clear implicits.
Arguments FileContent : clear implicits.
Arguments mkOutcome {num A} _ _ _.
Arguments result {num A} _.
Arguments final {num A} _.
Arguments events {num A} _.

(** ** A decimal instance of the numbers, and sample call sequences *)

(** [round(x, 2)] on an exact decimal: nearest hundredth, ties to even.
    This is decimal arithmetic, not the binary one of Python's floats; it
    agrees with it on the sample prices below. *)
Definition Qround2 (q : Q) : Q :=
  let n := (Qnum q * 100)%Z in
  let d := Zpos (Qden q) in
  let fl := (n / d)%Z in
  let r := (n mod d)%Z in
  let k := if (2 * r <? d)%Z then fl
           else if (d <? 2 * r)%Z then (fl + 1)%Z
           else if Z.even fl then fl else (fl + 1)%Z in
  Qred (k # 100).

(** The numbers of the samples are floats with a short decimal expansion:
    adding two floats never raises, and a product raises when the int
    quantity rounds to a float beyond the largest one. *)
#[export] Instance DecimalQ : PyNum Q := {|
  nzero := 0%Q;
  nfee := Qred (299 # 100);
  nadd := fun x y => Qred (x + y);
  nscale := fun p n => Qred (p * inject_Z n);
  nadd_overflows := fun _ _ => false;
  nscale_overflows := fun _ n => (2 ^ 1024 - 2 ^ 970 <=? Z.abs n)%Z;
  round2 := Qround2
|}.

(** [str.lower()] on the ASCII text of the samples. *)
Definition AsciiText : PyStr := {| lower := ascii_lower |}.

Section Samples.
#[local] Existing Instance AsciiText.

(** The calls of [main()] up to the first order, on an empty system. *)
Definition demo_setup : list (Call Q) :=
  [ AddRestaurant "Pizza Palace" "Italian" "Downtown" None;
    AddMenuItem "rest_1" "Margherita Pizza" (1299 # 100)
      "Classic cheese pizza" "Pizza";
    AddMenuItem "rest_1" "Pepperoni Pizza" (1499 # 100)
      "Pizza with pepperoni" "Pizza";
    RegisterCustomer "John Doe" "john@example.com" "123-456-7890" "123 Main St";
    AddDeliveryAgent "Mike Johnson" "987-654-3210" "Bike" ].

Definition demo_items : list (string * Z) := [("item_1", 2%Z); ("item_2", 1%Z)].

Definition demo_ready : Data Q := run demo_setup empty_data.

Definition demo_placed : Data Q :=
  step (PlaceOrder 1000 "cust_1" "rest_1" demo_items None) demo_ready.

Definition demo_assigned : Data Q :=
  step (AssignDeliveryAgent 2000 0 7 "order_1") demo_placed.

Definition demo_delivered : Data Q :=
  step (UpdateOrderStatus "order_1" "delivered") demo_assigned.

(** The records these calls leave behind. *)
Definition demo_menu : dict (MenuItem Q) :=
  [ ("item_1", mkMenuItem "Margherita Pizza" (1299 # 100)
                 "Classic cheese pizza" "Pizza" true);
    ("item_2", mkMenuItem "Pepperoni Pizza" (1499 # 100)
                 "Pizza with pepperoni" "Pizza" true) ].

Definition demo_restaurant : Restaurant Q :=
  mkRestaurant "Pizza Palace" "Italian" "Downtown" demo_menu 0%Q 0%Z.

Definition demo_customer : Customer :=
  mkCustomer "John Doe" "john@example.com" "123-456-7890" "123 Main St" [].

Definition demo_order : Order Q :=
  mkOrder "order_1" "cust_1" "rest_1"
    [ mkLineItem "item_1" "Margherita Pizza" (1299 # 100) 2%Z;
      mkLineItem "item_2" "Pepperoni Pizza" (1499 # 100) 1%Z ]
    (Qred (4396 # 100)) "placed" 1000%Z "123 Main St" None None.

Definition demo_order_assigned : Order Q :=
  assigned_order "agent_1" (2000 + timedelta_minutes 22)%Z demo_order.

(** The demo records after the order was placed. *)
Definition demo_customer_placed : Customer :=
  with_order_history ["order_1"] demo_customer.

Definition demo_restaurant_placed : Restaurant Q :=
  with_total_orders 1%Z demo_restaurant.

Definition demo_agent : Agent :=
  mkAgent "Mike Johnson" "987-654-3210" "Bike" "available" None 0%Z.

(** A restaurant created with a one-item menu whose key is [item_2]. *)
Definition collision_item : MenuItem Q :=
  mkMenuItem "Club Sandwich" (850 # 100) "Triple decker" "Sandwiches" true.

Definition collision_restaurant : Restaurant Q :=
  mkRestaurant "Deli Corner" "Sandwiches" "Midtown"
    [("item_2", collision_item)] 0%Q 0%Z.

Definition collision_state : Data Q :=
  run [AddRestaurant "Deli Corner" "Sandwiches" "Midtown"
         (Some [("item_2", collision_item)])] empty_data.

(** Two agents registered with the same name, phone and vehicle, and one
    order waiting. *)
Definition twin_setup : list (Call Q) :=
  [ AddRestaurant "Pizza Palace" "Italian" "Downtown" None;
    AddMenuItem "rest_1" "Margherita Pizza" (1299 # 100)
      "Classic cheese pizza" "Pizza";
    RegisterCustomer "John Doe" "john@example.com" "123-456-7890" "123 Main St";
    AddDeliveryAgent "Sam Lee" "555-0100" "Bike";
    AddDeliveryAgent "Sam Lee" "555-0100" "Bike";
    PlaceOrder 1000 "cust_1" "rest_1" [("item_1", 1%Z)] None ].

Definition twin_state : Data Q := run twin_setup empty_data.

(** Two different agents, and one order that is assigned twice. *)
Definition reassign_setup : list (Call Q) :=
  [ AddRestaurant "Pizza Palace" "Italian" "Downtown" None;
    AddMenuItem "rest_1" "Margherita Pizza" (1299 # 100)
      "Classic cheese pizza" "Pizza";
    RegisterCustomer "John Doe" "john@example.com" "123-456-7890" "123 Main St";
    AddDeliveryAgent "Mike Johnson" "987-654-3210" "Bike";
    AddDeliveryAgent "Ana Silva" "555-0101" "Car";
    PlaceOrder 1000 "cust_1" "rest_1" [("item_1", 1%Z)] None;
    AssignDeliveryAgent 2000 0 0 "order_1" ].

Definition reassign_state : Data Q := run reassign_setup empty_data.

(** Three restaurants to search. *)
Definition search_setup : list (Call Q) :=
  [ AddRestaurant "Pizza Palace" "Italian" "Downtown" None;
    AddRestaurant "Taco Town" "Mexican" "Downtown" None;
    AddRestaurant "Casa Maya" "Mexican" "Uptown" None ].

Definition search_state : Data Q := run search_setup empty_data.

End Samples.

(** ** Facts about ordered dictionaries *)

Section DictFacts.
Context {V : Type}.
Implicit Types (d : dict V) (k : string) (v : V).

Lemma dict_get_set_eq k v d : Dict.get k (Dict.set k v d) = Some v.
Proof.
  induction d as [|[k' v'] d IH]; simpl.
  - by rewrite String.eqb_refl.
  - destruct (String.eqb k k') eqn:E; simpl; rewrite ?E; [|done].
    by rewrite String.eqb_refl.
Qed.

Lemma dict_get_set_ne k k' v d :
  k <> k' -> Dict.get k' (Dict.set k v d) = Dict.get k' d.
Proof.
  intros Hne. induction d as [|[k0 v0] d IH]; simpl.
  - by apply String.eqb_neq in Hne; rewrite String.eqb_sym, Hne.
  - destruct (String.eqb k k0) eqn:E; simpl.
    + apply String.eqb_eq in E; subst k0.
      by apply String.eqb_neq in Hne; rewrite String.eqb_sym, Hne.
    + by rewrite IH.
Qed.

Lemma dict_get_Some_elem k v d : Dict.get k d = Some v -> (k, v) ∈ d.
Proof.
  induction d as [|[k' v'] d IH]; simpl; [done|].
  destruct (String.eqb_spec k k') as [->|]; intros Hg.
  - injection Hg as ->. apply list_elem_of_here.
  - apply list_elem_of_further; auto.
Qed.

Lemma dict_get_None_keys k d : Dict.get k d = None <-> k ∉ Dict.keys d.
Proof.
  unfold Dict.keys. induction d as [|[k' v'] d IH]; simpl.
  - split; [intros _; apply not_elem_of_nil | done].
  - rewrite not_elem_of_cons. destruct (String.eqb_spec k k') as [->|Hne].
    + split; [done | intros [? _]; done].
    + rewrite IH. tauto.
Qed.

Lemma dict_get_is_Some_keys k d : is_Some (Dict.get k d) <-> k ∈ Dict.keys d.
Proof.
  destruct (Dict.get k d) eqn:E.
  - split; [intros _|by eauto].
    apply dict_get_Some_elem in E.
    unfold Dict.keys. apply list_elem_of_fmap. by exists (k, v).
  - apply dict_get_None_keys in E. split; [by intros [? ?] | done].
Qed.

(** Overwriting an existing key keeps the keys and their order. *)
Lemma dict_keys_set_present k v d :
  k ∈ Dict.keys d -> Dict.keys (Dict.set k v d) = Dict.keys d.
Proof.
  unfold Dict.keys. induction d as [|[k' v'] d IH]; simpl.
  - by intros ?%elem_of_nil.
  - intros Hin. destruct (String.eqb_spec k k') as [->|Hne]; simpl; [done|].
    f_equal. apply IH. apply elem_of_cons in Hin as [?|?]; done.
Qed.

(** A new key is appended. *)
Lemma dict_set_fresh k v d :
  k ∉ Dict.keys d -> Dict.set k v d = d ++ [(k, v)].
Proof.
  unfold Dict.keys. induction d as [|[k' v'] d IH]; simpl; [done|].
  intros Hin. apply not_elem_of_cons in Hin as [Hne Hin].
  destruct (String.eqb_spec k k') as [->|_]; [done|]. by rewrite IH.
Qed.

Lemma dict_keys_set k v d :
  forall k', k' ∈ Dict.keys (Dict.set k v d) <-> k' = k \/ k' ∈ Dict.keys d.
Proof.
  intros k'. rewrite <- !dict_get_is_Some_keys.
  destruct (decide (k = k')) as [->|Hne].
  - rewrite dict_get_set_eq. split; [by left | by eauto].
  - rewrite dict_get_set_ne by done. split; [by right | by intros [->|?]].
Qed.

Lemma dict_set_set k v1 v2 d :
  Dict.set k v2 (Dict.set k v1 d) = Dict.set k v2 d.
Proof.
  induction d as [|[k' v'] d IH]; simpl.
  - by rewrite String.eqb_refl.
  - destruct (String.eqb k k') eqn:E; simpl; rewrite ?E, ?String.eqb_refl;
      [done | by rewrite IH].
Qed.

Lemma dict_elem_get_is_Some k v d :
  (k, v) ∈ d -> is_Some (Dict.get k d).
Proof.
  intros Hin. apply dict_get_is_Some_keys. unfold Dict.keys.
  apply list_elem_of_fmap. by exists (k, v).
Qed.

Lemma dict_elem_get_NoDup k v d :
  NoDup (Dict.keys d) -> (k, v) ∈ d -> Dict.get k d = Some v.
Proof.
  unfold Dict.keys. induction d as [|[k' v'] d IH]; simpl.
  - by intros _ ?%elem_of_nil.
  - intros [Hk Hnd]%NoDup_cons [[= -> ->]|Hin]%elem_of_cons.
    + by rewrite String.eqb_refl.
    + destruct (String.eqb_spec k k') as [->|_]; [|by apply IH].
      destruct Hk. apply list_elem_of_fmap. by exists (k', v).
Qed.

Lemma dict_get_set k k' v d :
  Dict.get k' (Dict.set k v d) = if decide (k = k') then Some v else Dict.get k' d.
Proof.
  destruct (decide (k = k')) as [->|Hne];
    [apply dict_get_set_eq | by apply dict_get_set_ne].
Qed.

Lemma dict_length_set_present k v d :
  is_Some (Dict.get k d) -> length (Dict.set k v d) = length d.
Proof.
  intros Hk%dict_get_is_Some_keys.
  rewrite <- (length_fmap fst (Dict.set k v d)), <- (length_fmap fst d).
  f_equal. by apply dict_keys_set_present.
Qed.

(** An assignment never duplicates a key. *)
Lemma dict_set_NoDup k v d :
  NoDup (Dict.keys d) -> NoDup (Dict.keys (Dict.set k v d)).
Proof.
  intros Hnd. destruct (decide (k ∈ Dict.keys d)) as [Hin|Hout].
  - by rewrite dict_keys_set_present.
  - rewrite dict_set_fresh by done. unfold Dict.keys in *.
    rewrite fmap_app. simpl. apply NoDup_app. split_and!; [done| |].
    + intros k' Hk' ->%list_elem_of_singleton. done.
    + apply NoDup_singleton.
Qed.

Lemma dict_get_set_is_Some k k' v d :
  is_Some (Dict.get k' d) -> is_Some (Dict.get k' (Dict.set k v d)).
Proof. rewrite dict_get_set. destruct (decide (k = k')); eauto. Qed.

End DictFacts.

(** Unfold the monad plumbing of a method body. *)
Ltac unfold_op :=
  unfold set_order_field, set_agent_field, get_delivery_agent, save_data, log,
    emit, first_item, random_choice, raise, put_self, get_self,
    mbind, mret, Op_bind, Op_ret.

(** ** Order placement *)

Section PlaceOrder.
Context {num : Type} `{NumOps : PyNum num} `{StrOps : PyStr}.
Implicit Types (s : Data num) (menu : dict (MenuItem num)).
Implicit Types (items : list (string * Z)) (p : string * Z).

Lemma capture_Some menu p li :
  capture menu p = Some li <->
  exists item, Dict.get p.1 menu = Some item /\ mi_available item = true /\
               li = mkLineItem p.1 (mi_name item) (mi_price item) p.2.
Proof.
  unfold capture. destruct (Dict.get p.1 menu) as [item|].
  - destruct (mi_available item) eqn:E.
    + split; [intros [= <-]; eauto | intros (? & [= <-] & _ & ->); done].
    + split; [done | intros (? & [= <-] & ? & _); congruence].
  - split; [done | intros (? & ? & _); done].
Qed.

Lemma capture_is_Some menu p : is_Some (capture menu p) <-> is_accepted menu p.
Proof.
  unfold is_accepted. split.
  - intros [li (item & ? & ? & _)%capture_Some]. eauto.
  - intros (item & ? & ?). eexists. apply capture_Some. eauto.
Qed.

(** The lines are those of exactly the accepted pairs. *)
Lemma accepted_lines_elem menu items li :
  li ∈ accepted_lines menu items <->
  exists p, p ∈ items /\ is_accepted menu p /\ capture menu p = Some li.
Proof.
  unfold accepted_lines. rewrite list_elem_of_omap. split.
  - intros (p & ? & Hc). exists p. split_and!; [done| |done].
    apply capture_is_Some. eauto.
  - intros (p & ? & _ & ?). eauto.
Qed.

Lemma accepted_lines_nil menu items :
  accepted_lines menu items = [] <-> Forall (fun p => ~ is_accepted menu p) items.
Proof.
  unfold accepted_lines. induction items as [|p items IH]; simpl.
  - split; [constructor | done].
  - rewrite Forall_cons, <- capture_is_Some, <- IH.
    destruct (capture menu p); simpl.
    + split; [done | intros [Hn _]; destruct Hn; eauto].
    + split; [intros ?; split; [by intros [? ?] | done] | tauto].
Qed.

(** The loop returns the accepted lines and their running total, or raises
    at the first accepted pair whose product or sum overflows; it only logs
    and does not touch the state. *)
Lemma collect_items_spec menu items acc tot s :
  exists evs,
    Forall is_log evs /\
    collect_items menu items acc tot s =
      if amounts_overflow tot (accepted_lines menu items)
      then mkOutcome (inl OverflowError) s evs
      else mkOutcome
             (inr (acc ++ accepted_lines menu items,
                   fold_left nadd (line_amount <$> accepted_lines menu items)
                     tot))
             s evs.
Proof.
  revert acc tot. induction items as [|[item_id q] items IH]; intros acc tot.
  - exists []. split; [done|]. simpl. by rewrite app_nil_r.
  - assert (accepted_lines menu ((item_id, q) :: items)
            = match capture menu (item_id, q) with
              | Some li => li :: accepted_lines menu items
              | None => accepted_lines menu items
              end) as -> by reflexivity.
    cbn [collect_items]. unfold capture. cbn [fst snd].
    destruct (Dict.get item_id menu) as [item|]; [destruct (mi_available item)|].
    + cbn [amounts_overflow fmap list_fmap fold_left]. unfold line_amount at 1 2 3.
      cbn [li_price li_quantity].
      unfold py_mul, py_add, mbind, Op_bind at 1.
      destruct (nscale_overflows (mi_price item) q) eqn:Hov.
      { exists []. split; [done|]. reflexivity. }
      unfold mret, Op_ret. cbn beta iota. unfold Op_bind at 1.
      destruct (nadd_overflows tot (nscale (mi_price item) q)) eqn:Hadd.
      { exists []. split; [done|]. cbn [orb]. reflexivity. }
      cbn [orb]. cbn beta iota.
      destruct (IH (acc ++ [mkLineItem item_id (mi_name item) (mi_price item) q])
                  (nadd tot (nscale (mi_price item) q))) as (evs & Hl & ->).
      exists evs. split; [done|].
      destruct (amounts_overflow _ (accepted_lines menu items)); [done|].
      simpl. by rewrite <- app_assoc.
    + destruct (IH acc tot) as (evs & Hl & Heq).
      exists (Log WARNING ("Item " +:+ item_id +:+ " is not available.") :: evs).
      split; [by constructor|].
      unfold mbind, Op_bind at 1. unfold log, emit. rewrite Heq.
      by destruct (amounts_overflow tot (accepted_lines menu items)).
    + destruct (IH acc tot) as (evs & Hl & Heq).
      exists (Log ERROR ("Item " +:+ item_id +:+ " not found in menu.") :: evs).
      split; [by constructor|].
      unfold mbind, Op_bind at 1. unfold log, emit. rewrite Heq.
      by destruct (amounts_overflow tot (accepted_lines menu items)).
Qed.

(** The three ways a [place_order] for a known customer and restaurant can
    end: no valid item, an overflowing product or sum, or a stored order. *)
Lemma place_order_run now customer_id restaurant_id items addr s c r :
  Dict.get customer_id (customers s) = Some c ->
  Dict.get restaurant_id (restaurants s) = Some r ->
  exists evs,
    Forall is_log evs /\
    place_order now customer_id restaurant_id items addr s =
      match accepted_lines (r_menu r) items with
      | [] => mkOutcome (inr None) s evs
      | lines =>
          if lines_overflow lines then mkOutcome (inl OverflowError) s evs
          else
            let s' :=
              placed_state now customer_id restaurant_id addr s c r lines in
            mkOutcome
              (inr (Some ("order_" +:+ pretty (length (orders s) + 1)%nat)))
              s'
              (evs ++ [Saved s'; Log INFO "Data saved successfully."])
      end.
Proof.
  intros Hc Hr. unfold place_order, mbind, Op_bind, get_self. simpl.
  rewrite Hc, Hr.
  destruct (collect_items_spec (r_menu r) items [] nzero s) as (evs & Hl & ->).
  destruct (accepted_lines (r_menu r) items) as [|li lines] eqn:E.
  - exists (evs ++ [Log ERROR "No valid items in order."]). split.
    + apply Forall_app. split; [done | by constructor].
    + reflexivity.
  - cbv zeta. unfold lines_overflow, py_sum.
    destruct (amounts_overflow nzero (li :: lines)) eqn:Hov.
    { exists evs. split; [done|]. reflexivity. }
    cbn [orb app]. unfold py_add.
    destruct (nadd_overflows
                (fold_left nadd (line_amount <$> li :: lines) nzero) nfee)
      eqn:Hfee.
    { exists (evs ++ []). split; [by rewrite app_nil_r | reflexivity]. }
    exists (evs ++ [Log INFO ("Order placed: " +:+ "order_"
                              +:+ pretty (length (orders s) + 1)%nat)]).
    split.
    + apply Forall_app. split; [done | by constructor].
    + unfold placed_state, py_sum. simpl. by rewrite <- app_assoc.
Qed.

Lemma accepted_lines_Exists menu items :
  Exists (is_accepted menu) items -> accepted_lines menu items <> [].
Proof.
  intros (p & Hp & Ha)%Exists_exists Hnil%accepted_lines_nil.
  rewrite Forall_forall in Hnil. by destruct (Hnil p Hp).
Qed.

(** C1. For a known customer, a known restaurant and an item list with at
    least one pair that refers to an available menu item, [place_order]
    either raises [OverflowError] without touching the state, which it
    does exactly when pricing the accepted pairs meets a product or a sum
    that cannot be computed, or creates an order; the created order's line
    items are exactly the accepted pairs and its [total_price] is the sum
    of captured price times quantity over those lines, plus the delivery
    fee 2.99, rounded to 2 decimals. *)
Theorem place_order_total_price now customer_id restaurant_id items addr s c r :
  Dict.get customer_id (customers s) = Some c ->
  Dict.get restaurant_id (restaurants s) = Some r ->
  Exists (is_accepted (r_menu r)) items ->
  let out := place_order now customer_id restaurant_id items addr s in
  (lines_overflow (accepted_lines (r_menu r) items) = true /\
   result out = inl OverflowError /\ final out = s) \/
  (lines_overflow (accepted_lines (r_menu r) items) = false /\
   exists order_id order,
     result out = inr (Some order_id) /\
     Dict.get order_id (orders (final out)) = Some order /\
     o_items order = accepted_lines (r_menu r) items /\
     o_total_price order =
       round2 (nadd (py_sum (line_amount <$> o_items order)) nfee)).
Proof.
  intros Hc Hr Hex%accepted_lines_Exists out.
  destruct (place_order_run now customer_id restaurant_id items addr s c r Hc Hr)
    as (evs & _ & Hrun).
  subst out. rewrite Hrun. clear Hrun.
  destruct (accepted_lines (r_menu r) items) as [|li lines] eqn:E; [done|].
  cbv zeta. destruct (lines_overflow (li :: lines)); [by left|].
  right. split; [done|]. eexists _, _. simpl. split; [reflexivity|].
  rewrite dict_get_set_eq. split; [reflexivity|]. done.
Qed.

(** C2. [place_order] returns [None] exactly when the customer is unknown,
    the restaurant is unknown, or no pair of the item list is accepted; in
    each of these cases the state is left as it was and nothing is written
    to the data file. The only exception the call can raise is the
    [OverflowError] of pricing an accepted pair, which is not a return of
    [None]; then too the state is left as it was and nothing is written. *)
Theorem place_order_failure now customer_id restaurant_id items addr s :
  let out := place_order now customer_id restaurant_id items addr s in
  (result out = inr None <->
     Dict.get customer_id (customers s) = None \/
     Dict.get restaurant_id (restaurants s) = None \/
     (exists r, Dict.get restaurant_id (restaurants s) = Some r /\
                Forall (fun p => ~ is_accepted (r_menu r) p) items)) /\
  (result out = inr None ->
     final out = s /\ Forall is_log (events out)) /\
  (forall e, result out = inl e ->
     e = OverflowError /\ final out = s /\ Forall is_log (events out)).
Proof.
  intros out. subst out.
  destruct (Dict.get customer_id (customers s)) as [c|] eqn:Hc.
  2:{ unfold place_order, mbind, Op_bind, get_self, log, emit. simpl.
      rewrite Hc. simpl. split_and!; [naive_solver | | done].
      intros _. split; [done | by repeat constructor]. }
  destruct (Dict.get restaurant_id (restaurants s)) as [r|] eqn:Hr.
  2:{ unfold place_order, mbind, Op_bind, get_self, log, emit. simpl.
      rewrite Hc, Hr. simpl. split_and!; [naive_solver | | done].
      intros _. split; [done | by repeat constructor]. }
  destruct (place_order_run now customer_id restaurant_id items addr s c r Hc Hr)
    as (evs & Hl & ->).
  destruct (accepted_lines (r_menu r) items) as [|li lines] eqn:E.
  - simpl. apply accepted_lines_nil in E. split_and!; [|done|done].
    split; [intros _; right; right; eauto | done].
  - assert (~ (Dict.get customer_id (customers s) = None \/
               Dict.get restaurant_id (restaurants s) = None \/
               (exists r0, Dict.get restaurant_id (restaurants s) = Some r0 /\
                  Forall (fun p => ~ is_accepted (r_menu r0) p) items)))
      as Hno.
    { rewrite Hc, Hr. intros [?|[?|(r' & [= <-] & HF)]]; [done..|].
      apply accepted_lines_nil in HF. congruence. }
    rewrite Hc, Hr in Hno.
    cbv zeta. destruct (lines_overflow (li :: lines)); simpl.
    + split_and!; [by split | done |]. by intros e [= <-].
    + split_and!; [by split | done | done].
Qed.

End PlaceOrder.

(** ** Status updates *)

Section UpdateOrderStatus.
Context {num : Type} `{NumOps : PyNum num} `{StrOps : PyStr}.
Implicit Types (s : Data num) (o : Order num) (a : Agent).

(** What one call of [update_order_status] on a known order does. *)
Lemma update_order_status_run order_id status s o :
  Dict.get order_id (orders s) = Some o ->
  let s1 := with_orders (Dict.set order_id (with_status status o) (orders s)) s in
  let msg := "Order " +:+ order_id +:+ " status updated: " +:+ o_status o
             +:+ " -> " +:+ status in
  update_order_status order_id status s =
    if String.eqb status "delivered" then
      match truthy (o_delivery_agent o) with
      | Some agent_id =>
          match Dict.get agent_id (delivery_agents s) with
          | Some a =>
              let s2 := with_agents
                (Dict.set agent_id (delivered_agent a) (delivery_agents s)) s1 in
              mkOutcome (inr tt) s2 (commit_events msg s2)
          | None => mkOutcome (inl (KeyError agent_id)) s1 []
          end
      | None => mkOutcome (inr tt) s1 (commit_events msg s1)
      end
    else mkOutcome (inr tt) s1 (commit_events msg s1).
Proof.
  intros Ho. unfold update_order_status. unfold_op.
  repeat (rewrite ?Ho; simpl).
  destruct (String.eqb status "delivered"); simpl; [|done].
  repeat (rewrite ?dict_get_set_eq; simpl).
  destruct (truthy (o_delivery_agent o)) as [agent_id|]; simpl; [|done].
  destruct (Dict.get agent_id (delivery_agents s)) as [a|]; simpl; [|done].
  repeat (rewrite ?dict_get_set_eq; simpl).
  by rewrite !dict_set_set.
Qed.

Lemma update_order_status_unknown order_id status s :
  Dict.get order_id (orders s) = None ->
  update_order_status order_id status s =
    mkOutcome (inr tt) s [Log ERROR ("Order " +:+ order_id +:+ " not found.")].
Proof.
  intros Ho. unfold update_order_status, mbind, Op_bind, get_self, log, emit.
  simpl. by rewrite Ho.
Qed.

End UpdateOrderStatus.

(** ** Agent assignment *)

Section AssignDeliveryAgent.
Context {num : Type} `{NumOps : PyNum num} `{StrOps : PyStr}.
Implicit Types (s : Data num) (o : Order num) (a agent : Agent).
Implicit Types (ags : dict Agent).

(** The id that the scan [[k for k, v in items if v == agent][0]] finds. *)
Lemma first_key_of_value ags agent :
  agent ∈ Dict.values ags ->
  exists agent_id,
    head (filter (fun kv => kv.2 = agent) ags).*1 = Some agent_id /\
    (agent_id, agent) ∈ ags.
Proof.
  unfold Dict.values. intros ([k v] & -> & Hin)%list_elem_of_fmap.
  induction ags as [|[k' v'] ags IH]; [by apply elem_of_nil in Hin|].
  rewrite filter_cons. simpl. destruct (decide (v' = v)) as [->|Hne]; simpl.
  - exists k'. split; [done | apply list_elem_of_here].
  - apply elem_of_cons in Hin as [[= -> ->]|Hin]; [done|].
    destruct (IH Hin) as (agent_id & ? & ?). exists agent_id.
    split; [done | by apply list_elem_of_further].
Qed.

(** A draw always lands inside a non-empty sequence. *)
Lemma random_choice_lookup {A : Type} (r : nat) (seq : list A) :
  seq <> [] -> exists x, seq !! (r mod length seq)%nat = Some x.
Proof.
  intros Hne. apply lookup_lt_is_Some_2. apply Nat.mod_upper_bound.
  by destruct seq.
Qed.

Lemma random_randint_range r :
  (15 <= random_randint r 15 45 <= 45)%Z.
Proof.
  unfold random_randint.
  pose proof (Z.mod_pos_bound (Z.of_nat r) (45 - 15 + 1)) as Hb. lia.
Qed.

(** What one successful call of [assign_delivery_agent] does: [agent] is the
    record drawn from the available ones, [agent_id] the key the scan
    resolves it to, [a] the record stored under that key. *)
Lemma assign_delivery_agent_run now r_agent r_minutes order_id s o :
  Dict.get order_id (orders s) = Some o ->
  let available :=
    filter (fun a => a_status a = "available") (Dict.values (delivery_agents s)) in
  available <> [] ->
  exists agent agent_id a,
    available !! (r_agent mod length available)%nat = Some agent /\
    head (filter (fun kv => kv.2 = agent) (delivery_agents s)).*1
      = Some agent_id /\
    (agent_id, agent) ∈ delivery_agents s /\
    Dict.get agent_id (delivery_agents s) = Some a /\
    assign_delivery_agent now r_agent r_minutes order_id s =
      let eta := (now + timedelta_minutes (random_randint r_minutes 15 45))%Z in
      let s' :=
        mkData (restaurants s) (customers s)
          (Dict.set order_id (assigned_order agent_id eta o) (orders s))
          (Dict.set agent_id (busy_agent order_id a) (delivery_agents s)) in
      mkOutcome (inr tt) s'
        (commit_events ("Delivery agent " +:+ agent_id +:+ " assigned to order "
                        +:+ order_id) s').
Proof.
  intros Ho available Hne.
  destruct (random_choice_lookup r_agent available Hne) as [agent Hagent].
  assert (agent ∈ Dict.values (delivery_agents s)) as Hin.
  { apply list_elem_of_lookup_2 in Hagent.
    by apply list_elem_of_filter in Hagent as [_ ?]. }
  destruct (first_key_of_value _ _ Hin) as (agent_id & Hid & Hmem).
  destruct (dict_elem_get_is_Some _ _ _ Hmem) as [a Ha].
  exists agent, agent_id, a. split_and!; [done..|].
  unfold assign_delivery_agent, mbind, Op_bind, get_self. simpl. rewrite Ho.
  fold available. destruct available as [|a0 rest] eqn:Eav; [done|].
  rewrite <- Eav in *. unfold random_choice. rewrite Hagent. simpl.
  destruct (filter (fun kv => kv.2 = agent) (delivery_agents s)).*1
    as [|k ks] eqn:Ek; [done|]. simpl in Hid. injection Hid as ->.
  unfold first_item, set_order_field, set_agent_field, save_data, log, emit,
    mbind, mret, Op_bind, Op_ret, get_self, put_self, raise. simpl.
  rewrite Ho. simpl. rewrite !dict_get_set_eq. simpl. rewrite Ha. simpl.
  rewrite !dict_get_set_eq. simpl. rewrite !dict_get_set_eq. simpl.
  rewrite !dict_set_set. done.
Qed.

End AssignDeliveryAgent.

(** ** Every call is a transition *)

Section Transitions.
Context {num : Type} `{NumOps : PyNum num} `{StrOps : PyStr}.
Implicit Types (s : Data num) (o : Order num) (a : Agent) (c : Call num).

Lemma has_available_agent_filter s :
  has_available_agent s <->
  filter (fun a => a_status a = "available") (Dict.values (delivery_agents s))
    <> [].
Proof.
  unfold has_available_agent. split.
  - intros (a & Hin & Hst) Hnil.
    assert (a ∈ filter (fun a => a_status a = "available")
                  (Dict.values (delivery_agents s))) as Hf
      by by apply list_elem_of_filter.
    rewrite Hnil in Hf. by apply elem_of_nil in Hf.
  - destruct (filter _ _) as [|a l] eqn:E; [done|]. intros _.
    assert (a ∈ filter (fun a => a_status a = "available")
                  (Dict.values (delivery_agents s))) as Hf
      by (rewrite E; apply list_elem_of_here).
    apply list_elem_of_filter in Hf as [? ?]. eauto.
Qed.

Lemma assign_delivery_agent_idle now r_agent r_minutes order_id s :
  Dict.get order_id (orders s) = None \/ ~ has_available_agent s ->
  final (assign_delivery_agent now r_agent r_minutes order_id s) = s /\
  result (assign_delivery_agent now r_agent r_minutes order_id s) = inr tt /\
  Forall is_log (events (assign_delivery_agent now r_agent r_minutes order_id s)).
Proof.
  intros Hcase. unfold assign_delivery_agent, mbind, Op_bind, get_self. simpl.
  destruct (Dict.get order_id (orders s)) as [o|] eqn:Ho.
  - destruct Hcase as [?|Hno]; [done|].
    rewrite has_available_agent_filter in Hno.
    destruct (filter _ _) as [|a l]; [|by destruct Hno].
    simpl. split_and!; [done..|]. by repeat constructor.
  - simpl. split_and!; [done..|]. by repeat constructor.
Qed.

Lemma step_transition c s : transition s (step c s).
Proof.
  destruct c; cbn [step].
  - by apply tr_same.
  - unfold add_menu_item, mbind, Op_bind, get_self. simpl.
    destruct (Dict.get restaurant_id (restaurants s)); by apply tr_same.
  - by apply tr_same.
  - by eapply tr_add_agent.
  - destruct (Dict.get customer_id (customers s)) as [cu|] eqn:Hc.
    2:{ unfold place_order, mbind, Op_bind, get_self. simpl. rewrite Hc.
        by apply tr_same. }
    destruct (Dict.get restaurant_id (restaurants s)) as [r|] eqn:Hr.
    2:{ unfold place_order, mbind, Op_bind, get_self. simpl. rewrite Hc, Hr.
        by apply tr_same. }
    destruct (place_order_run now customer_id restaurant_id items
                delivery_address s cu r Hc Hr) as (evs & _ & ->).
    destruct (accepted_lines (r_menu r) items) as [|li lines];
      [by apply tr_same|].
    cbv zeta. destruct (lines_overflow (li :: lines)); [by apply tr_same|].
    eapply tr_place; cycle 1; [reflexivity..|done].
  - destruct (Dict.get order_id (orders s)) as [o|] eqn:Ho.
    2:{ destruct (assign_delivery_agent_idle now r_agent r_minutes order_id s)
          as [-> _]; [by left | by apply tr_same]. }
    destruct (decide (filter (fun a => a_status a = "available")
                        (Dict.values (delivery_agents s)) = [])) as [Hnil|Hne].
    { destruct (assign_delivery_agent_idle now r_agent r_minutes order_id s)
          as [-> _]; [|by apply tr_same].
      right. rewrite has_available_agent_filter. by intros []. }
    destruct (assign_delivery_agent_run now r_agent r_minutes order_id s o Ho Hne)
      as (agent & agent_id & a & _ & _ & _ & Ha & ->).
    eapply tr_assign; [exact Ho | exact Ha | reflexivity..].
  - destruct (Dict.get order_id (orders s)) as [o|] eqn:Ho.
    2:{ rewrite update_order_status_unknown by done. by apply tr_same. }
    rewrite (update_order_status_run _ _ _ _ Ho).
    destruct (String.eqb_spec status "delivered") as [->|_];
      [|by eapply tr_status; [exact Ho|..]].
    destruct (truthy (o_delivery_agent o)) as [agent_id|] eqn:Ht;
      [|by eapply tr_status; [exact Ho|..]].
    destruct (Dict.get agent_id (delivery_agents s)) as [a|] eqn:Ha;
      [by eapply tr_delivered; [exact Ho|exact Ht|exact Ha|..]
      |by eapply tr_status; [exact Ho|..]].
  - unfold get_order_status, mbind, Op_bind, get_self. simpl.
    destruct (Dict.get order_id (orders s)); by apply tr_same.
  - by apply tr_same.
  - by apply tr_same.
Qed.

End Transitions.

(** ** Invariants of the reachable states *)

Section Invariants.
Context {num : Type} `{NumOps : PyNum num} `{StrOps : PyStr}.
Implicit Types (s : Data num) (o : Order num) (a : Agent) (c : Call num).

Lemma reachable_run (cs : list (Call num)) : reachable (run cs empty_data).
Proof.
  unfold run. induction cs as [|c cs IH] using rev_ind; simpl.
  - constructor.
  - rewrite fold_left_app. simpl. by constructor.
Qed.

Lemma reachable_ind_transition (P : Data num -> Prop) :
  P empty_data ->
  (forall s s', P s -> transition s s' -> P s') ->
  forall s, reachable s -> P s.
Proof.
  intros H0 Hstep s Hr. induction Hr as [|c s _ IH]; [done|].
  eapply Hstep; [exact IH | apply step_transition].
Qed.

(** *** Agents: status and current order agree *)

Lemma agents_consistent_set s s' agent_id a :
  agents_consistent s ->
  agent_status_ok a ->
  delivery_agents s' = Dict.set agent_id a (delivery_agents s) ->
  agents_consistent s'.
Proof.
  intros Hs Ha Heq k a' Hget. rewrite Heq, dict_get_set in Hget.
  destruct (decide (agent_id = k)); [by injection Hget as <- | by eapply Hs].
Qed.

Lemma agents_consistent_transition s s' :
  agents_consistent s -> transition s s' -> agents_consistent s'.
Proof.
  intros Hs [Ho Ha|n p v Ho Ha|order _ Ho Ha|oid o aid a eta _ _ Ho Ha
            |oid o st _ Ho Ha|oid o aid a _ _ _ Ho Ha].
  - intros k a' Hget. rewrite Ha in Hget. by eapply Hs.
  - eapply agents_consistent_set; [done| |done]. by split.
  - intros k a' Hget. rewrite Ha in Hget. by eapply Hs.
  - eapply agents_consistent_set; [done| |done]. by split.
  - intros k a' Hget. rewrite Ha in Hget. by eapply Hs.
  - eapply agents_consistent_set; [done| |done]. by split.
Qed.

(** C3. In every state reachable from the empty system each agent is
    ["busy"] exactly when its [current_order] is set and ["available"]
    exactly when it is unset, and every call (whatever its arguments, and
    from any state that satisfies the invariant) preserves this. *)
Theorem agent_status_invariant :
  (forall s, reachable s -> agents_consistent s) /\
  (forall c s, agents_consistent s -> agents_consistent (step c s)).
Proof.
  split.
  - apply reachable_ind_transition.
    + by intros k a Hget.
    + apply agents_consistent_transition.
  - intros c s Hs. eapply agents_consistent_transition; [done|].
    apply step_transition.
Qed.

(** *** Orders and agents refer to each other consistently *)

Lemma order_id_fresh s :
  order_ids_sequential s ->
  "order_" +:+ pretty (length (orders s) + 1)%nat ∉ Dict.keys (orders s).
Proof.
  unfold order_ids_sequential. intros -> (i & Heq & Hi)%list_elem_of_fmap.
  apply (inj (String.app "order_")) in Heq. apply (inj pretty) in Heq.
  apply elem_of_seq in Hi. lia.
Qed.

Lemma order_ids_sequential_transition s s' :
  order_ids_sequential s -> transition s s' -> order_ids_sequential s'.
Proof.
  intros Hs Htr. unfold order_ids_sequential.
  assert (forall k (v : Order num), is_Some (Dict.get k (orders s)) ->
            orders s' = Dict.set k v (orders s) ->
            Dict.keys (orders s') =
              (fun i => "order_" +:+ pretty i) <$> seq 1 (length (orders s')))
    as Hset.
  { intros k v Hk ->. rewrite dict_length_set_present by done.
    rewrite dict_keys_set_present; [done | by apply dict_get_is_Some_keys]. }
  destruct Htr as [Ho Ha|n p v Ho Ha|order _ Ho Ha|oid o aid a eta Hg _ Ho Ha
                  |oid o st Hg Ho Ha|oid o aid a Hg _ _ Ho Ha];
    try (by rewrite Ho); try (by eapply Hset; eauto).
  rewrite Ho, dict_set_fresh by by apply order_id_fresh.
  unfold Dict.keys. rewrite fmap_app, length_app. simpl.
  rewrite seq_app, fmap_app. simpl. f_equal; [apply Hs|].
  by rewrite Nat.add_comm.
Qed.

Lemma agent_ids_nonempty_transition s s' :
  agent_ids_nonempty s -> transition s s' -> agent_ids_nonempty s'.
Proof.
  intros Hs Htr k.
  destruct Htr as [Ho Ha|n p v Ho Ha|order _ Ho Ha|oid o aid a eta _ Hg Ho Ha
                  |oid o st _ Ho Ha|oid o aid a _ _ Hg Ho Ha];
    rewrite Ha; try apply Hs.
  - intros [->|?]%dict_keys_set; [done | by apply Hs].
  - intros [->|?]%dict_keys_set; apply Hs; [|done].
    apply dict_get_is_Some_keys. eauto.
  - intros [->|?]%dict_keys_set; apply Hs; [|done].
    apply dict_get_is_Some_keys. eauto.
Qed.

Lemma assigned_agents_known_transition s s' :
  agent_ids_nonempty s ->
  assigned_agents_known s -> transition s s' -> assigned_agents_known s'.
Proof.
  intros Hne Hs Htr oid' o' aid' Hget Hag.
  destruct Htr as [Ho Ha|n p v Ho Ha|order Hnone Ho Ha|oid o aid a eta Hgo Hga Ho Ha
                  |oid o st Hgo Ho Ha|oid o aid a Hgo _ Hga Ho Ha];
    rewrite Ho in Hget; rewrite Ha; clear Ho Ha.
  - by eapply Hs.
  - destruct (Hs _ _ _ Hget Hag) as [? ?].
    split; [done | by apply dict_get_set_is_Some].
  - rewrite dict_get_set in Hget. case_decide; [|by eapply Hs].
    injection Hget as <-. congruence.
  - rewrite dict_get_set in Hget. case_decide.
    + injection Hget as <-. simpl in Hag. injection Hag as <-. split.
      * apply Hne. apply dict_get_is_Some_keys. eauto.
      * rewrite dict_get_set_eq. eauto.
    + destruct (Hs _ _ _ Hget Hag) as [? ?].
      split; [done | by apply dict_get_set_is_Some].
  - rewrite dict_get_set in Hget. case_decide; [|by eapply Hs].
    injection Hget as <-. simpl in Hag. by eapply Hs.
  - rewrite dict_get_set in Hget.
    assert (exists o0, Dict.get oid' (orders s) = Some o0 /\
                       o_delivery_agent o0 = Some aid') as (o0 & Hg0 & Ha0).
    { case_decide; [|by eauto]. subst oid'. injection Hget as <-. eauto. }
    destruct (Hs _ _ _ Hg0 Ha0) as [? ?].
    split; [done | by apply dict_get_set_is_Some].
Qed.

Lemma current_orders_assigned_transition s s' :
  order_ids_sequential s ->
  current_orders_assigned s -> transition s s' -> current_orders_assigned s'.
Proof.
  intros Hseq Hs Htr aid' a' oid' Hget Hcur.
  assert (forall k st (o : Order num),
            Dict.get k (orders s) = Some o ->
            (exists o0, Dict.get oid' (orders s) = Some o0 /\
                        o_delivery_agent o0 <> None) ->
            exists o1, Dict.get oid' (Dict.set k (with_status st o) (orders s))
                         = Some o1 /\ o_delivery_agent o1 <> None) as Hstatus.
  { intros k st o Hk (o0 & Hg0 & Hn0). rewrite dict_get_set. case_decide; [|eauto].
    subst k. eexists. split; [done|]. simpl. congruence. }
  destruct Htr as [Ho Ha|n p v Ho Ha|order Hnone Ho Ha|oid o aid a eta Hgo Hga Ho Ha
                  |oid o st Hgo Ho Ha|oid o aid a Hgo _ Hga Ho Ha];
    rewrite Ha in Hget; rewrite Ho; clear Ho Ha.
  - by eapply Hs.
  - rewrite dict_get_set in Hget. case_decide; [|by eapply Hs].
    by injection Hget as <-.
  - destruct (Hs _ _ _ Hget Hcur) as (o0 & Hg0 & Hn0).
    exists o0. split; [|done]. rewrite dict_get_set_ne; [done|].
    intros <-. apply order_id_fresh in Hseq. apply Hseq.
    apply dict_get_is_Some_keys. eauto.
  - rewrite dict_get_set in Hget. rewrite dict_get_set.
    destruct (decide (aid = aid')) as [<-|_].
    + injection Hget as <-. simpl in Hcur. injection Hcur as <-.
      rewrite decide_True by done. eauto.
    + case_decide; [by eauto | by eapply Hs].
  - apply (Hstatus _ _ _ Hgo). by eapply Hs.
  - apply (Hstatus _ _ _ Hgo). rewrite dict_get_set in Hget.
    case_decide; [by injection Hget as <- | by eapply Hs].
Qed.

(** The agent table of a reachable state has no repeated key. *)
Lemma reachable_agent_ids_NoDup s :
  reachable s -> NoDup (Dict.keys (delivery_agents s)).
Proof.
  revert s. apply reachable_ind_transition; [constructor|].
  intros s s' Hnd [Ho Ha|n p v Ho Ha|order _ Ho Ha|oid o aid a eta _ _ Ho Ha
                  |oid o st _ Ho Ha|oid o aid a _ _ _ Ho Ha];
    rewrite Ha; try done; by apply dict_set_NoDup.
Qed.

Lemma lifecycle_invariant_transition s s' :
  lifecycle_invariant s -> transition s s' -> lifecycle_invariant s'.
Proof.
  intros [H1 H2 H3 H4] Htr. split.
  - by eapply order_ids_sequential_transition.
  - by eapply agent_ids_nonempty_transition.
  - by eapply assigned_agents_known_transition.
  - by eapply current_orders_assigned_transition.
Qed.

Lemma reachable_lifecycle_invariant s : reachable s -> lifecycle_invariant s.
Proof.
  revert s. apply reachable_ind_transition.
  - split.
    + done.
    + by intros k ?%elem_of_nil.
    + by intros k o a ?.
    + by intros k a o ?.
  - apply lifecycle_invariant_transition.
Qed.

End Invariants.

(** ** The order life cycle: status updates and assignment *)

Section Lifecycle.
Context {num : Type} `{NumOps : PyNum num} `{StrOps : PyStr}.
Implicit Types (s : Data num) (o : Order num) (a : Agent) (c : Call num).

(** C4. On a known order, [update_order_status] stores whatever status
    string it is given, whatever the previous status was, and touches no
    other order; for every string other than ["delivered"] the call does
    nothing else than this overwrite, the log record and the save. *)
Theorem update_order_status_unconditional order_id status s o :
  Dict.get order_id (orders s) = Some o ->
  let out := update_order_status order_id status s in
  let s1 := with_orders (Dict.set order_id (with_status status o) (orders s)) s in
  Dict.get order_id (orders (final out)) = Some (with_status status o) /\
  (forall k, k <> order_id ->
     Dict.get k (orders (final out)) = Dict.get k (orders s)) /\
  (status <> "delivered" ->
     result out = inr tt /\
     final out = s1 /\
     events out =
       commit_events ("Order " +:+ order_id +:+ " status updated: "
                      +:+ o_status o +:+ " -> " +:+ status) s1).
Proof.
  intros Ho out s1. subst out. rewrite (update_order_status_run _ _ _ _ Ho).
  fold s1. destruct (String.eqb_spec status "delivered") as [->|Hne].
  - destruct (truthy (o_delivery_agent o)) as [agent_id|];
      [destruct (Dict.get agent_id (delivery_agents s)) as [a|]|];
      simpl; rewrite dict_get_set_eq; (split_and!; [done| |done]);
      intros k Hk; by rewrite dict_get_set_ne.
  - simpl. rewrite dict_get_set_eq. split_and!; [done| |done].
    intros k Hk. by rewrite dict_get_set_ne.
Qed.

(** Delivery of an order whose agent id is registered and not empty, in
    any state. *)
Lemma delivered_releases_registered_agent order_id agent_id s o a :
  Dict.get order_id (orders s) = Some o ->
  o_delivery_agent o = Some agent_id ->
  agent_id <> "" ->
  Dict.get agent_id (delivery_agents s) = Some a ->
  let out := update_order_status order_id "delivered" s in
  result out = inr tt /\
  Dict.get agent_id (delivery_agents (final out)) = Some (delivered_agent a) /\
  (forall k, k <> agent_id ->
     Dict.get k (delivery_agents (final out)) = Dict.get k (delivery_agents s)).
Proof.
  intros Ho Hag Hne Ha out. subst out.
  rewrite (update_order_status_run _ _ _ _ Ho). simpl.
  rewrite Hag. simpl. apply String.eqb_neq in Hne. rewrite Hne, Ha. simpl.
  rewrite dict_get_set_eq. split_and!; [done..|].
  intros k Hk. by rewrite dict_get_set_ne.
Qed.

(** Outside the reachable states an order can name an agent that is not
    registered; the call then raises after it has overwritten the status,
    and nothing is saved. *)
Lemma delivered_unregistered_agent_raises order_id agent_id s o :
  Dict.get order_id (orders s) = Some o ->
  o_delivery_agent o = Some agent_id ->
  agent_id <> "" ->
  Dict.get agent_id (delivery_agents s) = None ->
  update_order_status order_id "delivered" s =
    mkOutcome (inl (KeyError agent_id))
      (with_orders (Dict.set order_id (with_status "delivered" o) (orders s)) s)
      [].
Proof.
  intros Ho Hag Hne Ha. rewrite (update_order_status_run _ _ _ _ Ho). simpl.
  rewrite Hag. simpl. apply String.eqb_neq in Hne. by rewrite Hne, Ha.
Qed.

(** C7. In a reachable state, marking an order that has a delivery agent as
    ["delivered"] makes that agent available, clears its current order and
    adds exactly one to its deliveries; the rest of its record and every
    other agent stay as they were. *)
Theorem delivered_releases_agent order_id agent_id s o :
  reachable s ->
  Dict.get order_id (orders s) = Some o ->
  o_delivery_agent o = Some agent_id ->
  let out := update_order_status order_id "delivered" s in
  exists a a',
    Dict.get agent_id (delivery_agents s) = Some a /\
    result out = inr tt /\
    Dict.get agent_id (delivery_agents (final out)) = Some a' /\
    a_status a' = "available" /\
    a_current_order a' = None /\
    a_total_deliveries a' = (a_total_deliveries a + 1)%Z /\
    (a_name a', a_phone a', a_vehicle_type a')
      = (a_name a, a_phone a, a_vehicle_type a) /\
    (forall k, k <> agent_id ->
       Dict.get k (delivery_agents (final out))
         = Dict.get k (delivery_agents s)).
Proof.
  intros Hreach Ho Hag out. subst out.
  destruct (inv_assigned _ (reachable_lifecycle_invariant s Hreach)
              _ _ _ Ho Hag) as [Hne [a Ha]].
  destruct (delivered_releases_registered_agent _ _ _ _ _ Ho Hag Hne Ha)
    as (Hres & Hget & Hframe).
  exists a, (delivered_agent a). by split_and!.
Qed.

(** After a successful assignment the resolved agent is busy with the
    order, and no other agent has changed. *)
Lemma assign_delivery_agent_busy now r_agent r_minutes order_id s o :
  Dict.get order_id (orders s) = Some o ->
  has_available_agent s ->
  let s' := final (assign_delivery_agent now r_agent r_minutes order_id s) in
  exists agent_id,
    busy_with order_id s' agent_id /\
    (forall k, k <> agent_id ->
       Dict.get k (delivery_agents s') = Dict.get k (delivery_agents s)).
Proof.
  intros Ho Hav%has_available_agent_filter s'. subst s'.
  destruct (assign_delivery_agent_run now r_agent r_minutes order_id s o Ho Hav)
    as (agent & agent_id & a & _ & _ & _ & Ha & ->).
  exists agent_id. simpl. split.
  - exists (busy_agent order_id a). simpl. by rewrite dict_get_set_eq.
  - intros k Hk. by rewrite dict_get_set_ne.
Qed.

Lemma assign_delivery_agent_exactly_one_if_unreferenced
    now r_agent r_minutes order_id s o :
  Dict.get order_id (orders s) = Some o ->
  has_available_agent s ->
  (forall k a, Dict.get k (delivery_agents s) = Some a ->
               a_current_order a <> Some order_id) ->
  exists! agent_id,
    busy_with order_id
      (final (assign_delivery_agent now r_agent r_minutes order_id s)) agent_id.
Proof.
  intros Ho Hav Hnone.
  destruct (assign_delivery_agent_busy now r_agent r_minutes order_id s o Ho Hav)
    as (agent_id & Hbusy & Hframe).
  exists agent_id. split; [done|]. intros k (a & Hget & _ & Hcur).
  destruct (decide (k = agent_id)) as [->|Hne]; [done|].
  rewrite Hframe in Hget by done. by destruct (Hnone _ _ Hget).
Qed.

(** C6, as the code has it. In a reachable state, after a successful
    [assign_delivery_agent] on an order that had no delivery agent recorded
    (its first assignment), exactly one agent is busy with that order. *)
Theorem assign_delivery_agent_exactly_one now r_agent r_minutes order_id s o :
  reachable s ->
  Dict.get order_id (orders s) = Some o ->
  o_delivery_agent o = None ->
  has_available_agent s ->
  exists! agent_id,
    busy_with order_id
      (final (assign_delivery_agent now r_agent r_minutes order_id s)) agent_id.
Proof.
  intros Hreach Ho Hfirst Hav.
  apply (assign_delivery_agent_exactly_one_if_unreferenced _ _ _ _ _ o);
    [done..|].
  intros k a Hget Hcur.
  destruct (inv_current _ (reachable_lifecycle_invariant s Hreach)
              _ _ _ Hget Hcur) as (o' & Ho' & Hn).
  congruence.
Qed.

End Lifecycle.

(** ** Which agent an assignment picks *)

Section ChosenAgent.
Context {num : Type} `{NumOps : PyNum num} `{StrOps : PyStr}.
Implicit Types (s : Data num) (o : Order num) (a agent : Agent).
Implicit Types (ags : dict Agent).

Lemma filter_values ags (P : Agent -> Prop) `{!forall a, Decision (P a)} :
  filter P (Dict.values ags) = (filter (fun kv => P kv.2) ags).*2.
Proof.
  unfold Dict.values. induction ags as [|[k v] ags IH]; [done|].
  simpl. rewrite !filter_cons. simpl.
  destruct (decide (P v)); simpl; by rewrite IH.
Qed.

(** When no two agents have equal records, the scan by value finds the key
    the record is stored under. *)
Lemma first_key_of_value_distinct ags k agent :
  NoDup (Dict.values ags) ->
  (k, agent) ∈ ags ->
  head (filter (fun kv => kv.2 = agent) ags).*1 = Some k.
Proof.
  unfold Dict.values. induction ags as [|[k' v'] ags IH]; simpl.
  - by intros _ ?%elem_of_nil.
  - intros [Hv Hnd]%NoDup_cons Hin. rewrite filter_cons. simpl.
    apply elem_of_cons in Hin as [[= -> ->]|Hin].
    + by rewrite decide_True.
    + destruct (decide (v' = agent)) as [->|Hne]; [|by apply IH].
      destruct Hv. apply list_elem_of_fmap. by exists (k, agent).
Qed.

(** The claim about the assignment holds whenever the agents' records are
    pairwise different: the order gets the id of the drawn agent, that agent
    becomes busy with the order, and the estimate is 15 to 45 minutes after
    the clock reading. *)
Lemma assign_delivery_agent_distinct_records
    now r_agent r_minutes order_id s o agent_id agent :
  NoDup (Dict.keys (delivery_agents s)) ->
  NoDup (Dict.values (delivery_agents s)) ->
  Dict.get order_id (orders s) = Some o ->
  drawn_agent r_agent s = Some (agent_id, agent) ->
  let s' := final (assign_delivery_agent now r_agent r_minutes order_id s) in
  exists o' a' minutes,
    Dict.get order_id (orders s') = Some o' /\
    Dict.get agent_id (delivery_agents s') = Some a' /\
    o_delivery_agent o' = Some agent_id /\
    o_status o' = "assigned" /\
    a_status a' = "busy" /\
    a_current_order a' = Some order_id /\
    o_estimated_delivery o' = Some (now + timedelta_minutes minutes)%Z /\
    (15 <= minutes <= 45)%Z.
Proof.
  intros Hkeys Hvals Ho Hdrawn s'. subst s'. unfold drawn_agent in Hdrawn.
  assert (filter (fun a => a_status a = "available")
            (Dict.values (delivery_agents s)) !!
            (r_agent mod length (filter (fun a => a_status a = "available")
                                   (Dict.values (delivery_agents s))))%nat
          = Some agent) as Hchoice.
  { rewrite filter_values, length_fmap, list_lookup_fmap, Hdrawn. done. }
  assert ((agent_id, agent) ∈ delivery_agents s) as Hmem.
  { apply list_elem_of_lookup_2 in Hdrawn.
    by apply list_elem_of_filter in Hdrawn as [_ ?]. }
  assert (filter (fun a => a_status a = "available")
            (Dict.values (delivery_agents s)) <> []) as Hne.
  { intros Hnil. by rewrite Hnil in Hchoice. }
  destruct (assign_delivery_agent_run now r_agent r_minutes order_id s o Ho Hne)
    as (agent' & agent_id' & a & Hc' & Hid & _ & Ha & ->).
  rewrite Hchoice in Hc'. injection Hc' as <-.
  rewrite (first_key_of_value_distinct _ _ _ Hvals Hmem) in Hid.
  injection Hid as <-.
  rewrite (dict_elem_get_NoDup _ _ _ Hkeys Hmem) in Ha. injection Ha as <-.
  simpl. rewrite !dict_get_set_eq.
  exists (assigned_order agent_id
            (now + timedelta_minutes (random_randint r_minutes 15 45)) o),
    (busy_agent order_id agent), (random_randint r_minutes 15 45).
  split_and!; try done; apply random_randint_range.
Qed.

End ChosenAgent.

(** ** Report and search *)

Section Queries.
Context {num : Type} `{NumOps : PyNum num} `{StrOps : PyStr}.
Implicit Types (s : Data num) (o : Order num) (r : Restaurant num).
Implicit Types (os : list (Order num)).

Lemma sum_delivered os acc :
  fold_left nadd
    (o_total_price <$> filter (fun o => o_status o = "delivered") os) acc
  = delivered_total os acc.
Proof.
  revert acc. induction os as [|o os IH]; intros acc; [done|].
  rewrite filter_cons. simpl. destruct (decide (o_status o = "delivered")).
  - simpl. apply IH.
  - apply IH.
Qed.

Lemma delivered_total_app os1 os2 acc :
  delivered_total (os1 ++ os2) acc = delivered_total os2 (delivered_total os1 acc).
Proof. revert acc. induction os1 as [|o os1 IH]; intros acc; simpl; auto. Qed.

Lemma delivered_total_skip os1 o os2 acc :
  o_status o <> "delivered" ->
  delivered_total (os1 ++ o :: os2) acc = delivered_total (os1 ++ os2) acc.
Proof.
  intros Hne. rewrite !delivered_total_app. simpl. by rewrite decide_False.
Qed.

(** C8. The [total_revenue] of the report is the sum of [total_price] over
    the orders whose status is exactly ["delivered"], rounded to 2
    decimals; an order in any other status can be left out of the table
    without changing it. *)
Theorem generate_report_revenue now s :
  exists rep,
    result (generate_report now s) = inr rep /\
    rep_total_revenue rep
      = round2 (delivered_total (Dict.values (orders s)) nzero) /\
    (forall os1 o os2,
       Dict.values (orders s) = os1 ++ o :: os2 ->
       o_status o <> "delivered" ->
       rep_total_revenue rep = round2 (delivered_total (os1 ++ os2) nzero)).
Proof.
  eexists. split; [reflexivity|]. simpl. unfold py_sum. rewrite sum_delivered.
  split; [done|]. intros os1 o os2 -> Hne. by rewrite delivered_total_skip.
Qed.

(** [starts_with] and [str_contains] decide prefix and substring. *)
Lemma starts_with_spec p h :
  starts_with p h = true <-> exists suf, h = p +:+ suf.
Proof.
  revert h. induction p as [|a p IH]; intros h; simpl.
  - split; [intros _; by exists h | done].
  - destruct h as [|b h]; [split; [done | by intros [? ?]]|].
    rewrite andb_true_iff, IH. split.
    + intros [->%Ascii.eqb_eq [suf ->]]. by exists suf.
    + intros [suf [= -> ->]]. split; [apply Ascii.eqb_refl | by exists suf].
Qed.

Lemma str_contains_spec needle hay :
  str_contains needle hay = true <-> exists pre suf, hay = pre +:+ needle +:+ suf.
Proof.
  induction hay as [|b hay IH]; simpl.
  - rewrite orb_false_r, starts_with_spec. split.
    + intros [suf ->]. by exists "", suf.
    + intros (pre & suf & Heq). destruct pre; [by exists suf | done].
  - rewrite orb_true_iff, starts_with_spec, IH. split.
    + intros [[suf ->]|(pre & suf & ->)]; [by exists "", suf|].
      by exists (String b pre), suf.
    + intros (pre & suf & Heq). destruct pre as [|c pre]; simpl in Heq.
      * left. by exists suf.
      * injection Heq as -> ->. right. by exists pre, suf.
Qed.

Lemma truthy_given arg v : truthy arg = Some v <-> given arg v.
Proof.
  unfold truthy, given. destruct arg as [w|]; [|by split; [|intros [? _]]].
  destruct (String.eqb_spec w "") as [->|Hne].
  - split; [done | by intros [[= <-] ?]].
  - split; [by intros [= <-] | by intros [[= <-] _]].
Qed.

Lemma truthy_None arg : truthy arg = None <-> forall v, ~ given arg v.
Proof.
  split.
  - intros Hn v Hg%truthy_given. congruence.
  - intros Hn. destruct (truthy arg) as [v|] eqn:E; [|done].
    by destruct (Hn v); apply truthy_given.
Qed.

(** The condition of the loop is the rule with non-empty arguments. *)
Lemma search_condition_rule cuisine location r :
  search_condition cuisine location r = true <->
  rule_if_nonempty cuisine location r.
Proof.
  unfold search_condition, rule_if_nonempty, ci_substring.
  destruct (truthy cuisine) as [c|] eqn:Ec;
    destruct (truthy location) as [l|] eqn:El;
    rewrite ?orb_true_iff, ?andb_true_iff, ?str_contains_spec;
    rewrite <- ?truthy_None; setoid_rewrite <- truthy_given;
    rewrite ?Ec, ?El; simpl.
  - split.
    + intros [[?|?]|[? _]]; [left; eauto | right; left; eauto | done].
    + intros [(? & [= <-] & ?)|[(? & [= <-] & ?)|[? _]]]; [auto..|done].
  - split.
    + intros [[?|?]|[? _]]; [left; eauto | done..].
    + intros [(? & [= <-] & ?)|[(? & ? & _)|[? _]]]; [auto|done..].
  - split.
    + intros [[?|?]|[_ ?]]; [done | right; left; eauto | done].
    + intros [(? & ? & _)|[(? & [= <-] & ?)|[_ ?]]]; [done|auto|done].
  - split; [intros _; right; right; done | intros _; right; done].
Qed.

(** The loop of [search_restaurants] keeps the entries that pass the
    condition, in the order of the table. *)
Lemma search_loop cuisine location (rs : dict (Restaurant num)) acc :
  fold_left
    (fun results '(rest_id, restaurant) =>
       if search_condition cuisine location restaurant
       then results ++ [mkSearchHit rest_id (r_name restaurant)
                          (r_cuisine restaurant) (r_location restaurant)
                          (r_rating restaurant)]
       else results) rs acc
  = acc ++ ((fun kv => hit_of kv.1 kv.2) <$>
              filter (fun kv => search_condition cuisine location kv.2 = true) rs).
Proof.
  revert acc. induction rs as [|[k r] rs IH]; intros acc; simpl.
  - by rewrite app_nil_r.
  - rewrite IH, filter_cons. simpl.
    destruct (search_condition cuisine location r); simpl; [|done].
    by rewrite <- app_assoc.
Qed.

(** C9, as the code has it. [search_restaurants] returns the entries of
    exactly the restaurants that satisfy the inclusive-or rule in which an
    argument counts as given when it was passed and is not the empty
    string. *)
Theorem search_restaurants_rule cuisine location s :
  returns_exactly rule_if_nonempty cuisine location s.
Proof.
  unfold returns_exactly. eexists. split; [reflexivity|]. intros h.
  rewrite search_loop. simpl. rewrite list_elem_of_fmap. split.
  - intros ([k r] & -> & [Hc Hin]%list_elem_of_filter).
    exists k, r. by rewrite <- search_condition_rule.
  - intros (k & r & Hin & Hrule & ->). exists (k, r). split; [done|].
    apply list_elem_of_filter. by rewrite <- search_condition_rule in Hrule.
Qed.

(** C10. The three queries return without raising, leave the four
    collections as they were, and produce no event at all: no log record
    and no write of the data file. *)
Theorem queries_read_only s :
  (forall order_id,
     exists v, get_order_status order_id s = mkOutcome (inr v) s []) /\
  (forall now, exists v, generate_report now s = mkOutcome (inr v) s []) /\
  (forall cuisine location,
     exists v, search_restaurants cuisine location s = mkOutcome (inr v) s []).
Proof.
  split_and!.
  - intros order_id. unfold get_order_status. unfold_op. simpl.
    destruct (Dict.get order_id (orders s)); eauto.
  - intros now. eexists. reflexivity.
  - intros cuisine location. eexists. reflexivity.
Qed.

End Queries.

(** ** The statements at concrete runs *)

Section Runs.
#[local] Existing Instance AsciiText.

(** The scenario of the specification: 2 x 12.99 + 14.99 + 2.99 = 43.96. *)
Example demo_total_price :
  o_total_price <$> Dict.get "order_1" (orders demo_placed)
    = Some (Qred (4396 # 100)).
Proof. vm_compute. reflexivity. Qed.

(** A quantity beyond the float range: the product raises and no order is
    stored. *)
Example demo_overflow :
  place_order 1000 "cust_1" "rest_1" [("item_1", 10 ^ 309)%Z] None demo_ready
  = mkOutcome (inl OverflowError) demo_ready [].
Proof. vm_compute. reflexivity. Qed.

Example demo_report_revenue :
  exists rep,
    result (generate_report 5000 demo_delivered) = inr rep /\
    rep_total_revenue rep = Qred (4396 # 100).
Proof. eexists. split; vm_compute; reflexivity. Qed.

Lemma demo_ready_reachable : reachable demo_ready.
Proof. apply reachable_run. Defined.

Lemma demo_placed_reachable : reachable demo_placed.
Proof. apply reachable_step, demo_ready_reachable. Defined.

Lemma demo_assigned_reachable : reachable demo_assigned.
Proof. apply reachable_step, demo_placed_reachable. Defined.

Lemma place_order_total_price_witness :
  Dict.get "cust_1" (customers demo_ready) = Some demo_customer /\
  Dict.get "rest_1" (restaurants demo_ready) = Some demo_restaurant /\
  Exists (is_accepted (r_menu demo_restaurant)) demo_items /\
  exists order_id order,
    result (place_order 1000 "cust_1" "rest_1" demo_items None demo_ready)
      = inr (Some order_id) /\
    Dict.get order_id
      (orders (final (place_order 1000 "cust_1" "rest_1" demo_items None
                        demo_ready))) = Some order /\
    o_items order = accepted_lines (r_menu demo_restaurant) demo_items /\
    o_total_price order =
      round2 (nadd (py_sum (line_amount <$> o_items order)) nfee).
Proof.
  assert (Hc : Dict.get "cust_1" (customers demo_ready) = Some demo_customer)
    by (vm_compute; reflexivity).
  assert (Hr : Dict.get "rest_1" (restaurants demo_ready) = Some demo_restaurant)
    by (vm_compute; reflexivity).
  assert (He : Exists (is_accepted (r_menu demo_restaurant)) demo_items).
  { apply Exists_cons_hd. eexists. split; vm_compute; reflexivity. }
  split; [exact Hc|]. split; [exact Hr|]. split; [exact He|].
  destruct (place_order_total_price 1000 "cust_1" "rest_1" demo_items None
              demo_ready demo_customer demo_restaurant Hc Hr He)
    as [(Hov & _)|(_ & Hplaced)].
  - exfalso. vm_compute in Hov. discriminate Hov.
  - exact Hplaced.
Defined.

Lemma place_order_failure_witness :
  result (place_order 1000 "cust_1" "rest_1" [("item_9", 1%Z)] None demo_ready)
    = inr None /\
  final (place_order 1000 "cust_1" "rest_1" [("item_9", 1%Z)] None demo_ready)
    = demo_ready.
Proof.
  destruct (place_order_failure 1000 "cust_1" "rest_1" [("item_9", 1%Z)] None
              demo_ready) as (_ & Hsame & _).
  assert (Hnone : result (place_order 1000 "cust_1" "rest_1"
                            [("item_9", 1%Z)] None demo_ready) = inr None)
    by (vm_compute; reflexivity).
  split; [exact Hnone | exact (proj1 (Hsame Hnone))].
Defined.

Lemma agent_status_invariant_witness :
  reachable demo_assigned /\ agents_consistent demo_assigned /\
  agents_consistent (step (UpdateOrderStatus "order_1" "delivered") demo_assigned).
Proof.
  pose proof (proj1 agent_status_invariant demo_assigned
                demo_assigned_reachable) as Hinv.
  split; [exact demo_assigned_reachable|]. split; [exact Hinv|].
  exact (proj2 agent_status_invariant
           (UpdateOrderStatus "order_1" "delivered") demo_assigned Hinv).
Defined.

Lemma update_order_status_unconditional_witness :
  Dict.get "order_1" (orders demo_assigned) = Some demo_order_assigned /\
  Dict.get "order_1"
    (orders (final (update_order_status "order_1" "lost in space"
                      demo_assigned)))
    = Some (with_status "lost in space" demo_order_assigned).
Proof.
  assert (Ho : Dict.get "order_1" (orders demo_assigned)
               = Some demo_order_assigned) by (vm_compute; reflexivity).
  split; [exact Ho|].
  exact (proj1 (update_order_status_unconditional "order_1" "lost in space"
                  demo_assigned demo_order_assigned Ho)).
Defined.

Lemma delivered_releases_agent_witness :
  reachable demo_assigned /\
  Dict.get "order_1" (orders demo_assigned) = Some demo_order_assigned /\
  o_delivery_agent demo_order_assigned = Some "agent_1" /\
  exists a a',
    Dict.get "agent_1" (delivery_agents demo_assigned) = Some a /\
    Dict.get "agent_1"
      (delivery_agents (final (update_order_status "order_1" "delivered"
                                 demo_assigned))) = Some a' /\
    a_status a' = "available" /\
    a_current_order a' = None /\
    a_total_deliveries a' = (a_total_deliveries a + 1)%Z.
Proof.
  assert (Ho : Dict.get "order_1" (orders demo_assigned)
               = Some demo_order_assigned) by (vm_compute; reflexivity).
  assert (Hag : o_delivery_agent demo_order_assigned = Some "agent_1")
    by reflexivity.
  split; [exact demo_assigned_reachable|]. split; [exact Ho|].
  split; [exact Hag|].
  destruct (delivered_releases_agent "order_1" "agent_1" demo_assigned
              demo_order_assigned demo_assigned_reachable Ho Hag)
    as (a & a' & Ha & _ & Ha' & Hst & Hcur & Htot & _).
  exists a, a'. repeat split; assumption.
Defined.

Lemma demo_placed_has_available_agent : has_available_agent demo_placed.
Proof.
  exists (mkAgent "Mike Johnson" "987-654-3210" "Bike" "available" None 0%Z).
  split; [apply list_elem_of_here | reflexivity].
Defined.

Lemma assign_delivery_agent_exactly_one_witness :
  reachable demo_placed /\
  Dict.get "order_1" (orders demo_placed) = Some demo_order /\
  o_delivery_agent demo_order = None /\
  has_available_agent demo_placed /\
  exists! agent_id,
    busy_with "order_1"
      (final (assign_delivery_agent 2000 0 7 "order_1" demo_placed)) agent_id.
Proof.
  assert (Ho : Dict.get "order_1" (orders demo_placed) = Some demo_order)
    by (vm_compute; reflexivity).
  assert (Hno : o_delivery_agent demo_order = None) by reflexivity.
  split; [exact demo_placed_reachable|]. split; [exact Ho|].
  split; [exact Hno|]. split; [exact demo_placed_has_available_agent|].
  exact (assign_delivery_agent_exactly_one 2000 0 7 "order_1" demo_placed
           demo_order demo_placed_reachable Ho Hno
           demo_placed_has_available_agent).
Defined.

Lemma generate_report_revenue_witness :
  Dict.values (orders demo_assigned) = [] ++ demo_order_assigned :: [] /\
  o_status demo_order_assigned <> "delivered" /\
  exists rep,
    result (generate_report 5000 demo_assigned) = inr rep /\
    rep_total_revenue rep = round2 (delivered_total [] nzero).
Proof.
  assert (Hvals : Dict.values (orders demo_assigned)
                  = [] ++ demo_order_assigned :: [])
    by (vm_compute; reflexivity).
  assert (Hst : o_status demo_order_assigned <> "delivered") by discriminate.
  split; [exact Hvals|]. split; [exact Hst|].
  destruct (generate_report_revenue 5000 demo_assigned)
    as (rep & Hres & _ & Hskip).
  exists rep. split; [exact Hres|].
  exact (Hskip [] demo_order_assigned [] Hvals Hst).
Defined.

(** With a single agent the draw and the scan agree. *)
Example demo_assignment :
  exists o' a',
    Dict.get "order_1" (orders demo_assigned) = Some o' /\
    Dict.get "agent_1" (delivery_agents demo_assigned) = Some a' /\
    o_delivery_agent o' = Some "agent_1" /\
    o_status o' = "assigned" /\
    a_status a' = "busy" /\
    a_current_order a' = Some "order_1".
Proof.
  destruct (assign_delivery_agent_distinct_records 2000 0 7 "order_1"
              demo_placed demo_order "agent_1"
              (mkAgent "Mike Johnson" "987-654-3210" "Bike" "available" None 0%Z))
    as (o' & a' & m & Ho' & Ha' & H1 & H2 & H3 & H4 & _).
  - apply reachable_agent_ids_NoDup, demo_placed_reachable.
  - vm_compute. apply NoDup_singleton.
  - vm_compute. reflexivity.
  - vm_compute. reflexivity.
  - exists o', a'. repeat split; assumption.
Qed.

(** C5. The code at two agents with equal records: the draw picks the
    second of them, stored under [agent_2], but the scan by value resolves
    it to [agent_1]; the order is given to [agent_1], who becomes busy,
    and the drawn [agent_2] stays available with no current order. *)
Theorem assign_delivery_agent_twin_records :
  let s := twin_state in
  let s' := final (assign_delivery_agent 2000 1 0 "order_1" s) in
  fst <$> drawn_agent 1 s = Some "agent_2" /\
  o_delivery_agent <$> Dict.get "order_1" (orders s') = Some (Some "agent_1") /\
  a_status <$> Dict.get "agent_1" (delivery_agents s') = Some "busy" /\
  a_status <$> Dict.get "agent_2" (delivery_agents s') = Some "available" /\
  a_current_order <$> Dict.get "agent_2" (delivery_agents s') = Some None.
Proof. vm_compute. by split_and!. Qed.

(** C6 as stated fails: assigning the same order a second time, while its
    first agent is still busy with it, leaves two agents busy with it. *)
Lemma assign_delivery_agent_twice_counterexample :
  reachable reassign_state /\
  is_Some (Dict.get "order_1" (orders reassign_state)) /\
  has_available_agent reassign_state /\
  ~ (exists! agent_id,
       busy_with "order_1"
         (final (assign_delivery_agent 3000 0 0 "order_1" reassign_state))
         agent_id).
Proof.
  split; [apply reachable_run|]. split; [vm_compute; eauto|]. split.
  { exists (mkAgent "Ana Silva" "555-0101" "Car" "available" None 0%Z).
    split; [|reflexivity]. by apply (list_elem_of_lookup_2 _ 1%nat). }
  intros (k & _ & Huniq).
  assert (busy_with "order_1"
            (final (assign_delivery_agent 3000 0 0 "order_1" reassign_state))
            "agent_1") as H1.
  { eexists. split; [vm_compute; reflexivity|]. by split. }
  assert (busy_with "order_1"
            (final (assign_delivery_agent 3000 0 0 "order_1" reassign_state))
            "agent_2") as H2.
  { eexists. split; [vm_compute; reflexivity|]. by split. }
  apply Huniq in H1, H2. congruence.
Qed.

(** The inclusive or of the search: with both arguments given, a Mexican
    restaurant in Downtown is returned for ("Italian", "Downtown"). *)
Example search_either_condition :
  exists hits,
    result (search_restaurants (Some "Italian") (Some "Downtown") search_state)
      = inr hits /\
    sh_id <$> hits = ["rest_1"; "rest_2"].
Proof. eexists. split; vm_compute; reflexivity. Qed.

(** C9 as stated fails when an argument is passed as the empty string: it
    is then treated as absent, although the empty string occurs in every
    cuisine. For (cuisine "", location "Downtown") the Mexican restaurant
    in Uptown is not returned. *)
Lemma search_restaurants_empty_cuisine_counterexample :
  ~ returns_exactly (StrOps := AsciiText) rule_if_passed
      (Some "") (Some "Downtown") search_state.
Proof.
  intros (hits & Hres & Hiff).
  assert (hits = [hit_of "rest_1"
                    (mkRestaurant "Pizza Palace" "Italian" "Downtown" [] 0%Q 0%Z);
                  hit_of "rest_2"
                    (mkRestaurant "Taco Town" "Mexican" "Downtown" [] 0%Q 0%Z)])
    as ->.
  { vm_compute in Hres. by injection Hres as <-. }
  pose (r3 := mkRestaurant (num:=Q) "Casa Maya" "Mexican" "Uptown" [] 0%Q 0%Z).
  assert (hit_of "rest_3" r3
            ∈ [hit_of "rest_1"
                 (mkRestaurant "Pizza Palace" "Italian" "Downtown" [] 0%Q 0%Z);
               hit_of "rest_2"
                 (mkRestaurant "Taco Town" "Mexican" "Downtown" [] 0%Q 0%Z)])
    as Hin.
  { apply Hiff. exists "rest_3", r3. split_and!; [|left|done].
    - by apply (list_elem_of_lookup_2 _ 2%nat).
    - exists "". split; [done|]. by exists "", "mexican". }
  apply elem_of_cons in Hin as [?|Hin]; [done|].
  apply elem_of_cons in Hin as [?|Hin]; [done|].
  by apply elem_of_nil in Hin.
Qed.

End Runs.

(** ** Every call: quiet, committed, or raised *)

Section Calls.
Context {num : Type} `{NumOps : PyNum num} `{StrOps : PyStr}.
Implicit Types (s : Data num) (o : Order num) (a : Agent) (c : Call num).

Lemma exec_final c s : final (exec c s) = step c s.
Proof.
  destruct c; cbn [exec step]; try reflexivity; unfold void;
    match goal with
    | |- context [match ?m with mkOutcome _ _ _ => _ end] =>
        by destruct m as [[?|?] ? ?]
    end.
Qed.

Lemma quiet_log s lvl msg : quiet s (log lvl msg s).
Proof. split_and!; [done..|]. by repeat constructor. Qed.

Lemma exec_cases c s :
  quiet s (exec c s) \/ committed s (exec c s) \/
  raised_on_agent c s (exec c s) \/ raised_on_amount c s (exec c s).
Proof.
  destruct c; cbn [exec].
  - right; left. split_and!; [done| |].
    + by eapply mut_add_restaurant.
    + eexists [_]. split; [|reflexivity]. by repeat constructor.
  - unfold add_menu_item. unfold_op. simpl.
    destruct (Dict.get restaurant_id (restaurants s)) as [r|] eqn:Hr.
    + right; left. split_and!; [done| |].
      * by eapply mut_add_menu_item.
      * eexists [_]. split; [|reflexivity]. by repeat constructor.
    + left. apply quiet_log.
  - right; left. split_and!; [done| |].
    + by eapply mut_register.
    + eexists [_]. split; [|reflexivity]. by repeat constructor.
  - right; left. split_and!; [done| |].
    + by eapply mut_add_agent.
    + eexists [_]. split; [|reflexivity]. by repeat constructor.
  - destruct (Dict.get customer_id (customers s)) as [cu|] eqn:Hc.
    2:{ left. unfold void, place_order. unfold_op. simpl. rewrite Hc. simpl.
        split_and!; [done..|]. by repeat constructor. }
    destruct (Dict.get restaurant_id (restaurants s)) as [r|] eqn:Hr.
    2:{ left. unfold void, place_order. unfold_op. simpl. rewrite Hc, Hr. simpl.
        split_and!; [done..|]. by repeat constructor. }
    destruct (place_order_run now customer_id restaurant_id items
                delivery_address s cu r Hc Hr) as (evs & Hl & Hrun).
    unfold void. rewrite Hrun.
    destruct (accepted_lines (r_menu r) items) as [|li lines] eqn:E.
    + left. by split_and!.
    + cbv zeta. destruct (lines_overflow (li :: lines)).
      { right; right; right. split; [by eexists _, _, _, _, _ | done]. }
      right; left. split_and!; [done| |].
      * simpl. eapply (mut_place _ _ _ _ _ _ _ _ items); [done..| |];
          by rewrite E.
      * by exists evs.
  - destruct (Dict.get order_id (orders s)) as [o|] eqn:Ho.
    2:{ left. destruct (assign_delivery_agent_idle now r_agent r_minutes
                          order_id s) as (? & ? & ?); [by left | done]. }
    destruct (decide (filter (fun a => a_status a = "available")
                        (Dict.values (delivery_agents s)) = [])) as [Hnil|Hne].
    { left. destruct (assign_delivery_agent_idle now r_agent r_minutes
                        order_id s) as (? & ? & ?); [|done].
      right. rewrite has_available_agent_filter. by intros []. }
    destruct (assign_delivery_agent_run now r_agent r_minutes order_id s o Ho Hne)
      as (agent & agent_id & a & Hdraw & _ & Hmem & Ha & ->).
    right; left. split_and!; [done| |].
    + simpl. eapply (mut_assign _ _ _ _ _ _ _ now
                       (random_randint r_minutes 15 45));
        [done|done| |done|apply random_randint_range|done].
      apply list_elem_of_lookup_2 in Hdraw.
      by apply list_elem_of_filter in Hdraw as [? _].
    + eexists [_]. split; [|reflexivity]. by repeat constructor.
  - destruct (Dict.get order_id (orders s)) as [o|] eqn:Ho.
    2:{ left. rewrite update_order_status_unknown by done.
        split_and!; [done..|]. by repeat constructor. }
    rewrite (update_order_status_run _ _ _ _ Ho).
    assert (forall st msg,
      committed s
        (mkOutcome (inr tt)
           (with_orders (Dict.set order_id (with_status st o) (orders s)) s)
           (commit_events msg
              (with_orders (Dict.set order_id (with_status st o) (orders s)) s))))
      as Hstatus.
    { intros st msg. split_and!; [done| |].
      - by eapply mut_status.
      - eexists [_]. split; [|reflexivity]. by repeat constructor. }
    destruct (String.eqb_spec status "delivered") as [->|_]; [|right; left; done].
    destruct (truthy (o_delivery_agent o)) as [agent_id|] eqn:Ht;
      [|right; left; done].
    destruct (Dict.get agent_id (delivery_agents s)) as [a|] eqn:Ha.
    + right; left. split_and!; [done| |].
      * by eapply mut_delivered.
      * eexists [_]. split; [|reflexivity]. by repeat constructor.
    + right; right; left. by exists order_id, o, agent_id.
  - left. unfold void, get_order_status. unfold_op. simpl.
    destruct (Dict.get order_id (orders s)); by split_and!.
  - left. by split_and!.
  - left. by split_and!.
Qed.

End Calls.

(** ** The ledger invariant *)

Section Ledger.
Context {num : Type} `{NumOps : PyNum num} `{StrOps : PyStr}.
Implicit Types (s : Data num) (o : Order num) (a : Agent) (c : Call num).

Lemma truthy_Some arg v : truthy arg = Some v -> arg = Some v /\ v <> "".
Proof. by intros ?%truthy_given. Qed.

(** In a reachable state a delivery update finds its agent. *)
Lemma reachable_not_raised c s out :
  reachable s -> ~ raised_on_agent c s out.
Proof.
  intros Hreach (oid & o & aid & _ & Ho & [Hag _]%truthy_Some & Hnone & _).
  destruct (inv_assigned _ (reachable_lifecycle_invariant s Hreach)
              _ _ _ Ho Hag) as [_ [a Ha]].
  congruence.
Qed.

Lemma reachable_ind_mutation (P : Data num -> Prop) :
  P empty_data ->
  (forall s s', reachable s -> P s -> mutation s s' -> P s') ->
  forall s, reachable s -> P s.
Proof.
  intros H0 Hstep s Hr. induction Hr as [|c s Hr IH]; [done|].
  rewrite <- exec_final.
  destruct (exec_cases c s)
    as [(_ & -> & _)|[(_ & Hmut & _)|[Hraised|(_ & _ & -> & _)]]].
  - done.
  - by eapply Hstep.
  - by destruct (reachable_not_raised c s (exec c s) Hr).
  - done.
Qed.

(** *** Sequential ids *)

Lemma ids_sequential_fresh {V : Type} prefix (d : dict V) :
  ids_sequential prefix d ->
  prefix +:+ pretty (length d + 1)%nat ∉ Dict.keys d.
Proof.
  unfold ids_sequential. intros -> (i & Heq & Hi)%list_elem_of_fmap.
  apply (inj (String.app prefix)) in Heq. apply (inj pretty) in Heq.
  apply elem_of_seq in Hi. lia.
Qed.

Lemma ids_sequential_next {V : Type} prefix (v : V) (d : dict V) :
  ids_sequential prefix d ->
  ids_sequential prefix (Dict.set (prefix +:+ pretty (length d + 1)%nat) v d).
Proof.
  intros Hd. rewrite dict_set_fresh by by apply ids_sequential_fresh.
  unfold ids_sequential, Dict.keys in *. rewrite fmap_app, length_app. simpl.
  rewrite seq_app, fmap_app. simpl. f_equal; [apply Hd|].
  by rewrite Nat.add_comm.
Qed.

Lemma ids_sequential_update {V : Type} prefix k (v : V) (d : dict V) :
  is_Some (Dict.get k d) ->
  ids_sequential prefix d -> ids_sequential prefix (Dict.set k v d).
Proof.
  intros Hk Hd. unfold ids_sequential.
  rewrite dict_length_set_present by done.
  rewrite dict_keys_set_present; [done | by apply dict_get_is_Some_keys].
Qed.

Lemma ids_sequential_NoDup {V : Type} prefix (d : dict V) :
  ids_sequential prefix d -> NoDup (Dict.keys d).
Proof.
  unfold ids_sequential. intros ->. apply NoDup_fmap_2; [|apply NoDup_seq].
  intros i j Heq. apply (inj (String.app prefix)) in Heq.
  by apply (inj pretty) in Heq.
Qed.

(** *** Selecting the orders of a customer or of a restaurant *)

Lemma filter_field_update {V : Type} (f : V -> string) x k (v v' : V)
    (d : dict V) :
  Dict.get k d = Some v ->
  f v' = f v ->
  (filter (fun kv => f kv.2 = x) (Dict.set k v' d)).*1
    = (filter (fun kv => f kv.2 = x) d).*1.
Proof.
  intros Hget Hf. revert Hget.
  induction d as [|[k0 v0] d IH]; [done|]. simpl.
  destruct (String.eqb_spec k k0) as [->|Hne]; intros Hget.
  - injection Hget as ->. rewrite !filter_cons. simpl. rewrite Hf.
    by destruct (decide (f v = x)).
  - specialize (IH Hget). rewrite !filter_cons. simpl.
    destruct (decide (f v0 = x)); [|done]. rewrite !fmap_cons. by f_equal.
Qed.

Lemma filter_field_append {V : Type} (f : V -> string) x k (v : V)
    (d : dict V) :
  filter (fun kv => f kv.2 = x) (d ++ [(k, v)])
    = filter (fun kv => f kv.2 = x) d
      ++ (if decide (f v = x) then [(k, v)] else []).
Proof.
  rewrite filter_app, filter_cons, filter_nil. simpl.
  by destruct (decide (f v = x)).
Qed.

Lemma filter_field_none {V : Type} (f : V -> string) x (d : dict V) :
  (forall k v, Dict.get k d = Some v -> f v <> x) ->
  NoDup (Dict.keys d) ->
  filter (fun kv => f kv.2 = x) d = [].
Proof.
  intros Hnone Hnd.
  destruct (filter (fun kv => f kv.2 = x) d) as [|[k v] l] eqn:E; [done|].
  assert ((k, v) ∈ filter (fun kv => f kv.2 = x) d)
    as [Hf Hin]%list_elem_of_filter by (rewrite E; apply list_elem_of_here).
  by destruct (Hnone k v (dict_elem_get_NoDup _ _ _ Hnd Hin)).
Qed.

(** *** The invariant is kept by every mutation *)

Lemma order_ok_mono s s' order_id o :
  order_ok s order_id o ->
  (forall k, is_Some (Dict.get k (customers s)) ->
             is_Some (Dict.get k (customers s'))) ->
  (forall k, is_Some (Dict.get k (restaurants s)) ->
             is_Some (Dict.get k (restaurants s'))) ->
  order_ok s' order_id o.
Proof. intros [] Hc Hr. split; auto. Qed.

Lemma dict_get_fresh {V : Type} prefix (d : dict V) :
  ids_sequential prefix d ->
  Dict.get (prefix +:+ pretty (length d + 1)%nat) d = None.
Proof. intros Hd. by apply dict_get_None_keys, ids_sequential_fresh. Qed.

(** Replacing a stored order by one with the same snapshot. *)
Lemma ledger_order_update s s' order_id o o' :
  ledger_invariant s ->
  Dict.get order_id (orders s) = Some o ->
  snapshot o' = snapshot o ->
  (o_delivery_agent o' = None <-> o_estimated_delivery o' = None) ->
  restaurants s' = restaurants s ->
  customers s' = customers s ->
  orders s' = Dict.set order_id o' (orders s) ->
  ids_sequential "agent_" (delivery_agents s') ->
  ledger_invariant s'.
Proof.
  intros [Hr Hc Ho Ha Hok Hh Ht] Hget Hsnap Hest Er Ec Eo Hags.
  unfold snapshot in Hsnap. injection Hsnap as Hid Hcu Hre Hit Hto _ _.
  split; rewrite ?Er, ?Ec, ?Eo; try done.
  - apply ids_sequential_update; eauto.
  - intros k o1. rewrite dict_get_set. case_decide as Hk.
    + intros [= <-]. subst k. destruct (Hok _ _ Hget) as [].
      split; rewrite ?Er, ?Ec, ?Hid, ?Hcu, ?Hre, ?Hit, ?Hto; done.
    + intros Hg. eapply order_ok_mono; [by apply Hok| |];
        intros k'; by rewrite ?Er, ?Ec.
  - intros k cu Hg. rewrite (Hh _ _ Hg). unfold orders_of_customer.
    rewrite Eo. symmetry. by eapply filter_field_update.
  - intros k r Hg. rewrite (Ht _ _ Hg). unfold orders_of_restaurant.
    rewrite Eo. f_equal.
    rewrite <- (length_fmap fst (filter _ (Dict.set order_id o' (orders s)))),
      <- (length_fmap fst (filter _ (orders s))).
    f_equal. symmetry. by eapply (filter_field_update o_restaurant_id).
Qed.

Lemma ledger_invariant_mutation s s' :
  ledger_invariant s -> mutation s s' -> ledger_invariant s'.
Proof.
  intros Hinv Hmut.
  destruct Hmut as [name cuisine location menu ->
                   |rid r item_name price description category Hrid ->
                   |name email phone address ->
                   |name phone vehicle ->
                   |now cid rid addr cu r items Hcid Hrid Hlines ->
                   |oid o aid agent a now minutes Hoid _ _ Haid _ ->
                   |oid o st Hoid ->
                   |oid o aid a Hoid _ Haid ->].
  - (* add_restaurant *)
    destruct Hinv as [Hr Hc Ho Ha Hok Hh Ht]. split; simpl; try done.
    + by apply ids_sequential_next.
    + intros k o Hg. eapply order_ok_mono; [by apply Hok|done|].
      intros k'. apply dict_get_set_is_Some.
    + intros k r. rewrite dict_get_set. case_decide as Hk; [|by apply Ht].
      intros [= <-]. subst k. simpl. unfold orders_of_restaurant. simpl.
      rewrite filter_field_none; [done| |by eapply ids_sequential_NoDup].
      intros k o Hg Heq. destruct (ok_restaurant _ _ _ (Hok _ _ Hg)) as [r' Hr'].
      rewrite Heq, dict_get_fresh in Hr'; done.
  - (* add_menu_item *)
    destruct Hinv as [Hr Hc Ho Ha Hok Hh Ht]. split; simpl; try done.
    + apply ids_sequential_update; eauto.
    + intros k o Hg. eapply order_ok_mono; [by apply Hok|done|].
      intros k'. apply dict_get_set_is_Some.
    + intros k r'. rewrite dict_get_set. case_decide as Hk; [|by apply Ht].
      intros [= <-]. subst k. simpl. by apply Ht.
  - (* register_customer *)
    destruct Hinv as [Hr Hc Ho Ha Hok Hh Ht]. split; simpl; try done.
    + by apply ids_sequential_next.
    + intros k o Hg. eapply order_ok_mono; [by apply Hok| |done].
      intros k'. apply dict_get_set_is_Some.
    + intros k cu. rewrite dict_get_set. case_decide as Hk; [|by apply Hh].
      intros [= <-]. subst k. simpl. unfold orders_of_customer. simpl.
      rewrite filter_field_none; [done| |by eapply ids_sequential_NoDup].
      intros k o Hg Heq. destruct (ok_customer _ _ _ (Hok _ _ Hg)) as [c' Hc'].
      rewrite Heq, dict_get_fresh in Hc'; done.
  - (* add_delivery_agent *)
    destruct Hinv as [Hr Hc Ho Ha Hok Hh Ht]. split; simpl; try done.
    + by apply ids_sequential_next.
    + intros k o Hg. by eapply order_ok_mono; [by apply Hok|..].
  - (* place_order *)
    destruct Hinv as [Hr Hc Ho Ha Hok Hh Ht].
    pose proof (dict_get_fresh _ _ Ho) as Hnew.
    assert (Dict.set ("order_" +:+ pretty (length (orders s) + 1)%nat)
              (mkOrder ("order_" +:+ pretty (length (orders s) + 1)%nat) cid rid
                 (accepted_lines (r_menu r) items)
                 (round2 (nadd (py_sum (line_amount <$>
                    accepted_lines (r_menu r) items)) nfee)) "placed" now
                 (py_or addr (c_address cu)) None None) (orders s)
            = orders s ++
              [("order_" +:+ pretty (length (orders s) + 1)%nat,
                mkOrder ("order_" +:+ pretty (length (orders s) + 1)%nat) cid rid
                 (accepted_lines (r_menu r) items)
                 (round2 (nadd (py_sum (line_amount <$>
                    accepted_lines (r_menu r) items)) nfee)) "placed" now
                 (py_or addr (c_address cu)) None None)]) as Happ.
    { apply dict_set_fresh. by apply ids_sequential_fresh. }
    split; unfold placed_state; simpl.
    + apply ids_sequential_update; eauto.
    + apply ids_sequential_update; eauto.
    + by apply ids_sequential_next.
    + done.
    + intros k o. rewrite dict_get_set. case_decide as Hk.
      * intros [= <-]. subst k. split; simpl; try done.
        -- rewrite dict_get_set_eq. eauto.
        -- rewrite dict_get_set_eq. eauto.
      * intros Hg. eapply order_ok_mono; [by apply Hok| |];
          intros k'; apply dict_get_set_is_Some.
    + intros k c'. unfold orders_of_customer. simpl.
      rewrite Happ, filter_field_append, fmap_app. simpl.
      rewrite dict_get_set. case_decide as Hk.
      * intros [= <-]. subst k. simpl. rewrite ?decide_True by done.
        by rewrite (Hh _ _ Hcid).
      * intros Hg. simpl. rewrite ?decide_False by done.
        rewrite app_nil_r. by apply Hh.
    + intros k r'. unfold orders_of_restaurant. simpl.
      rewrite Happ, filter_field_append, length_app.
      rewrite dict_get_set. case_decide as Hk.
      * intros [= <-]. subst k. simpl. rewrite ?decide_True by done. simpl.
        rewrite (Ht _ _ Hrid). unfold orders_of_restaurant. lia.
      * intros Hg. simpl. rewrite ?decide_False by done. simpl.
        rewrite (Ht _ _ Hg). unfold orders_of_restaurant. lia.
  - (* assign_delivery_agent *)
    eapply (ledger_order_update s _ oid o); [done|done| | |done..|]; simpl;
      [done|done|].
    apply ids_sequential_update; [eauto | apply Hinv].
  - (* update_order_status *)
    eapply (ledger_order_update s _ oid o); [done|done| | |done..|]; simpl;
      [done| |apply Hinv].
    apply (ok_estimate _ _ _ (led_order_ok _ Hinv _ _ Hoid)).
  - (* update_order_status, delivered *)
    eapply (ledger_order_update s _ oid o); [done|done| | |done..|]; simpl;
      [done| |].
    + apply (ok_estimate _ _ _ (led_order_ok _ Hinv _ _ Hoid)).
    + apply ids_sequential_update; [eauto | apply Hinv].
Qed.

Lemma reachable_ledger_invariant s : reachable s -> ledger_invariant s.
Proof.
  revert s. apply reachable_ind_mutation.
  - split; try done.
  - intros s s' _. apply ledger_invariant_mutation.
Qed.

End Ledger.

(** ** What the tables of a reachable state record *)

Section Records.
Context {num : Type} `{NumOps : PyNum num} `{StrOps : PyStr}.
Implicit Types (s : Data num) (o : Order num) (a : Agent) (c : Call num).

(** X1. In every state reachable from the empty system the keys of the
    four tables are [rest_1 .. rest_n], [cust_1 .. cust_n],
    [order_1 .. order_n] and [agent_1 .. agent_n], in insertion order; so
    no id is used twice. *)
Theorem reachable_ids_sequential s :
  reachable s ->
  Dict.keys (restaurants s)
    = (fun i => "rest_" +:+ pretty i) <$> seq 1 (length (restaurants s)) /\
  Dict.keys (customers s)
    = (fun i => "cust_" +:+ pretty i) <$> seq 1 (length (customers s)) /\
  Dict.keys (orders s)
    = (fun i => "order_" +:+ pretty i) <$> seq 1 (length (orders s)) /\
  Dict.keys (delivery_agents s)
    = (fun i => "agent_" +:+ pretty i) <$> seq 1 (length (delivery_agents s)) /\
  NoDup (Dict.keys (restaurants s)) /\ NoDup (Dict.keys (customers s)) /\
  NoDup (Dict.keys (orders s)) /\ NoDup (Dict.keys (delivery_agents s)).
Proof.
  intros [Hr Hc Ho Ha _ _ _]%reachable_ledger_invariant.
  split_and!; try done; by eapply ids_sequential_NoDup.
Qed.

(** X2. In every reachable state a customer's [order_history] is the list
    of the ids of the orders in the order table that were placed for that
    customer, oldest first. *)
Theorem order_history_lists_customer_orders s customer_id cu :
  reachable s ->
  Dict.get customer_id (customers s) = Some cu ->
  c_order_history cu = orders_of_customer customer_id s.
Proof.
  intros Hinv%reachable_ledger_invariant Hget. by apply (led_history _ Hinv).
Qed.

(** X3. In every reachable state a restaurant's [total_orders] is the
    number of orders in the order table that were placed with it. *)
Theorem total_orders_counts_restaurant_orders s restaurant_id r :
  reachable s ->
  Dict.get restaurant_id (restaurants s) = Some r ->
  r_total_orders r = Z.of_nat (length (orders_of_restaurant restaurant_id s)).
Proof.
  intros Hinv%reachable_ledger_invariant Hget.
  by apply (led_total_orders _ Hinv).
Qed.

(** X4. In every reachable state a stored order carries the id it is
    stored under, names a registered customer and a registered restaurant,
    has at least one line item, has as [total_price] the rounded sum of its
    own lines plus the fee, and has an estimated delivery exactly when it
    has a delivery agent. *)
Theorem stored_order_well_formed s order_id o :
  reachable s ->
  Dict.get order_id (orders s) = Some o ->
  o_order_id o = order_id /\
  is_Some (Dict.get (o_customer_id o) (customers s)) /\
  is_Some (Dict.get (o_restaurant_id o) (restaurants s)) /\
  o_items o <> [] /\
  o_total_price o = round2 (nadd (py_sum (line_amount <$> o_items o)) nfee) /\
  (o_delivery_agent o = None <-> o_estimated_delivery o = None).
Proof.
  intros Hinv%reachable_ledger_invariant Hget.
  by destruct (led_order_ok _ Hinv _ _ Hget).
Qed.

Lemma mutation_keeps_snapshot s s' order_id o :
  ledger_invariant s -> mutation s s' ->
  Dict.get order_id (orders s) = Some o ->
  exists o', Dict.get order_id (orders s') = Some o' /\ snapshot o' = snapshot o.
Proof.
  intros Hinv Hmut Hget.
  destruct Hmut as [name cuisine location menu ->
                   |rid r item_name price description category Hrid ->
                   |name email phone address ->
                   |name phone vehicle ->
                   |now cid rid addr cu r items Hcid Hrid Hlines ->
                   |oid o0 aid agent a now minutes Hoid _ _ Haid _ ->
                   |oid o0 st Hoid ->
                   |oid o0 aid a Hoid _ Haid ->]; simpl; eauto.
  - exists o. split; [|done]. rewrite dict_get_set_ne; [done|].
    intros <-. rewrite (dict_get_fresh _ _ (led_orders _ Hinv)) in Hget. done.
  - rewrite dict_get_set. case_decide; [|by eauto]. subst oid.
    rewrite Hoid in Hget. injection Hget as <-. by eexists.
  - rewrite dict_get_set. case_decide; [|by eauto]. subst oid.
    rewrite Hoid in Hget. injection Hget as <-. by eexists.
  - rewrite dict_get_set. case_decide; [|by eauto]. subst oid.
    rewrite Hoid in Hget. injection Hget as <-. by eexists.
Qed.

(** X5. In a reachable state no call, whatever its arguments, removes a
    stored order or changes what was captured when it was placed: its id,
    customer, restaurant, line items (names, prices, quantities), total
    price, order time and delivery address. *)
Theorem order_snapshot_is_kept c s order_id o :
  reachable s ->
  Dict.get order_id (orders s) = Some o ->
  exists o',
    Dict.get order_id (orders (step c s)) = Some o' /\
    snapshot o' = snapshot o.
Proof.
  intros Hreach Hget. rewrite <- exec_final.
  destruct (exec_cases c s)
    as [(_ & -> & _)|[(_ & Hmut & _)|[Hraised|(_ & _ & -> & _)]]].
  - eauto.
  - eapply mutation_keeps_snapshot; [|done..].
    by apply reachable_ledger_invariant.
  - by destruct (reachable_not_raised c s (exec c s) Hreach).
  - eauto.
Qed.

Lemma mutation_grows s s' :
  mutation s s' ->
  forall k,
    (is_Some (Dict.get k (restaurants s)) ->
     is_Some (Dict.get k (restaurants s'))) /\
    (is_Some (Dict.get k (customers s)) ->
     is_Some (Dict.get k (customers s'))) /\
    (is_Some (Dict.get k (orders s)) -> is_Some (Dict.get k (orders s'))) /\
    (is_Some (Dict.get k (delivery_agents s)) ->
     is_Some (Dict.get k (delivery_agents s'))).
Proof.
  intros Hmut k.
  destruct Hmut as [name cuisine location menu ->
                   |rid r item_name price description category Hrid ->
                   |name email phone address ->
                   |name phone vehicle ->
                   |now cid rid addr cu r items Hcid Hrid Hlines ->
                   |oid o0 aid agent a now minutes Hoid _ _ Haid _ ->
                   |oid o0 st Hoid ->
                   |oid o0 aid a Hoid _ Haid ->]; simpl;
    split_and!; try done; apply dict_get_set_is_Some.
Qed.

(** X6. No call ever deletes an entry: in any state and for any call,
    every key of each of the four tables is still a key of that table
    after the call, also when the call raised. *)
Theorem tables_only_grow c s k :
  (k ∈ Dict.keys (restaurants s) -> k ∈ Dict.keys (restaurants (step c s))) /\
  (k ∈ Dict.keys (customers s) -> k ∈ Dict.keys (customers (step c s))) /\
  (k ∈ Dict.keys (orders s) -> k ∈ Dict.keys (orders (step c s))) /\
  (k ∈ Dict.keys (delivery_agents s) ->
   k ∈ Dict.keys (delivery_agents (step c s))).
Proof.
  rewrite <- !dict_get_is_Some_keys, <- exec_final.
  destruct (exec_cases c s)
    as [(_ & -> & _)|[(_ & Hmut & _)|[Hraised|(_ & _ & -> & _)]]].
  - done.
  - by apply mutation_grows.
  - destruct Hraised as (oid & o & aid & _ & _ & _ & _ & ->). simpl.
    split_and!; try done. apply dict_get_set_is_Some.
  - done.
Qed.

Lemma saves_logs (evs : list (Event num)) : Forall is_log evs -> saves evs = [].
Proof.
  induction 1 as [|[lvl msg|d] evs Hl _ IH]; [done|by simpl|by destruct Hl].
Qed.

Lemma saves_commit (evs : list (Event num)) d lvl msg :
  Forall is_log evs -> saves (evs ++ [Saved d; Log lvl msg]) = [d].
Proof.
  intros Hl. unfold saves in *. rewrite omap_app.
  fold (saves evs). by rewrite saves_logs.
Qed.

(** X7. From a reachable state a call, whatever its arguments, raises
    neither [KeyError] nor [IndexError]: either it returns, or it is a
    [place_order] whose pricing raised [OverflowError], and that call left
    the state as it was and wrote nothing to the data file. *)
Theorem reachable_call_raises_only_overflow c s :
  reachable s ->
  result (exec c s) = inr tt \/
  ((exists now customer_id restaurant_id items delivery_address,
      c = PlaceOrder now customer_id restaurant_id items delivery_address) /\
   result (exec c s) = inl OverflowError /\
   final (exec c s) = s /\ saves (events (exec c s)) = []).
Proof.
  intros Hreach.
  destruct (exec_cases c s)
    as [(Hq & _)|[(Hc & _)|[Hraised|(Hcall & Hres & Hs & Hl)]]].
  - by left.
  - by left.
  - destruct Hraised as (oid & o & aid & _ & Ho & [Hag _]%truthy_Some & Hnone & _).
    destruct (inv_assigned _ (reachable_lifecycle_invariant s Hreach)
                _ _ _ Ho Hag) as [_ [a Ha]].
    congruence.
  - right. split_and!; [done..|]. by apply saves_logs.
Qed.

Lemma exec_saves_if_reachable c s :
  reachable s ->
  (final (exec c s) = s /\ saves (events (exec c s)) = []) \/
  saves (events (exec c s)) = [final (exec c s)].
Proof.
  intros Hreach.
  destruct (exec_cases c s)
    as [(_ & Hs & Hl)|[(_ & _ & evs & Hl & Hev)|[Hraised|(_ & _ & Hs & Hl)]]].
  - left. split; [done | by apply saves_logs].
  - right. rewrite Hev. by apply saves_commit.
  - by destruct (reachable_not_raised c s (exec c s) Hreach).
  - left. split; [done | by apply saves_logs].
Qed.

(** X8. A call that returns either leaves the state as it was and writes
    nothing to the data file, or writes the file exactly once, with the
    state it leaves; this holds in any state. *)
Theorem call_saves_what_it_leaves c s :
  result (exec c s) = inr tt ->
  (final (exec c s) = s /\ saves (events (exec c s)) = []) \/
  saves (events (exec c s)) = [final (exec c s)].
Proof.
  intros Hres.
  destruct (exec_cases c s)
    as [(_ & Hs & Hl)|[(_ & _ & evs & Hl & Hev)|[Hraised|(_ & Hov & _)]]].
  - left. split; [exact Hs | by apply saves_logs].
  - right. rewrite Hev. by apply saves_commit.
  - destruct Hraised as (oid & o & aid & _ & _ & _ & _ & Hout).
    by rewrite Hout in Hres.
  - by rewrite Hov in Hres.
Qed.

Lemma file_after_saves file (evs : list (Event num)) :
  file_after file evs = from_option written file (last (saves evs)).
Proof.
  unfold file_after, saves.
  induction evs as [|e evs IH] using rev_ind; [done|].
  rewrite fold_left_app, omap_app. simpl. destruct e as [lvl msg|d]; simpl.
  - by rewrite app_nil_r.
  - by rewrite last_snoc.
Qed.

Lemma init_written (d : Data num) : final (init (written d)) = d.
Proof. by destruct d. Qed.

Lemma session_in_step cs s file :
  reachable s -> final (init file) = s ->
  final (init (session cs s file).2) = (session cs s file).1.
Proof.
  revert s file. induction cs as [|c cs IH]; intros s file Hreach Hsync; [done|].
  simpl. apply IH.
  - rewrite exec_final. by constructor.
  - rewrite file_after_saves.
    destruct (exec_saves_if_reachable c s Hreach) as [[-> ->]| ->]; [done|].
    simpl. apply init_written.
Qed.

(** X9. Restarting restores the state: after any sequence of calls on a
    system started without a data file, a new system constructed from the
    data file as the calls left it has exactly the state of the running
    one. *)
Theorem restart_restores_state (cs : list (Call num)) :
  final (init (session cs empty_data NoFile).2)
    = (session cs empty_data NoFile).1.
Proof. apply session_in_step; [constructor | done]. Qed.

End Records.

(** ** The report's status breakdown and the status query *)

Section StatusQueries.
Context {num : Type} `{NumOps : PyNum num} `{StrOps : PyStr}.
Implicit Types (s : Data num) (o : Order num) (os : list (Order num)).
Implicit Types (counts : dict Z).

Lemma count_status_get counts o st :
  Dict.get st (count_status counts o)
  = if decide (o_status o = st)
    then Some (default 0 (Dict.get st counts) + 1)%Z
    else Dict.get st counts.
Proof.
  unfold count_status. rewrite dict_get_set.
  destruct (decide (o_status o = st)) as [->|]; done.
Qed.

Lemma fold_count_status_get os counts st :
  Dict.get st (fold_left count_status os counts)
  = if decide (status_count st os = 0%nat)
    then Dict.get st counts
    else Some (default 0 (Dict.get st counts)
               + Z.of_nat (status_count st os))%Z.
Proof.
  unfold status_count. revert counts.
  induction os as [|o os IH]; intros counts; [done|].
  simpl. rewrite IH, count_status_get, filter_cons.
  destruct (decide (o_status o = st)) as [Heq|Hne]; simpl.
  - destruct (decide (length (filter (fun o => o_status o = st) os) = 0%nat))
      as [->|_]; simpl; f_equal; lia.
  - destruct (decide (length (filter (fun o => o_status o = st) os) = 0%nat));
      done.
Qed.

Lemma fold_count_status_NoDup os counts :
  NoDup (Dict.keys counts) ->
  NoDup (Dict.keys (fold_left count_status os counts)).
Proof.
  revert counts. induction os as [|o os IH]; intros counts Hnd; [done|].
  simpl. apply IH. by apply dict_set_NoDup.
Qed.

(** X10. The [order_status_breakdown] of the report lists each status
    string that occurs among the orders once, with the number of orders in
    that status; a status that no order has is not listed. *)
Theorem status_breakdown_counts now s :
  exists rep,
    result (generate_report now s) = inr rep /\
    NoDup (Dict.keys (rep_order_status_breakdown rep)) /\
    forall st,
      Dict.get st (rep_order_status_breakdown rep)
      = if decide (status_count st (Dict.values (orders s)) = 0%nat)
        then None
        else Some (Z.of_nat (status_count st (Dict.values (orders s)))).
Proof.
  eexists. split; [reflexivity|]. simpl. split.
  - apply fold_count_status_NoDup. constructor.
  - intros st. rewrite fold_count_status_get. simpl.
    case_decide; try done; f_equal; lia.
Qed.

(** X11. An order id returned by [place_order] can be queried at once:
    [get_order_status] reports status ["placed"], the order time, no
    estimated delivery, and the total price of the accepted lines. *)
Theorem get_order_status_after_place_order
    now customer_id restaurant_id items addr s r order_id :
  Dict.get restaurant_id (restaurants s) = Some r ->
  let out := place_order now customer_id restaurant_id items addr s in
  result out = inr (Some order_id) ->
  get_order_status order_id (final out) =
    mkOutcome
      (inr (Some (mkStatusInfo order_id "placed" now None
                    (round2 (nadd (py_sum (line_amount <$>
                        accepted_lines (r_menu r) items)) nfee)))))
      (final out) [].
Proof.
  intros Hr out Hres. subst out.
  destruct (Dict.get customer_id (customers s)) as [cu|] eqn:Hc.
  2:{ exfalso. revert Hres. unfold place_order. unfold_op. simpl.
      by rewrite Hc. }
  destruct (place_order_run now customer_id restaurant_id items addr s cu r Hc Hr)
    as (evs & _ & Hrun).
  rewrite Hrun in Hres |- *. clear Hrun.
  destruct (accepted_lines (r_menu r) items) as [|li lines] eqn:E; [done|].
  cbv zeta in Hres |- *. destruct (lines_overflow (li :: lines)); [done|].
  simpl in Hres. injection Hres as <-. simpl.
  unfold get_order_status. unfold_op. simpl. by rewrite dict_get_set_eq.
Qed.

(** X12. After [update_order_status] on a known order, in any state and
    also when the call raised, [get_order_status] reports the new status
    together with the order time, estimated delivery and total price the
    order had before. *)
Theorem get_order_status_after_update order_id status s o :
  Dict.get order_id (orders s) = Some o ->
  let s' := final (update_order_status order_id status s) in
  get_order_status order_id s' =
    mkOutcome
      (inr (Some (mkStatusInfo order_id status (o_order_time o)
                    (o_estimated_delivery o) (o_total_price o))))
      s' [].
Proof.
  intros Ho s'. subst s'. rewrite (update_order_status_run _ _ _ _ Ho).
  unfold get_order_status. unfold_op.
  destruct (String.eqb status "delivered");
    [destruct (truthy (o_delivery_agent o)) as [agent_id|];
       [destruct (Dict.get agent_id (delivery_agents s)) as [a|]|]|];
    simpl; by rewrite dict_get_set_eq.
Qed.

(** X13. After a successful [assign_delivery_agent], [get_order_status]
    reports status ["assigned"] and an estimated delivery 15 to 45 minutes
    after the clock reading, with the order time and total price
    unchanged. *)
Theorem get_order_status_after_assign now r_agent r_minutes order_id s o :
  Dict.get order_id (orders s) = Some o ->
  has_available_agent s ->
  let s' := final (assign_delivery_agent now r_agent r_minutes order_id s) in
  exists minutes,
    (15 <= minutes <= 45)%Z /\
    get_order_status order_id s' =
      mkOutcome
        (inr (Some (mkStatusInfo order_id "assigned" (o_order_time o)
                      (Some (now + timedelta_minutes minutes)%Z)
                      (o_total_price o))))
        s' [].
Proof.
  intros Ho Hav%has_available_agent_filter s'. subst s'.
  destruct (assign_delivery_agent_run now r_agent r_minutes order_id s o Ho Hav)
    as (agent & agent_id & a & _ & _ & _ & _ & ->).
  exists (random_randint r_minutes 15 45). split; [apply random_randint_range|].
  unfold get_order_status. unfold_op. simpl. by rewrite dict_get_set_eq.
Qed.

(** X14. A call that names an unknown restaurant or order, or an
    assignment when no agent is available, changes nothing, saves nothing
    and does not raise: it logs one record and returns. *)
Theorem unknown_ids_are_logged_noops s :
  (forall restaurant_id item_name price description category,
     Dict.get restaurant_id (restaurants s) = None ->
     add_menu_item restaurant_id item_name price description category s
     = mkOutcome (inr tt) s
         [Log ERROR ("Restaurant " +:+ restaurant_id +:+ " not found.")]) /\
  (forall order_id status,
     Dict.get order_id (orders s) = None ->
     update_order_status order_id status s
     = mkOutcome (inr tt) s
         [Log ERROR ("Order " +:+ order_id +:+ " not found.")]) /\
  (forall now r_agent r_minutes order_id,
     Dict.get order_id (orders s) = None ->
     assign_delivery_agent now r_agent r_minutes order_id s
     = mkOutcome (inr tt) s
         [Log ERROR ("Order " +:+ order_id +:+ " not found.")]) /\
  (forall now r_agent r_minutes order_id,
     is_Some (Dict.get order_id (orders s)) ->
     ~ has_available_agent s ->
     assign_delivery_agent now r_agent r_minutes order_id s
     = mkOutcome (inr tt) s [Log WARNING "No available delivery agents."]) /\
  (forall order_id,
     Dict.get order_id (orders s) = None ->
     get_order_status order_id s = mkOutcome (inr None) s []).
Proof.
  split_and!.
  - intros rid n p d c Hr. unfold add_menu_item. unfold_op. simpl. by rewrite Hr.
  - intros oid st Ho. by apply update_order_status_unknown.
  - intros now r1 r2 oid Ho. unfold assign_delivery_agent. unfold_op. simpl.
    by rewrite Ho.
  - intros now r1 r2 oid [o Ho] Hno. unfold assign_delivery_agent. unfold_op.
    simpl. rewrite Ho. rewrite has_available_agent_filter in Hno.
    destruct (filter _ _) as [|a l]; [done | by destruct Hno].
  - intros oid Ho. unfold get_order_status. unfold_op. simpl. by rewrite Ho.
Qed.

End StatusQueries.

(** ** Registrations, menus and bookkeeping *)

Section Registries.
Context {num : Type} `{NumOps : PyNum num} `{StrOps : PyStr}.
Implicit Types (s : Data num) (o : Order num) (a : Agent) (c : Call num).
Implicit Types (r : Restaurant num).

(** X15. From a reachable state, [assign_delivery_agent] never touches an
    agent whose status is not ["available"]: a busy agent keeps its record
    and its current order, whatever the draw. *)
Theorem assign_leaves_unavailable_agents
    now r_agent r_minutes order_id s agent_id a :
  reachable s ->
  Dict.get agent_id (delivery_agents s) = Some a ->
  a_status a <> "available" ->
  Dict.get agent_id
    (delivery_agents
       (final (assign_delivery_agent now r_agent r_minutes order_id s)))
  = Some a.
Proof.
  intros Hreach Hget Hbusy.
  destruct (Dict.get order_id (orders s)) as [o|] eqn:Ho.
  2:{ destruct (assign_delivery_agent_idle now r_agent r_minutes order_id s)
        as [-> _]; [by left | done]. }
  destruct (decide (filter (fun a => a_status a = "available")
                      (Dict.values (delivery_agents s)) = [])) as [Hnil|Hne].
  { destruct (assign_delivery_agent_idle now r_agent r_minutes order_id s)
      as [-> _]; [|done].
    right. rewrite has_available_agent_filter. by intros []. }
  destruct (assign_delivery_agent_run now r_agent r_minutes order_id s o Ho Hne)
    as (agent & k & a0 & Hdraw & _ & Hmem & Ha0 & ->).
  simpl. rewrite dict_get_set. case_decide as Hk; [|done]. subst k.
  apply list_elem_of_lookup_2 in Hdraw.
  apply list_elem_of_filter in Hdraw as [Hav _].
  rewrite (dict_elem_get_NoDup _ _ _ (reachable_agent_ids_NoDup s Hreach) Hmem)
    in Hget.
  by injection Hget as <-.
Qed.

(** X16. On a known restaurant whose menu ids are [item_1 .. item_n],
    [add_menu_item] appends the new item under [item_(n+1)], marked
    available; every item the menu had is still there, and the restaurant's
    other fields, the customers, the orders and the agents are unchanged. *)
Theorem add_menu_item_appends
    restaurant_id item_name price description category s r :
  Dict.get restaurant_id (restaurants s) = Some r ->
  ids_sequential "item_" (r_menu r) ->
  let out :=
    add_menu_item restaurant_id item_name price description category s in
  let menu' :=
    r_menu r ++ [("item_" +:+ pretty (length (r_menu r) + 1)%nat,
                  mkMenuItem item_name price description category true)] in
  result out = inr tt /\
  Dict.get restaurant_id (restaurants (final out)) = Some (with_menu menu' r) /\
  ids_sequential "item_" menu' /\
  (forall item_id item,
     Dict.get item_id (r_menu r) = Some item ->
     Dict.get item_id menu' = Some item) /\
  customers (final out) = customers s /\
  orders (final out) = orders s /\
  delivery_agents (final out) = delivery_agents s.
Proof.
  intros Hr Hseq out menu'. subst out menu'.
  unfold add_menu_item. unfold_op. simpl. rewrite Hr. simpl.
  rewrite dict_get_set_eq.
  rewrite <- (dict_set_fresh _
    (mkMenuItem item_name price description category true) (r_menu r))
    by by apply ids_sequential_fresh.
  split_and!; try done.
  - by apply ids_sequential_next.
  - intros item_id item Hget. rewrite dict_get_set_ne; [done|].
    intros <-. by rewrite dict_get_fresh in Hget.
Qed.

(** X17. The id of a new item is made from the number of items, so on a
    menu that already has an item under that id (a menu passed to
    [add_restaurant] with other keys) [add_menu_item] replaces that item:
    the menu keeps its length and the old item is gone. *)
Theorem add_menu_item_replaces_on_collision
    restaurant_id item_name price description category s r old :
  Dict.get restaurant_id (restaurants s) = Some r ->
  Dict.get ("item_" +:+ pretty (length (r_menu r) + 1)%nat) (r_menu r)
    = Some old ->
  let out :=
    add_menu_item restaurant_id item_name price description category s in
  exists r',
    Dict.get restaurant_id (restaurants (final out)) = Some r' /\
    length (r_menu r') = length (r_menu r) /\
    Dict.keys (r_menu r') = Dict.keys (r_menu r) /\
    Dict.get ("item_" +:+ pretty (length (r_menu r) + 1)%nat) (r_menu r')
      = Some (mkMenuItem item_name price description category true).
Proof.
  intros Hr Hold out. subst out.
  unfold add_menu_item. unfold_op. simpl. rewrite Hr. simpl.
  rewrite dict_get_set_eq. eexists. split; [reflexivity|]. simpl.
  split_and!.
  - apply dict_length_set_present. eauto.
  - apply dict_keys_set_present, dict_get_is_Some_keys. eauto.
  - apply dict_get_set_eq.
Qed.

(** X18. From a reachable state [register_customer] returns an id that no
    customer had, and appends the new customer, with an empty order
    history, to the customer table; nothing else changes. *)
Theorem register_customer_appends name email phone address s :
  reachable s ->
  let out := register_customer name email phone address s in
  let customer_id := "cust_" +:+ pretty (length (customers s) + 1)%nat in
  result out = inr customer_id /\
  Dict.get customer_id (customers s) = None /\
  customers (final out)
    = customers s ++ [(customer_id, mkCustomer name email phone address [])] /\
  restaurants (final out) = restaurants s /\
  orders (final out) = orders s /\
  delivery_agents (final out) = delivery_agents s.
Proof.
  intros Hinv%reachable_ledger_invariant out customer_id.
  subst out customer_id. simpl. split_and!; try done.
  - apply dict_get_fresh, Hinv.
  - apply dict_set_fresh, ids_sequential_fresh, Hinv.
Qed.

(** X19. From a reachable state [add_restaurant] appends the restaurant
    under an id that no restaurant had, with the given menu (an absent or
    empty menu gives an empty one), rating 0 and no orders; nothing else
    changes. *)
Theorem add_restaurant_appends name cuisine location menu s :
  reachable s ->
  let out := add_restaurant name cuisine location menu s in
  let restaurant_id := "rest_" +:+ pretty (length (restaurants s) + 1)%nat in
  result out = inr tt /\
  Dict.get restaurant_id (restaurants s) = None /\
  restaurants (final out)
    = restaurants s ++
      [(restaurant_id,
        mkRestaurant name cuisine location (default [] menu) nzero 0%Z)] /\
  customers (final out) = customers s /\
  orders (final out) = orders s /\
  delivery_agents (final out) = delivery_agents s.
Proof.
  intros Hinv%reachable_ledger_invariant out restaurant_id.
  subst out restaurant_id. simpl. split_and!; try done.
  - apply dict_get_fresh, Hinv.
  - rewrite dict_set_fresh by apply ids_sequential_fresh, Hinv.
    by destruct menu as [[|]|].
Qed.

(** X20. From a reachable state [add_delivery_agent] appends the agent
    under an id that no agent had, available, with no current order and no
    deliveries; the agents already registered and the other tables are
    unchanged. *)
Theorem add_delivery_agent_appends name phone vehicle_type s :
  reachable s ->
  let out := add_delivery_agent name phone vehicle_type s in
  let agent_id := "agent_" +:+ pretty (length (delivery_agents s) + 1)%nat in
  result out = inr tt /\
  Dict.get agent_id (delivery_agents s) = None /\
  delivery_agents (final out)
    = delivery_agents s ++
      [(agent_id, mkAgent name phone vehicle_type "available" None 0%Z)] /\
  restaurants (final out) = restaurants s /\
  customers (final out) = customers s /\
  orders (final out) = orders s.
Proof.
  intros Hinv%reachable_ledger_invariant out agent_id.
  subst out agent_id. simpl. split_and!; try done.
  - apply dict_get_fresh, Hinv.
  - apply dict_set_fresh, ids_sequential_fresh, Hinv.
Qed.

(** X21. A [place_order] that returns an order id has stored the order
    under that id, appended the id to the history of the ordering customer
    and added one to the restaurant's [total_orders]; it leaves their other
    fields, the other customers and restaurants and all agents as they
    were. The order is delivered to the address passed, or to the
    customer's address when none or an empty one is passed. *)
Theorem place_order_bookkeeping
    now customer_id restaurant_id items addr s cu r order_id :
  Dict.get customer_id (customers s) = Some cu ->
  Dict.get restaurant_id (restaurants s) = Some r ->
  let out := place_order now customer_id restaurant_id items addr s in
  result out = inr (Some order_id) ->
  exists o,
    Dict.get order_id (orders (final out)) = Some o /\
    (o_status o, o_order_time o, o_delivery_agent o, o_estimated_delivery o)
      = ("placed", now, None, None) /\
    o_delivery_address o
      = match addr with
        | Some a => if decide (a = "") then c_address cu else a
        | None => c_address cu
        end /\
    Dict.get customer_id (customers (final out))
      = Some (with_order_history (c_order_history cu ++ [order_id]) cu) /\
    Dict.get restaurant_id (restaurants (final out))
      = Some (with_total_orders (r_total_orders r + 1)%Z r) /\
    (forall k, k <> customer_id ->
       Dict.get k (customers (final out)) = Dict.get k (customers s)) /\
    (forall k, k <> restaurant_id ->
       Dict.get k (restaurants (final out)) = Dict.get k (restaurants s)) /\
    delivery_agents (final out) = delivery_agents s.
Proof.
  intros Hc Hr out Hres.
  destruct (place_order_run now customer_id restaurant_id items addr s cu r Hc Hr)
    as (evs & _ & Hrun).
  subst out. rewrite Hrun in Hres |- *. clear Hrun.
  destruct (accepted_lines (r_menu r) items) as [|li lines] eqn:E; [done|].
  cbv zeta in Hres |- *. destruct (lines_overflow (li :: lines)); [done|].
  simpl in Hres. injection Hres as <-.
  eexists. simpl. rewrite !dict_get_set_eq.
  split_and!; try reflexivity.
  - unfold py_or, truthy. destruct addr as [a|]; [|done].
    by destruct (String.eqb_spec a ""), (decide (a = "")).
  - intros k Hk. by rewrite dict_get_set_ne.
  - intros k Hk. by rewrite dict_get_set_ne.
Qed.

Lemma mutation_keeps_agent s s' agent_id a :
  ledger_invariant s -> mutation s s' ->
  Dict.get agent_id (delivery_agents s) = Some a ->
  exists a',
    Dict.get agent_id (delivery_agents s') = Some a' /\
    (a_name a', a_phone a', a_vehicle_type a')
      = (a_name a, a_phone a, a_vehicle_type a) /\
    (a_total_deliveries a <= a_total_deliveries a')%Z.
Proof.
  intros Hinv Hmut Hget.
  destruct Hmut as [name cuisine location menu ->
                   |rid r item_name price description category Hrid ->
                   |name email phone address ->
                   |name phone vehicle ->
                   |now cid rid addr cu r items Hcid Hrid Hlines ->
                   |oid o0 aid agent a0 now minutes Hoid _ _ Haid _ ->
                   |oid o0 st Hoid ->
                   |oid o0 aid a0 Hoid _ Haid ->]; simpl;
    try (exists a; split_and!; [done|done|lia]).
  - exists a. split_and!; [|done|lia]. rewrite dict_get_set_ne; [done|].
    intros <-. by rewrite (dict_get_fresh _ _ (led_agents _ Hinv)) in Hget.
  - rewrite dict_get_set. case_decide as Hk.
    + subst aid. rewrite Haid in Hget. injection Hget as <-.
      eexists. split_and!; [done|done|simpl; lia].
    + exists a. split_and!; [done|done|lia].
  - rewrite dict_get_set. case_decide as Hk.
    + subst aid. rewrite Haid in Hget. injection Hget as <-.
      eexists. split_and!; [done|done|simpl; lia].
    + exists a. split_and!; [done|done|lia].
Qed.

(** X22. From a reachable state no call removes an agent, changes its
    name, phone or vehicle, or lowers its [total_deliveries]. *)
Theorem agent_record_is_kept c s agent_id a :
  reachable s ->
  Dict.get agent_id (delivery_agents s) = Some a ->
  exists a',
    Dict.get agent_id (delivery_agents (step c s)) = Some a' /\
    (a_name a', a_phone a', a_vehicle_type a')
      = (a_name a, a_phone a, a_vehicle_type a) /\
    (a_total_deliveries a <= a_total_deliveries a')%Z.
Proof.
  intros Hreach Hget. rewrite <- exec_final.
  destruct (exec_cases c s)
    as [(_ & -> & _)|[(_ & Hmut & _)|[Hraised|(_ & _ & -> & _)]]].
  - exists a. split_and!; [done|done|lia].
  - eapply mutation_keeps_agent; [|done..].
    by apply reachable_ledger_invariant.
  - by destruct (reachable_not_raised c s (exec c s) Hreach).
  - exists a. split_and!; [done|done|lia].
Qed.

(** X23. No method updates a rating: in every reachable state every
    restaurant still has the rating 0 it was created with. *)
Theorem rating_is_never_updated s restaurant_id r :
  reachable s ->
  Dict.get restaurant_id (restaurants s) = Some r ->
  r_rating r = nzero.
Proof.
  intros Hreach. revert restaurant_id r. revert s Hreach.
  apply (reachable_ind_mutation
           (fun s => forall rid r, Dict.get rid (restaurants s) = Some r ->
                                   r_rating r = nzero)); [done|].
  intros s s' _ IH Hmut rid r.
  destruct Hmut as [name cuisine location menu ->
                   |rid0 r0 item_name price description category Hrid ->
                   |name email phone address ->
                   |name phone vehicle ->
                   |now cid rid0 addr cu r0 items Hcid Hrid Hlines ->
                   |oid o0 aid agent a0 now minutes Hoid _ _ Haid _ ->
                   |oid o0 st Hoid ->
                   |oid o0 aid a0 Hoid _ Haid ->]; simpl;
    try apply IH;
    rewrite dict_get_set; (case_decide; [|by apply IH]); intros [= <-]; simpl;
    eauto.
Qed.

End Registries.

(** ** The further statements at concrete runs *)

Section MoreRuns.
#[local] Existing Instance AsciiText.

Lemma reachable_ids_sequential_witness :
  reachable demo_assigned /\
  Dict.keys (orders demo_assigned) = ["order_1"] /\
  NoDup (Dict.keys (delivery_agents demo_assigned)).
Proof.
  destruct (reachable_ids_sequential demo_assigned demo_assigned_reachable)
    as (_ & _ & Ho & _ & _ & _ & _ & Ha).
  split; [exact demo_assigned_reachable|]. split; [exact Ho | exact Ha].
Defined.

Lemma order_history_lists_customer_orders_witness :
  reachable demo_placed /\
  Dict.get "cust_1" (customers demo_placed) = Some demo_customer_placed /\
  c_order_history demo_customer_placed = orders_of_customer "cust_1" demo_placed.
Proof.
  assert (Hc : Dict.get "cust_1" (customers demo_placed)
               = Some demo_customer_placed) by (vm_compute; reflexivity).
  split; [exact demo_placed_reachable|]. split; [exact Hc|].
  exact (order_history_lists_customer_orders demo_placed "cust_1"
           demo_customer_placed demo_placed_reachable Hc).
Defined.

Lemma total_orders_counts_restaurant_orders_witness :
  reachable demo_placed /\
  Dict.get "rest_1" (restaurants demo_placed) = Some demo_restaurant_placed /\
  r_total_orders demo_restaurant_placed
    = Z.of_nat (length (orders_of_restaurant "rest_1" demo_placed)).
Proof.
  assert (Hr : Dict.get "rest_1" (restaurants demo_placed)
               = Some demo_restaurant_placed) by (vm_compute; reflexivity).
  split; [exact demo_placed_reachable|]. split; [exact Hr|].
  exact (total_orders_counts_restaurant_orders demo_placed "rest_1"
           demo_restaurant_placed demo_placed_reachable Hr).
Defined.

Lemma stored_order_well_formed_witness :
  reachable demo_assigned /\
  Dict.get "order_1" (orders demo_assigned) = Some demo_order_assigned /\
  o_order_id demo_order_assigned = "order_1" /\
  o_total_price demo_order_assigned
    = round2 (nadd (py_sum (line_amount <$> o_items demo_order_assigned)) nfee).
Proof.
  assert (Ho : Dict.get "order_1" (orders demo_assigned)
               = Some demo_order_assigned) by (vm_compute; reflexivity).
  destruct (stored_order_well_formed demo_assigned "order_1"
              demo_order_assigned demo_assigned_reachable Ho)
    as (Hid & _ & _ & _ & Htot & _).
  split; [exact demo_assigned_reachable|]. split; [exact Ho|].
  split; [exact Hid | exact Htot].
Defined.

Lemma order_snapshot_is_kept_witness :
  reachable demo_assigned /\
  Dict.get "order_1" (orders demo_assigned) = Some demo_order_assigned /\
  exists o',
    Dict.get "order_1"
      (orders (step (UpdateOrderStatus "order_1" "lost in space")
                 demo_assigned)) = Some o' /\
    snapshot o' = snapshot demo_order_assigned.
Proof.
  assert (Ho : Dict.get "order_1" (orders demo_assigned)
               = Some demo_order_assigned) by (vm_compute; reflexivity).
  split; [exact demo_assigned_reachable|]. split; [exact Ho|].
  exact (order_snapshot_is_kept (UpdateOrderStatus "order_1" "lost in space")
           demo_assigned "order_1" demo_order_assigned
           demo_assigned_reachable Ho).
Defined.

Lemma reachable_call_raises_only_overflow_witness :
  reachable demo_assigned /\
  result (exec (UpdateOrderStatus "order_1" "delivered") demo_assigned) = inr tt.
Proof.
  split; [exact demo_assigned_reachable|].
  destruct (reachable_call_raises_only_overflow
              (UpdateOrderStatus "order_1" "delivered")
              demo_assigned demo_assigned_reachable)
    as [Hres|((? & ? & ? & ? & ? & Hcall) & _)].
  - exact Hres.
  - discriminate Hcall.
Defined.

Lemma call_saves_what_it_leaves_witness :
  result (exec (PlaceOrder 1000 "cust_1" "rest_1" demo_items None) demo_ready)
    = inr tt /\
  saves (events (exec (PlaceOrder 1000 "cust_1" "rest_1" demo_items None)
                   demo_ready)) = [demo_placed].
Proof.
  assert (Hres : result (exec (PlaceOrder 1000 "cust_1" "rest_1" demo_items
                                 None) demo_ready) = inr tt)
    by (vm_compute; reflexivity).
  split; [exact Hres|].
  destruct (call_saves_what_it_leaves
              (PlaceOrder 1000 "cust_1" "rest_1" demo_items None) demo_ready
              Hres) as [[_ Hnone]|Hone].
  - exfalso. vm_compute in Hnone. discriminate Hnone.
  - rewrite Hone. apply (f_equal (fun x => [x])). apply exec_final.
Defined.

Lemma demo_items_accepted :
  Dict.get "cust_1" (customers demo_ready) = Some demo_customer /\
  Dict.get "rest_1" (restaurants demo_ready) = Some demo_restaurant /\
  Exists (is_accepted (r_menu demo_restaurant)) demo_items.
Proof.
  split; [vm_compute; reflexivity|]. split; [vm_compute; reflexivity|].
  apply Exists_cons_hd. eexists. split; vm_compute; reflexivity.
Defined.

Lemma get_order_status_after_place_order_witness :
  Dict.get "rest_1" (restaurants demo_ready) = Some demo_restaurant /\
  result (place_order 1000 "cust_1" "rest_1" demo_items None demo_ready)
    = inr (Some "order_1") /\
  get_order_status "order_1"
    (final (place_order 1000 "cust_1" "rest_1" demo_items None demo_ready))
  = mkOutcome
      (inr (Some (mkStatusInfo "order_1" "placed" 1000%Z None
                    (round2 (nadd (py_sum (line_amount <$>
                        accepted_lines (r_menu demo_restaurant) demo_items))
                      nfee)))))
      (final (place_order 1000 "cust_1" "rest_1" demo_items None demo_ready))
      [].
Proof.
  destruct demo_items_accepted as (_ & Hr & _).
  assert (Hres : result (place_order 1000 "cust_1" "rest_1" demo_items None
                           demo_ready) = inr (Some "order_1"))
    by (vm_compute; reflexivity).
  split; [exact Hr|]. split; [exact Hres|].
  exact (get_order_status_after_place_order 1000 "cust_1" "rest_1" demo_items
           None demo_ready demo_restaurant "order_1" Hr Hres).
Defined.

Lemma get_order_status_after_update_witness :
  Dict.get "order_1" (orders demo_assigned) = Some demo_order_assigned /\
  result (get_order_status "order_1"
            (final (update_order_status "order_1" "out_for_delivery"
                      demo_assigned)))
  = inr (Some (mkStatusInfo "order_1" "out_for_delivery" 1000%Z
                 (Some (2000 + timedelta_minutes 22)%Z) (Qred (4396 # 100)))).
Proof.
  assert (Ho : Dict.get "order_1" (orders demo_assigned)
               = Some demo_order_assigned) by (vm_compute; reflexivity).
  split; [exact Ho|].
  exact (f_equal result
           (get_order_status_after_update "order_1" "out_for_delivery"
              demo_assigned demo_order_assigned Ho)).
Defined.

Lemma get_order_status_after_assign_witness :
  Dict.get "order_1" (orders demo_placed) = Some demo_order /\
  has_available_agent demo_placed /\
  exists minutes,
    (15 <= minutes <= 45)%Z /\
    result (get_order_status "order_1"
              (final (assign_delivery_agent 2000 0 7 "order_1" demo_placed)))
    = inr (Some (mkStatusInfo "order_1" "assigned" 1000%Z
                   (Some (2000 + timedelta_minutes minutes)%Z)
                   (Qred (4396 # 100)))).
Proof.
  assert (Ho : Dict.get "order_1" (orders demo_placed) = Some demo_order)
    by (vm_compute; reflexivity).
  split; [exact Ho|]. split; [exact demo_placed_has_available_agent|].
  destruct (get_order_status_after_assign 2000 0 7 "order_1" demo_placed
              demo_order Ho demo_placed_has_available_agent)
    as (minutes & Hrange & Heq).
  exists minutes. split; [exact Hrange | exact (f_equal result Heq)].
Defined.

Lemma unknown_ids_are_logged_noops_witness :
  Dict.get "order_9" (orders demo_ready) = None /\
  final (update_order_status "order_9" "delivered" demo_ready) = demo_ready.
Proof.
  assert (Ho : Dict.get "order_9" (orders demo_ready) = None)
    by (vm_compute; reflexivity).
  split; [exact Ho|].
  destruct (unknown_ids_are_logged_noops demo_ready) as (_ & Hupd & _).
  exact (f_equal final (Hupd "order_9" "delivered" Ho)).
Defined.

Lemma assign_leaves_unavailable_agents_witness :
  reachable reassign_state /\
  Dict.get "agent_1" (delivery_agents reassign_state)
    = Some (busy_agent "order_1" demo_agent) /\
  a_status (busy_agent "order_1" demo_agent) <> "available" /\
  Dict.get "agent_1"
    (delivery_agents
       (final (assign_delivery_agent 3000 0 0 "order_1" reassign_state)))
  = Some (busy_agent "order_1" demo_agent).
Proof.
  assert (Hr : reachable reassign_state) by apply reachable_run.
  assert (Ha : Dict.get "agent_1" (delivery_agents reassign_state)
               = Some (busy_agent "order_1" demo_agent))
    by (vm_compute; reflexivity).
  assert (Hb : a_status (busy_agent "order_1" demo_agent) <> "available")
    by discriminate.
  split; [exact Hr|]. split; [exact Ha|]. split; [exact Hb|].
  exact (assign_leaves_unavailable_agents 3000 0 0 "order_1" reassign_state
           "agent_1" (busy_agent "order_1" demo_agent) Hr Ha Hb).
Defined.

Lemma add_menu_item_appends_witness :
  Dict.get "rest_1" (restaurants demo_ready) = Some demo_restaurant /\
  ids_sequential "item_" (r_menu demo_restaurant) /\
  Dict.get "rest_1"
    (restaurants (final (add_menu_item "rest_1" "Calzone" (1150 # 100)
                           "Folded pizza" "Pizza" demo_ready)))
  = Some (with_menu
            (demo_menu ++
               [("item_3", mkMenuItem "Calzone" (1150 # 100) "Folded pizza"
                             "Pizza" true)])
            demo_restaurant).
Proof.
  assert (Hr : Dict.get "rest_1" (restaurants demo_ready) = Some demo_restaurant)
    by (vm_compute; reflexivity).
  assert (Hs : ids_sequential "item_" (r_menu demo_restaurant))
    by (vm_compute; reflexivity).
  split; [exact Hr|]. split; [exact Hs|].
  exact (proj1 (proj2 (add_menu_item_appends "rest_1" "Calzone" (1150 # 100)
                         "Folded pizza" "Pizza" demo_ready demo_restaurant
                         Hr Hs))).
Defined.

Lemma add_menu_item_replaces_on_collision_witness :
  Dict.get "rest_1" (restaurants collision_state) = Some collision_restaurant /\
  Dict.get "item_2" (r_menu collision_restaurant) = Some collision_item /\
  exists r',
    Dict.get "rest_1"
      (restaurants (final (add_menu_item "rest_1" "Soup" (450 # 100)
                             "Of the day" "Starters" collision_state)))
      = Some r' /\
    length (r_menu r') = 1%nat /\
    Dict.get "item_2" (r_menu r')
      = Some (mkMenuItem "Soup" (450 # 100) "Of the day" "Starters" true).
Proof.
  assert (Hr : Dict.get "rest_1" (restaurants collision_state)
               = Some collision_restaurant) by (vm_compute; reflexivity).
  assert (Hi : Dict.get ("item_" +:+ pretty
                           (length (r_menu collision_restaurant) + 1)%nat)
                 (r_menu collision_restaurant) = Some collision_item)
    by (vm_compute; reflexivity).
  split; [exact Hr|]. split; [vm_compute; reflexivity|].
  destruct (add_menu_item_replaces_on_collision "rest_1" "Soup" (450 # 100)
              "Of the day" "Starters" collision_state collision_restaurant
              collision_item Hr Hi) as (r' & Hget & Hlen & _ & Hnew).
  exists r'. split; [exact Hget|]. split; [exact Hlen | exact Hnew].
Defined.

Lemma register_customer_appends_witness :
  reachable demo_ready /\
  result (register_customer "Ann Ray" "ann@example.com" "555-0102" "9 Elm St"
            demo_ready) = inr "cust_2" /\
  Dict.get "cust_2" (customers demo_ready) = None.
Proof.
  destruct (register_customer_appends "Ann Ray" "ann@example.com" "555-0102"
              "9 Elm St" demo_ready demo_ready_reachable)
    as (Hres & Hnew & _).
  split; [exact demo_ready_reachable|]. split; [exact Hres | exact Hnew].
Defined.

Lemma add_restaurant_appends_witness :
  reachable demo_ready /\
  Dict.get "rest_2" (restaurants demo_ready) = None /\
  restaurants (final (add_restaurant "Taco Town" "Mexican" "Downtown" None
                        demo_ready))
  = restaurants demo_ready ++
    [("rest_2", mkRestaurant "Taco Town" "Mexican" "Downtown" [] 0%Q 0%Z)].
Proof.
  destruct (add_restaurant_appends "Taco Town" "Mexican" "Downtown" None
              demo_ready demo_ready_reachable)
    as (_ & Hnew & Happ & _).
  split; [exact demo_ready_reachable|]. split; [exact Hnew | exact Happ].
Defined.

Lemma add_delivery_agent_appends_witness :
  reachable demo_ready /\
  Dict.get "agent_2" (delivery_agents demo_ready) = None /\
  delivery_agents (final (add_delivery_agent "Ana Silva" "555-0101" "Car"
                            demo_ready))
  = delivery_agents demo_ready ++
    [("agent_2", mkAgent "Ana Silva" "555-0101" "Car" "available" None 0%Z)].
Proof.
  destruct (add_delivery_agent_appends "Ana Silva" "555-0101" "Car"
              demo_ready demo_ready_reachable)
    as (_ & Hnew & Happ & _).
  split; [exact demo_ready_reachable|]. split; [exact Hnew | exact Happ].
Defined.

Lemma place_order_bookkeeping_witness :
  Dict.get "cust_1" (customers demo_ready) = Some demo_customer /\
  Dict.get "rest_1" (restaurants demo_ready) = Some demo_restaurant /\
  result (place_order 1000 "cust_1" "rest_1" demo_items (Some "") demo_ready)
    = inr (Some "order_1") /\
  exists o,
    Dict.get "order_1"
      (orders (final (place_order 1000 "cust_1" "rest_1" demo_items (Some "")
                        demo_ready))) = Some o /\
    o_delivery_address o = "123 Main St" /\
    Dict.get "cust_1"
      (customers (final (place_order 1000 "cust_1" "rest_1" demo_items
                           (Some "") demo_ready)))
    = Some (with_order_history ([] ++ ["order_1"]) demo_customer).
Proof.
  destruct demo_items_accepted as (Hc & Hr & _).
  assert (Hres : result (place_order 1000 "cust_1" "rest_1" demo_items
                           (Some "") demo_ready) = inr (Some "order_1"))
    by (vm_compute; reflexivity).
  split; [exact Hc|]. split; [exact Hr|]. split; [exact Hres|].
  destruct (place_order_bookkeeping 1000 "cust_1" "rest_1" demo_items (Some "")
              demo_ready demo_customer demo_restaurant "order_1" Hc Hr Hres)
    as (o & Hget & _ & Haddr & Hcust & _).
  exists o. split; [exact Hget|]. split; [exact Haddr | exact Hcust].
Defined.

Lemma agent_record_is_kept_witness :
  reachable demo_assigned /\
  Dict.get "agent_1" (delivery_agents demo_assigned)
    = Some (busy_agent "order_1" demo_agent) /\
  exists a',
    Dict.get "agent_1"
      (delivery_agents (step (UpdateOrderStatus "order_1" "delivered")
                          demo_assigned)) = Some a' /\
    (a_total_deliveries (busy_agent "order_1" demo_agent)
       <= a_total_deliveries a')%Z.
Proof.
  assert (Ha : Dict.get "agent_1" (delivery_agents demo_assigned)
               = Some (busy_agent "order_1" demo_agent))
    by (vm_compute; reflexivity).
  split; [exact demo_assigned_reachable|]. split; [exact Ha|].
  destruct (agent_record_is_kept (UpdateOrderStatus "order_1" "delivered")
              demo_assigned "agent_1" (busy_agent "order_1" demo_agent)
              demo_assigned_reachable Ha) as (a' & Hget & _ & Hle).
  exists a'. split; [exact Hget | exact Hle].
Defined.

Lemma rating_is_never_updated_witness :
  reachable demo_placed /\
  Dict.get "rest_1" (restaurants demo_placed) = Some demo_restaurant_placed /\
  r_rating demo_restaurant_placed = nzero.
Proof.
  assert (Hr : Dict.get "rest_1" (restaurants demo_placed)
               = Some demo_restaurant_placed) by (vm_compute; reflexivity).
  split; [exact demo_placed_reachable|]. split; [exact Hr|].
  exact (rating_is_never_updated demo_placed "rest_1" demo_restaurant_placed
           demo_placed_reachable Hr).
Defined.

End MoreRuns.

(** ** How calls compose *)

Section Compositions.
Context {num : Type} `{NumOps : PyNum num} `{StrOps : PyStr}.
Implicit Types (s : Data num) (o : Order num) (a : Agent) (c : Call num).
Implicit Types (counts : dict Z).

Lemma counts_total_incr k counts :
  counts_total (Dict.set k (default 0 (Dict.get k counts) + 1)%Z counts)
  = (counts_total counts + 1)%Z.
Proof.
  unfold counts_total, Dict.values.
  induction counts as [|[k' v'] counts IH]; simpl.
  - done.
  - destruct (String.eqb k k'); simpl; lia.
Qed.

Lemma counts_total_fold (os : list (Order num)) counts :
  counts_total (fold_left count_status os counts)
  = (counts_total counts + Z.of_nat (length os))%Z.
Proof.
  revert counts. induction os as [|o os IH]; intros counts; simpl; [lia|].
  rewrite IH. unfold count_status. rewrite counts_total_incr. lia.
Qed.

(** X24. The counts of the report's status breakdown add up to its
    [total_orders]: every order is counted under exactly one status. *)
Theorem status_breakdown_adds_up now s :
  exists rep,
    result (generate_report now s) = inr rep /\
    counts_total (rep_order_status_breakdown rep)
      = Z.of_nat (rep_total_orders rep).
Proof.
  eexists. split; [reflexivity|]. simpl. rewrite counts_total_fold.
  unfold Dict.values. by rewrite length_fmap.
Qed.

Lemma accepted_lines_valid_items (menu : dict (MenuItem num)) items :
  accepted_lines menu (valid_items menu items) = accepted_lines menu items.
Proof.
  unfold accepted_lines, valid_items.
  induction items as [|p items IH]; [done|].
  rewrite filter_cons. simpl.
  destruct (decide (is_Some (capture menu p))) as [[li Hli]|Hno]; simpl.
  - rewrite Hli. f_equal. apply IH.
  - destruct (capture menu p) as [li|]; [by destruct Hno; eauto | apply IH].
Qed.

(** X25. Pairs that name an unknown or unavailable item only cost a log
    record: [place_order] returns the same value and leaves the same state
    as when it is called with the valid pairs alone. *)
Theorem place_order_ignores_invalid_items
    now customer_id restaurant_id items addr s r :
  Dict.get restaurant_id (restaurants s) = Some r ->
  let out := place_order now customer_id restaurant_id items addr s in
  let out' :=
    place_order now customer_id restaurant_id (valid_items (r_menu r) items)
      addr s in
  result out = result out' /\ final out = final out'.
Proof.
  intros Hr out out'. subst out out'.
  destruct (Dict.get customer_id (customers s)) as [cu|] eqn:Hc.
  2:{ unfold place_order. unfold_op. simpl. by rewrite Hc. }
  destruct (place_order_run now customer_id restaurant_id items addr s cu r Hc Hr)
    as (evs & _ & ->).
  destruct (place_order_run now customer_id restaurant_id
              (valid_items (r_menu r) items) addr s cu r Hc Hr)
    as (evs' & _ & ->).
  rewrite accepted_lines_valid_items.
  destruct (accepted_lines (r_menu r) items) as [|li lines]; [done|].
  cbv zeta. by destruct (lines_overflow (li :: lines)).
Qed.

(** X26. Nothing guards against a repeated delivery: from a reachable
    state, marking the same order ["delivered"] twice adds two to the
    [total_deliveries] of its agent. *)
Theorem delivered_twice_counts_twice order_id agent_id s o a :
  reachable s ->
  Dict.get order_id (orders s) = Some o ->
  o_delivery_agent o = Some agent_id ->
  Dict.get agent_id (delivery_agents s) = Some a ->
  let s1 := final (update_order_status order_id "delivered" s) in
  let s2 := final (update_order_status order_id "delivered" s1) in
  Dict.get agent_id (delivery_agents s2)
  = Some (mkAgent (a_name a) (a_phone a) (a_vehicle_type a) "available" None
            (a_total_deliveries a + 2)%Z).
Proof.
  intros Hreach Ho Hag Ha s1 s2.
  destruct (inv_assigned _ (reachable_lifecycle_invariant s Hreach)
              _ _ _ Ho Hag) as [Hne _].
  assert (truthy (Some agent_id) = Some agent_id) as Ht.
  { apply truthy_given. by split. }
  assert (s1 = with_agents
                 (Dict.set agent_id (delivered_agent a) (delivery_agents s))
                 (with_orders
                    (Dict.set order_id (with_status "delivered" o) (orders s))
                    s)) as Hs1.
  { subst s1. rewrite (update_order_status_run _ _ _ _ Ho). simpl.
    by rewrite Hag, Ht, Ha. }
  subst s2. rewrite Hs1.
  rewrite (update_order_status_run order_id "delivered" _
             (with_status "delivered" o)) by apply dict_get_set_eq.
  simpl. rewrite Hag, Ht. simpl. rewrite dict_get_set_eq. simpl.
  rewrite dict_get_set_eq. unfold delivered_agent. simpl.
  do 2 f_equal. lia.
Qed.

(** X27. The last status written wins: after an update to any status other
    than ["delivered"], a further update of the same order leaves the state
    that it would have left without the first one. *)
Theorem update_order_status_last_wins order_id status1 status2 s :
  status1 <> "delivered" ->
  final (update_order_status order_id status2
           (final (update_order_status order_id status1 s)))
  = final (update_order_status order_id status2 s).
Proof.
  intros Hne%String.eqb_neq.
  destruct (Dict.get order_id (orders s)) as [o|] eqn:Ho.
  2:{ rewrite (update_order_status_unknown order_id status1) by done. done. }
  rewrite (update_order_status_run order_id status1 _ _ Ho), Hne. simpl.
  rewrite (update_order_status_run order_id status2 _
             (with_status status1 o)) by apply dict_get_set_eq.
  rewrite (update_order_status_run order_id status2 _ _ Ho). simpl.
  rewrite dict_set_set.
  destruct (String.eqb status2 "delivered");
    [destruct (truthy (o_delivery_agent o)) as [agent_id|];
       [destruct (Dict.get agent_id (delivery_agents s)) as [a|]|]|];
    done.
Qed.

Lemma reachable_agents_consistent s : reachable s -> agents_consistent s.
Proof.
  revert s. apply reachable_ind_transition.
  - by intros k a Hget.
  - apply agents_consistent_transition.
Qed.

(** X28. From a reachable state a successful [assign_delivery_agent]
    gives the order to an agent that was available and had no current
    order; the order records that agent and the status ["assigned"], and
    the agent becomes busy with the order, keeping its other fields. *)
Theorem assign_picks_an_available_agent now r_agent r_minutes order_id s o :
  reachable s ->
  Dict.get order_id (orders s) = Some o ->
  has_available_agent s ->
  let out := assign_delivery_agent now r_agent r_minutes order_id s in
  exists agent_id a o',
    Dict.get agent_id (delivery_agents s) = Some a /\
    a_status a = "available" /\
    a_current_order a = None /\
    result out = inr tt /\
    Dict.get order_id (orders (final out)) = Some o' /\
    o_delivery_agent o' = Some agent_id /\
    o_status o' = "assigned" /\
    Dict.get agent_id (delivery_agents (final out))
      = Some (busy_agent order_id a).
Proof.
  intros Hreach Ho Hav%has_available_agent_filter out. subst out.
  destruct (assign_delivery_agent_run now r_agent r_minutes order_id s o Ho Hav)
    as (agent & agent_id & a & Hdraw & _ & Hmem & Ha & ->).
  apply list_elem_of_lookup_2 in Hdraw.
  apply list_elem_of_filter in Hdraw as [Hst _].
  rewrite (dict_elem_get_NoDup _ _ _ (reachable_agent_ids_NoDup s Hreach) Hmem)
    in Ha. injection Ha as <-.
  pose proof (dict_elem_get_NoDup _ _ _ (reachable_agent_ids_NoDup s Hreach)
                Hmem) as Hget.
  eexists agent_id, agent, _. simpl. rewrite !dict_get_set_eq.
  split_and!; try done.
  by apply (reachable_agents_consistent s Hreach _ _ Hget).
Qed.

End Compositions.

Section CompositionRuns.
#[local] Existing Instance AsciiText.

Lemma place_order_ignores_invalid_items_witness :
  Dict.get "rest_1" (restaurants demo_ready) = Some demo_restaurant /\
  final (place_order 1000 "cust_1" "rest_1"
           [("item_9", 3%Z); ("item_1", 2%Z); ("item_2", 1%Z)] None demo_ready)
  = final (place_order 1000 "cust_1" "rest_1"
             (valid_items (r_menu demo_restaurant)
                [("item_9", 3%Z); ("item_1", 2%Z); ("item_2", 1%Z)])
             None demo_ready).
Proof.
  assert (Hr : Dict.get "rest_1" (restaurants demo_ready) = Some demo_restaurant)
    by (vm_compute; reflexivity).
  split; [exact Hr|].
  exact (proj2 (place_order_ignores_invalid_items 1000 "cust_1" "rest_1"
                  [("item_9", 3%Z); ("item_1", 2%Z); ("item_2", 1%Z)] None
                  demo_ready demo_restaurant Hr)).
Defined.

Lemma delivered_twice_counts_twice_witness :
  reachable demo_assigned /\
  Dict.get "order_1" (orders demo_assigned) = Some demo_order_assigned /\
  o_delivery_agent demo_order_assigned = Some "agent_1" /\
  Dict.get "agent_1" (delivery_agents demo_assigned)
    = Some (busy_agent "order_1" demo_agent) /\
  Dict.get "agent_1"
    (delivery_agents
       (final (update_order_status "order_1" "delivered"
                 (final (update_order_status "order_1" "delivered"
                           demo_assigned)))))
  = Some (mkAgent "Mike Johnson" "987-654-3210" "Bike" "available" None
            (0 + 2)%Z).
Proof.
  assert (Ho : Dict.get "order_1" (orders demo_assigned)
               = Some demo_order_assigned) by (vm_compute; reflexivity).
  assert (Hag : o_delivery_agent demo_order_assigned = Some "agent_1")
    by reflexivity.
  assert (Ha : Dict.get "agent_1" (delivery_agents demo_assigned)
               = Some (busy_agent "order_1" demo_agent))
    by (vm_compute; reflexivity).
  split; [exact demo_assigned_reachable|]. split; [exact Ho|].
  split; [exact Hag|]. split; [exact Ha|].
  exact (delivered_twice_counts_twice "order_1" "agent_1" demo_assigned
           demo_order_assigned (busy_agent "order_1" demo_agent)
           demo_assigned_reachable Ho Hag Ha).
Defined.

Lemma update_order_status_last_wins_witness :
  "preparing" <> "delivered" /\
  final (update_order_status "order_1" "delivered"
           (final (update_order_status "order_1" "preparing" demo_assigned)))
  = final (update_order_status "order_1" "delivered" demo_assigned).
Proof.
  assert (Hne : "preparing" <> "delivered") by discriminate.
  split; [exact Hne|].
  exact (update_order_status_last_wins "order_1" "preparing" "delivered"
           demo_assigned Hne).
Defined.

Lemma assign_picks_an_available_agent_witness :
  reachable demo_placed /\
  Dict.get "order_1" (orders demo_placed) = Some demo_order /\
  has_available_agent demo_placed /\
  exists agent_id a o',
    Dict.get agent_id (delivery_agents demo_placed) = Some a /\
    a_status a = "available" /\
    Dict.get "order_1"
      (orders (final (assign_delivery_agent 2000 0 7 "order_1" demo_placed)))
      = Some o' /\
    o_delivery_agent o' = Some agent_id.
Proof.
  assert (Ho : Dict.get "order_1" (orders demo_placed) = Some demo_order)
    by (vm_compute; reflexivity).
  split; [exact demo_placed_reachable|]. split; [exact Ho|].
  split; [exact demo_placed_has_available_agent|].
  destruct (assign_picks_an_available_agent 2000 0 7 "order_1" demo_placed
              demo_order demo_placed_reachable Ho
              demo_placed_has_available_agent)
    as (agent_id & a & o' & Ha & Hst & _ & _ & Ho' & Hag & _).
  exists agent_id, a, o'. split; [exact Ha|]. split; [exact Hst|].
  split; [exact Ho' | exact Hag].
Defined.

End CompositionRuns.
